(** * Web POS back end: the sale model, the list queries and the analytics

    A shallow embedding of [src/models/Sale.js], [SaleItem.js],
    [Customer.js], [Supplier.js], [Quantity.js], [src/utils/helpers.js],
    [src/services/SaleService.js], [CustomerService.js] and of the sale
    routes of [SaleController.js], followed by the properties the
    specification states about them.

    Conventions of the embedding.
    - A string is a sequence of UTF-16 code units, as in JavaScript:
      the [length], the regular expressions (none carries the [u] flag)
      and [trim] all work on code units.
    - Numbers.  Identifiers, counts, page numbers and epoch milliseconds
      are integers as they stand.  Money is modelled twice.  The
      modules [Sale], [SaleItem] and the services hold an amount as an
      exact integer count of minor units (cents): 25.00 is [2500]; what
      is proved there is about which amounts are read, compared, stored
      and returned, and it assumes that each line carries a quantity and
      a unit price.  The module [Binary64]
      holds [Sale.calculateTotals] on the numbers the engine computes
      with, IEEE 754 binary64, [NaN], the infinities and missing
      properties included; what the specification says of the exact
      result of the calculation is settled there.
    - A property of a JavaScript object that may be [undefined] or [null]
      is an [option]; the operator [||] is [js_or], which tests
      truthiness the way JavaScript does for the type at hand.
    - A property that holds a date holds a [Date] object, [startDate] and
      [endDate] included, so that [new Date(startDate)] is [startDate].
    - [Date.now()] and [new Date()] read a clock: a sequence of readings
      and the index of the next one.
    - [console.error] before a rethrow leaves no trace in the model.
    - The document store is the list of documents of each collection,
      in insertion order; the identifier it gives a document is an
      [ObjectId], and a query by [_id] compares the value it is handed
      with it: the string of a URL is not an [ObjectId]. *)

From Stdlib Require Import ZArith List Ascii Strings.Byte Bool Lia QArith Sorted Floats.
Import ListNotations.

Set Implicit Arguments.

(** ** Strings *)

(** A code unit: a number below 65536. *)
Definition char : Set := N.

Bind Scope N_scope with char.

Inductive string : Set :=
| EmptyString
| String (c : char) (s : string).

Module String.

Fixpoint eqb (a b : string) : bool :=
  match a, b with
  | EmptyString, EmptyString => true
  | String x a', String y b' => N.eqb x y && eqb a' b'
  | _, _ => false
  end.

Fixpoint append (a b : string) : string :=
  match a with
  | EmptyString => b
  | String c a' => String c (append a' b)
  end.

Fixpoint length (s : string) : nat :=
  match s with
  | EmptyString => O
  | String _ s' => S (length s')
  end.

(** The strings of a list with a separator between them. *)
Fixpoint concat (sep : string) (l : list string) : string :=
  match l with
  | [] => EmptyString
  | [x] => x
  | x :: l' => append x (append sep (concat sep l'))
  end.

(** The order of two strings, code unit by code unit. *)
Fixpoint leb (a b : string) : bool :=
  match a, b with
  | EmptyString, _ => true
  | String _ _, EmptyString => false
  | String x a', String y b' =>
      if N.ltb x y then true else if N.eqb x y then leb a' b' else false
  end.

(** The literals of this file are ASCII: a byte is its code unit. *)
Definition of_bytes (l : list Byte.byte) : option string :=
  fold_right
    (fun b acc =>
       match acc with
       | Some s => if N.ltb (Byte.to_N b) 128 then Some (String (Byte.to_N b) s) else None
       | None => None
       end)
    (Some EmptyString) l.

Fixpoint to_bytes (s : string) : option (list Byte.byte) :=
  match s with
  | EmptyString => Some []
  | String c s' =>
      match Byte.of_N c, to_bytes s' with
      | Some b, Some l => if N.ltb c 128 then Some (b :: l) else None
      | _, _ => None
      end
  end.

End String.

Declare Scope js_scope.
Delimit Scope js_scope with string.
Bind Scope js_scope with string.
String Notation string String.of_bytes String.to_bytes : js_scope.
Infix "++" := String.append : js_scope.

Local Open Scope js_scope.
Local Open Scope Z_scope.

(** ** JavaScript values *)

Module JS.

(** Truthiness, per type.  [falsy v = true] when [ToBoolean(v)] is false. *)
Class Falsy (A : Type) := falsy : A -> bool.

#[global] Instance Falsy_number : Falsy Z := fun z => z =? 0.
#[global] Instance Falsy_string : Falsy string := fun s => String.eqb s "".
(** An array is an object: always truthy, also when empty. *)
#[global] Instance Falsy_array (A : Type) : Falsy (list A) := fun _ => false.

(** [x || d], where [None] is [undefined] or [null]. *)
Definition js_or {A} `{Falsy A} (x : option A) (d : A) : A :=
  match x with
  | Some v => if falsy v then d else v
  | None => d
  end.

(** [x || null]. *)
Definition js_or_null {A} `{Falsy A} (x : option A) : option A :=
  match x with
  | Some v => if falsy v then None else Some v
  | None => None
  end.

(** White space: the code units that [String.prototype.trim] strips
    and that [\s] matches.  TAB, LF, VT, FF and CR; SPACE; NO-BREAK
    SPACE; OGHAM SPACE MARK; EN QUAD to HAIR SPACE; LINE SEPARATOR and
    PARAGRAPH SEPARATOR; NARROW NO-BREAK SPACE; MEDIUM MATHEMATICAL
    SPACE; IDEOGRAPHIC SPACE; and the BYTE ORDER MARK. *)
Definition is_space (c : char) : bool :=
  (((9 <=? c) && (c <=? 13))
   || (c =? 32) || (c =? 160) || (c =? 5760)
   || ((8192 <=? c) && (c <=? 8202))
   || (c =? 8232) || (c =? 8233) || (c =? 8239) || (c =? 8287)
   || (c =? 12288) || (c =? 65279))%N.

Fixpoint trimStart (s : string) : string :=
  match s with
  | EmptyString => EmptyString
  | String c s' => if is_space c then trimStart s' else s
  end.

Fixpoint trimEnd (s : string) : string :=
  match s with
  | EmptyString => EmptyString
  | String c s' =>
      match trimEnd s' with
      | EmptyString => if is_space c then EmptyString else String c EmptyString
      | t => String c t
      end
  end.

Definition trim (s : string) : string := trimEnd (trimStart s).

(** [Array.prototype.join]. *)
Definition join (sep : string) (l : list string) : string := String.concat sep l.

(** The result of [Math.ceil(a / b)] on integers: a quotient by zero is
    [Infinity], [-Infinity] or [NaN], none of them a finite number. *)
Inductive number :=
| Finite (z : Z)
| NotFinite.

Definition Math_ceil_div (a b : Z) : number :=
  if b =? 0 then NotFinite else Finite (- ((- a) / b)).

End JS.

Import JS.

(** ** Regular expressions

    The patterns of the models are anchored at both ends and carry no
    flag, so [RegExp.prototype.test] asks whether the whole string
    belongs to the language of the pattern.  A pattern is matched by
    taking its derivative by each character in turn. *)

Module Regex.

Inductive t :=
| Never
| Empty
| Class (p : char -> bool)
| Seq (a b : t)
| Or (a b : t)
| Star (a : t).

Fixpoint nullable (r : t) : bool :=
  match r with
  | Never => false
  | Empty => true
  | Class _ => false
  | Seq a b => nullable a && nullable b
  | Or a b => nullable a || nullable b
  | Star _ => true
  end.

Fixpoint derive (c : char) (r : t) : t :=
  match r with
  | Never => Never
  | Empty => Never
  | Class p => if p c then Empty else Never
  | Seq a b =>
      if nullable a then Or (Seq (derive c a) b) (derive c b)
      else Seq (derive c a) b
  | Or a b => Or (derive c a) (derive c b)
  | Star a => Seq (derive c a) (Star a)
  end.

Fixpoint test (r : t) (s : string) : bool :=
  match s with
  | EmptyString => nullable r
  | String c s' => test (derive c r) s'
  end.

(** [r+], [r?] and [r{0,n}] *)
Definition plus (r : t) : t := Seq r (Star r).

Definition optional (r : t) : t := Or r Empty.

Fixpoint at_most (n : nat) (r : t) : t :=
  match n with
  | O => Empty
  | S n' => Or Empty (Seq r (at_most n' r))
  end.

(** The strings of a pattern. *)
Inductive matches : t -> string -> Prop :=
| m_Empty : matches Empty EmptyString
| m_Class (p : char -> bool) (c : char) :
    p c = true -> matches (Class p) (String c EmptyString)
| m_Seq (a b : t) (s1 s2 : string) :
    matches a s1 -> matches b s2 -> matches (Seq a b) (String.append s1 s2)
| m_Or_l (a b : t) (s : string) : matches a s -> matches (Or a b) s
| m_Or_r (a b : t) (s : string) : matches b s -> matches (Or a b) s
| m_Star_nil (a : t) : matches (Star a) EmptyString
| m_Star_cons (a : t) (s1 s2 : string) :
    matches a s1 -> matches (Star a) s2 -> matches (Star a) (String.append s1 s2).

(** Every character of a string is in a class. *)
Fixpoint every (p : char -> bool) (s : string) : bool :=
  match s with
  | EmptyString => true
  | String c s' => p c && every p s'
  end.

(** [s.replace(/[...]/g, '')]: the string without the characters of a
    class. *)
Fixpoint without (p : char -> bool) (s : string) : string :=
  match s with
  | EmptyString => EmptyString
  | String c s' => if p c then without p s' else String c (without p s')
  end.

(** A class of one character, named by its ASCII letter. *)
Definition is_char (x : ascii) (c : char) : bool := N.eqb c (N_of_ascii x).

(** [\d]: the digits [0] to [9] of ASCII. *)
Definition digit (c : char) : bool := ((48 <=? c) && (c <=? 57))%N.

(** [[^\s@]] *)
Definition not_space_nor_at (c : char) : bool :=
  negb (is_space c || is_char "@" c).

(** [/^[^\s@]+@[^\s@]+\.[^\s@]+$/] *)
Definition emailRegex : t :=
  Seq (plus (Class not_space_nor_at))
    (Seq (Class (is_char "@"))
       (Seq (plus (Class not_space_nor_at))
          (Seq (Class (is_char "."))
             (plus (Class not_space_nor_at))))).

(** [[1-9]] *)
Definition one_to_nine (c : char) : bool := ((49 <=? c) && (c <=? 57))%N.

(** [/^[\+]?[1-9][\d]{0,15}$/] *)
Definition phoneRegex : t :=
  Seq (optional (Class (is_char "+")))
    (Seq (Class one_to_nine) (at_most 15 (Class digit))).

(** [[\s\-\(\)]] *)
Definition phone_filler (c : char) : bool :=
  is_space c || is_char "-" c || is_char "(" c || is_char ")" c.

End Regex.

(** ** Effects *)

Class Monad (M : Type -> Type) := {
  ret : forall {A}, A -> M A;
  bind : forall {A B}, M A -> (A -> M B) -> M B
}.

Notation "x <- c ;; k" := (bind c (fun x => k))
  (at level 61, c at next level, right associativity).

(** A [Date] object; as an object it is always truthy. *)
Record Date := { epoch_ms : Z }.

#[global] Instance Falsy_Date : Falsy Date := fun _ => false.

(** The identifier the store assigns to a document; an object, truthy. *)
Record ObjectId := { oid : N }.

#[global] Instance Falsy_ObjectId : Falsy ObjectId := fun _ => false.

(** What a caller hands to a service as the identifier of a document:
    an [ObjectId], as [insertedId] is, or a string, as [req.params.id]
    is.  No code of the services or of the controllers turns the one
    into the other. *)
Inductive Identifier :=
| OfObjectId (i : ObjectId)
| OfString (s : string).

Coercion OfObjectId : ObjectId >-> Identifier.

(** The clock: [readings k] is what the [k]-th read of the system time
    returns, [ticks] counts the reads made so far. *)
Record Clock := { readings : nat -> Z; ticks : nat }.

Definition Clocked (A : Type) : Type := Clock -> A * Clock.

#[global] Instance Monad_Clocked : Monad Clocked := {
  ret := fun A (a : A) c => (a, c);
  bind := fun A B (m : Clocked A) (k : A -> Clocked B) c =>
            let (a, c') := m c in k a c'
}.

Definition Date_now : Clocked Z :=
  fun c => (readings c (ticks c), {| readings := readings c; ticks := S (ticks c) |}).

Definition new_Date : Clocked Date :=
  fun c => ({| epoch_ms := readings c (ticks c) |},
            {| readings := readings c; ticks := S (ticks c) |}).

(** [x || e] where [e] has an effect: [e] runs only when [x] is falsy. *)
Definition js_or_do {A} `{Falsy A} (x : option A) (e : Clocked A) : Clocked A :=
  match x with
  | Some v => if falsy v then e else ret v
  | None => e
  end.

(** ** SaleItem.js *)

Module SaleItem.

(** The properties of a line item, on exact amounts.  Here a line
    carries a quantity and a unit price; a line that lacks one has no
    exact amount ([NaN] in the engine) and is dealt with in
    [Binary64].  The other properties may be absent. *)
Record fields := {
  mysqlId : option Z;
  productId : option Z;
  productName : option string;
  category : option string;
  quantity : Z;
  unitPrice : Z;
  subTotal : option Z
}.

(** An element of [saleItems] is a plain object (what a request body and
    [Sale.addItem] give) or an instance of the class [SaleItem], the only
    one of the two with a [toDocument] method. *)
Inductive t :=
| Plain (f : fields)
| Instance (f : fields).

Definition get (it : t) : fields :=
  match it with
  | Plain f => f
  | Instance f => f
  end.

(** [SaleItem.prototype.toDocument]: a plain object with the seven
    properties copied. *)
Definition toDocument (f : fields) : t :=
  Plain {| mysqlId := mysqlId f; productId := productId f;
           productName := productName f; category := category f;
           quantity := quantity f; unitPrice := unitPrice f;
           subTotal := subTotal f |}.

End SaleItem.

(** ** Sale.js *)

Module Sale.

Record t := {
  id : option ObjectId;
  mysqlId : option Z;
  saleId : string;
  customerId : option Z;
  customerContact : string;
  saleItems : list SaleItem.t;
  subTotal : Z;
  taxAmount : Z;
  discountAmount : Z;
  totalAmount : Z;
  paidAmount : Z;
  changeAmount : Z;
  paymentMethod : string;
  saleDate : Date;
  timestamp : Z
}.

(** The object a caller hands to the constructor or to [create]: every
    property may be missing. *)
Record data := {
  d_id : option ObjectId;
  d_mysqlId : option Z;
  d_saleId : option string;
  d_customerId : option Z;
  d_customerContact : option string;
  d_saleItems : option (list SaleItem.t);
  d_subTotal : option Z;
  d_taxAmount : option Z;
  d_discountAmount : option Z;
  d_totalAmount : option Z;
  d_paidAmount : option Z;
  d_changeAmount : option Z;
  d_paymentMethod : option string;
  d_saleDate : option Date;
  d_timestamp : option Z
}.

(** A document of the collection [sales]: what [toDocument] writes, and
    the [_id] the store adds. *)
Record doc := {
  _id : option ObjectId;
  doc_mysqlId : option Z;
  doc_saleId : string;
  doc_customerId : option Z;
  doc_customerContact : string;
  doc_saleItems : list SaleItem.t;
  doc_subTotal : Z;
  doc_taxAmount : Z;
  doc_discountAmount : Z;
  doc_totalAmount : Z;
  doc_paidAmount : Z;
  doc_changeAmount : Z;
  doc_paymentMethod : string;
  doc_saleDate : Date;
  doc_timestamp : Z
}.

(** [constructor(data = {})] *)
Definition new (d : data) : Clocked t :=
  sd <- js_or_do (d_saleDate d) new_Date ;;
  ts <- js_or_do (d_timestamp d) Date_now ;;
  ret {| id := js_or_null (d_id d);
         mysqlId := js_or_null (d_mysqlId d);
         saleId := js_or (d_saleId d) "";
         customerId := js_or_null (d_customerId d);
         customerContact := js_or (d_customerContact d) "";
         saleItems := js_or (d_saleItems d) [];
         subTotal := js_or (d_subTotal d) 0;
         taxAmount := js_or (d_taxAmount d) 0;
         discountAmount := js_or (d_discountAmount d) 0;
         totalAmount := js_or (d_totalAmount d) 0;
         paidAmount := js_or (d_paidAmount d) 0;
         changeAmount := js_or (d_changeAmount d) 0;
         paymentMethod := js_or (d_paymentMethod d) "";
         saleDate := sd;
         timestamp := ts |}.

(** [static create(data)] *)
Definition create (d : data) : Clocked t :=
  sd <- js_or_do (d_saleDate d) new_Date ;;
  now <- Date_now ;;
  new {| d_id := None;
         d_mysqlId := d_mysqlId d;
         d_saleId := d_saleId d;
         d_customerId := d_customerId d;
         d_customerContact := d_customerContact d;
         d_saleItems := Some (js_or (d_saleItems d) []);
         d_subTotal := Some (js_or (d_subTotal d) 0);
         d_taxAmount := Some (js_or (d_taxAmount d) 0);
         d_discountAmount := Some (js_or (d_discountAmount d) 0);
         d_totalAmount := Some (js_or (d_totalAmount d) 0);
         d_paidAmount := Some (js_or (d_paidAmount d) 0);
         d_changeAmount := Some (js_or (d_changeAmount d) 0);
         d_paymentMethod := d_paymentMethod d;
         d_saleDate := Some sd;
         d_timestamp := Some now |}.

(** [item => typeof item.toDocument === 'function' ? item.toDocument() : item] *)
Definition item_document (it : SaleItem.t) : SaleItem.t :=
  match it with
  | SaleItem.Instance f => SaleItem.toDocument f
  | SaleItem.Plain _ => it
  end.

(** [toDocument()]: every property but [id]. *)
Definition toDocument (s : t) : doc :=
  {| _id := None;
     doc_mysqlId := mysqlId s;
     doc_saleId := saleId s;
     doc_customerId := customerId s;
     doc_customerContact := customerContact s;
     doc_saleItems := map item_document (saleItems s);
     doc_subTotal := subTotal s;
     doc_taxAmount := taxAmount s;
     doc_discountAmount := discountAmount s;
     doc_totalAmount := totalAmount s;
     doc_paidAmount := paidAmount s;
     doc_changeAmount := changeAmount s;
     doc_paymentMethod := paymentMethod s;
     doc_saleDate := saleDate s;
     doc_timestamp := timestamp s |}.

(** [static fromDocument(doc)] *)
Definition fromDocument (d : doc) : Clocked t :=
  new {| d_id := _id d;
         d_mysqlId := doc_mysqlId d;
         d_saleId := Some (doc_saleId d);
         d_customerId := doc_customerId d;
         d_customerContact := Some (doc_customerContact d);
         d_saleItems := Some (js_or (Some (doc_saleItems d)) []);
         d_subTotal := Some (doc_subTotal d);
         d_taxAmount := Some (doc_taxAmount d);
         d_discountAmount := Some (doc_discountAmount d);
         d_totalAmount := Some (doc_totalAmount d);
         d_paidAmount := Some (doc_paidAmount d);
         d_changeAmount := Some (doc_changeAmount d);
         d_paymentMethod := Some (doc_paymentMethod d);
         d_saleDate := Some (doc_saleDate d);
         d_timestamp := Some (doc_timestamp d) |}.

(** [{ _id: insertedId, ...document }] *)
Definition with_id (i : ObjectId) (d : doc) : doc :=
  {| _id := Some i;
     doc_mysqlId := doc_mysqlId d;
     doc_saleId := doc_saleId d;
     doc_customerId := doc_customerId d;
     doc_customerContact := doc_customerContact d;
     doc_saleItems := doc_saleItems d;
     doc_subTotal := doc_subTotal d;
     doc_taxAmount := doc_taxAmount d;
     doc_discountAmount := doc_discountAmount d;
     doc_totalAmount := doc_totalAmount d;
     doc_paidAmount := doc_paidAmount d;
     doc_changeAmount := doc_changeAmount d;
     doc_paymentMethod := doc_paymentMethod d;
     doc_saleDate := doc_saleDate d;
     doc_timestamp := doc_timestamp d |}.

(** [item.subTotal || (item.quantity * item.unitPrice)] *)
Definition item_amount (it : SaleItem.t) : Z :=
  let f := SaleItem.get it in
  js_or (SaleItem.subTotal f) (SaleItem.quantity f * SaleItem.unitPrice f).

(** The three assignments of [calculateTotals()], in order; the object
    is updated in place, so the result is the object after the call. *)
Definition set_subTotal (v : Z) (s : t) : t :=
  {| id := id s; mysqlId := mysqlId s; saleId := saleId s;
     customerId := customerId s; customerContact := customerContact s;
     saleItems := saleItems s; subTotal := v; taxAmount := taxAmount s;
     discountAmount := discountAmount s; totalAmount := totalAmount s;
     paidAmount := paidAmount s; changeAmount := changeAmount s;
     paymentMethod := paymentMethod s; saleDate := saleDate s;
     timestamp := timestamp s |}.

Definition set_totalAmount (v : Z) (s : t) : t :=
  {| id := id s; mysqlId := mysqlId s; saleId := saleId s;
     customerId := customerId s; customerContact := customerContact s;
     saleItems := saleItems s; subTotal := subTotal s; taxAmount := taxAmount s;
     discountAmount := discountAmount s; totalAmount := v;
     paidAmount := paidAmount s; changeAmount := changeAmount s;
     paymentMethod := paymentMethod s; saleDate := saleDate s;
     timestamp := timestamp s |}.

Definition set_changeAmount (v : Z) (s : t) : t :=
  {| id := id s; mysqlId := mysqlId s; saleId := saleId s;
     customerId := customerId s; customerContact := customerContact s;
     saleItems := saleItems s; subTotal := subTotal s; taxAmount := taxAmount s;
     discountAmount := discountAmount s; totalAmount := totalAmount s;
     paidAmount := paidAmount s; changeAmount := v;
     paymentMethod := paymentMethod s; saleDate := saleDate s;
     timestamp := timestamp s |}.

Definition set_saleItems (v : list SaleItem.t) (s : t) : t :=
  {| id := id s; mysqlId := mysqlId s; saleId := saleId s;
     customerId := customerId s; customerContact := customerContact s;
     saleItems := v; subTotal := subTotal s; taxAmount := taxAmount s;
     discountAmount := discountAmount s; totalAmount := totalAmount s;
     paidAmount := paidAmount s; changeAmount := changeAmount s;
     paymentMethod := paymentMethod s; saleDate := saleDate s;
     timestamp := timestamp s |}.

Definition calculateTotals (s : t) : t :=
  let s1 := set_subTotal
              (fold_left (fun total item => total + item_amount item)
                         (saleItems s) 0) s in
  let s2 := set_totalAmount (subTotal s1 + taxAmount s1 - discountAmount s1) s1 in
  set_changeAmount (paidAmount s2 - totalAmount s2) s2.

(** [addItem(itemData)] *)
Definition addItem (itemData : SaleItem.fields) (s : t) : t :=
  let item := SaleItem.Plain
    {| SaleItem.mysqlId := SaleItem.mysqlId itemData;
       SaleItem.productId := SaleItem.productId itemData;
       SaleItem.productName := SaleItem.productName itemData;
       SaleItem.category := SaleItem.category itemData;
       SaleItem.quantity := SaleItem.quantity itemData;
       SaleItem.unitPrice := SaleItem.unitPrice itemData;
       SaleItem.subTotal :=
         Some (SaleItem.quantity itemData * SaleItem.unitPrice itemData) |} in
  calculateTotals (set_saleItems (saleItems s ++ [item]) s).

Record Validation := { isValid : bool; errors : list string }.

(** [errors.push(m)] when [cond] holds. *)
Definition push_if (cond : bool) (m : string) (errors : list string) : list string :=
  if cond then errors ++ [m] else errors.

Definition validate (s : t) : Validation :=
  let errors := [] in
  let errors :=
    push_if (falsy (saleId s) || String.eqb (trim (saleId s)) "")
            "Sale ID is required" errors in
  let errors :=
    push_if (falsy (saleItems s) || (List.length (saleItems s) =? 0)%nat)
            "Sale must have at least one item" errors in
  let errors :=
    push_if (totalAmount s <? 0)
            "Total amount cannot be negative" errors in
  let errors :=
    push_if (paidAmount s <? totalAmount s)
            "Paid amount must be greater than or equal to total amount" errors in
  {| isValid := (List.length errors =? 0)%nat; errors := errors |}.

End Sale.

(** ** Sale.js on the numbers of JavaScript

    [calculateTotals] once more, on what the engine computes with.  A
    number is an IEEE 754 binary64 value: finite, an infinity or [NaN];
    the sum, the difference and the product are the rounded ones.  A
    line of [saleItems] is the object the request body carried, or what
    [addItem] or the class [SaleItem] made: each property may be
    missing or [null], and no schema stands between a body and the
    model.  A property that holds a string, a boolean or an object
    where a number belongs, and an element of [saleItems] that is no
    object, are outside the model. *)

Module Binary64.

(** [ToBoolean] of a number: [0], [-0] and [NaN] are falsy. *)
#[global] Instance Falsy_float : Falsy float :=
  fun x => PrimFloat.eqb x 0 || PrimFloat.is_nan x.

(** What reading a numeric property of an object gives. *)
Inductive property :=
| Undefined
| Null
| Number (x : float).

(** [ToNumber] *)
Definition to_number (p : property) : float :=
  match p with
  | Undefined => nan
  | Null => 0%float
  | Number x => x
  end.

(** [a * b] on two properties. *)
Definition times (a b : property) : float :=
  PrimFloat.mul (to_number a) (to_number b).

(** [p || e] for a number [e]; what comes out is a number. *)
Definition or_else (p : property) (e : float) : float :=
  match p with
  | Number x => if falsy x then e else x
  | Undefined | Null => e
  end.

Module SaleItem.

Record t := {
  mysqlId : option Z;
  productId : option Z;
  productName : option string;
  category : option string;
  quantity : property;
  unitPrice : property;
  subTotal : property
}.

End SaleItem.

Module Sale.

(** A sale as the constructor leaves it: the six amounts are numbers. *)
Record t := {
  id : option ObjectId;
  mysqlId : option Z;
  saleId : string;
  customerId : option Z;
  customerContact : string;
  saleItems : list SaleItem.t;
  subTotal : float;
  taxAmount : float;
  discountAmount : float;
  totalAmount : float;
  paidAmount : float;
  changeAmount : float;
  paymentMethod : string;
  saleDate : Date;
  timestamp : Z
}.

(** [item.subTotal || (item.quantity * item.unitPrice)] *)
Definition item_amount (item : SaleItem.t) : float :=
  or_else (SaleItem.subTotal item)
          (times (SaleItem.quantity item) (SaleItem.unitPrice item)).

(** [calculateTotals()]: the three assignments in order, each reading
    what the one before wrote; the result is the object after the
    call. *)
Definition calculateTotals (s : t) : t :=
  let subTotal' :=
    fold_left (fun total item => PrimFloat.add total (item_amount item))
              (saleItems s) 0%float in
  let totalAmount' :=
    PrimFloat.sub (PrimFloat.add subTotal' (taxAmount s)) (discountAmount s) in
  let changeAmount' := PrimFloat.sub (paidAmount s) totalAmount' in
  {| id := id s; mysqlId := mysqlId s; saleId := saleId s;
     customerId := customerId s; customerContact := customerContact s;
     saleItems := saleItems s; subTotal := subTotal';
     taxAmount := taxAmount s; discountAmount := discountAmount s;
     totalAmount := totalAmount'; paidAmount := paidAmount s;
     changeAmount := changeAmount'; paymentMethod := paymentMethod s;
     saleDate := saleDate s; timestamp := timestamp s |}.

End Sale.

End Binary64.

(** ** Customer.js *)

Module Customer.

Record t := {
  id : option ObjectId;
  mysqlId : option Z;
  saleId : option string;
  contact : string;
  email : string;
  createdDate : Date;
  timestamp : Z
}.

Record data := {
  d_id : option ObjectId;
  d_mysqlId : option Z;
  d_saleId : option string;
  d_contact : option string;
  d_email : option string;
  d_createdDate : option Date;
  d_timestamp : option Z
}.

Record doc := {
  _id : option ObjectId;
  doc_mysqlId : option Z;
  doc_saleId : option string;
  doc_contact : string;
  doc_email : string;
  doc_createdDate : Date;
  doc_timestamp : Z
}.

Definition new (d : data) : Clocked t :=
  cd <- js_or_do (d_createdDate d) new_Date ;;
  ts <- js_or_do (d_timestamp d) Date_now ;;
  ret {| id := js_or_null (d_id d);
         mysqlId := js_or_null (d_mysqlId d);
         saleId := js_or_null (d_saleId d);
         contact := js_or (d_contact d) "";
         email := js_or (d_email d) "";
         createdDate := cd;
         timestamp := ts |}.

Definition create (d : data) : Clocked t :=
  cd <- js_or_do (d_createdDate d) new_Date ;;
  now <- Date_now ;;
  new {| d_id := None;
         d_mysqlId := d_mysqlId d;
         d_saleId := d_saleId d;
         d_contact := d_contact d;
         d_email := d_email d;
         d_createdDate := Some cd;
         d_timestamp := Some now |}.

Definition toDocument (c : t) : doc :=
  {| _id := None;
     doc_mysqlId := mysqlId c;
     doc_saleId := saleId c;
     doc_contact := contact c;
     doc_email := email c;
     doc_createdDate := createdDate c;
     doc_timestamp := timestamp c |}.

Definition fromDocument (d : doc) : Clocked t :=
  new {| d_id := _id d;
         d_mysqlId := doc_mysqlId d;
         d_saleId := doc_saleId d;
         d_contact := Some (doc_contact d);
         d_email := Some (doc_email d);
         d_createdDate := Some (doc_createdDate d);
         d_timestamp := Some (doc_timestamp d) |}.

(** [isValidEmail(email)] *)
Definition isValidEmail (email : string) : bool :=
  Regex.test Regex.emailRegex email.

(** [validate()]; the result has the shape of [Sale.validate]'s. *)
Definition validate (c : t) : Sale.Validation :=
  let errors := [] in
  let errors :=
    Sale.push_if (falsy (contact c) || String.eqb (trim (contact c)) "")
                 "Contact is required" errors in
  let errors :=
    Sale.push_if (negb (falsy (email c)) && negb (isValidEmail (email c)))
                 "Invalid email format" errors in
  {| Sale.isValid := (List.length errors =? 0)%nat; Sale.errors := errors |}.

End Customer.

(** ** Supplier.js *)

Module Supplier.

Record t := {
  id : option ObjectId;
  mysqlId : option Z;
  name : string;
  contact : string;
  contactPerson : string;
  phone : string;
  email : string;
  address : string;
  createdDate : Date;
  timestamp : Z
}.

Record data := {
  d_id : option ObjectId;
  d_mysqlId : option Z;
  d_name : option string;
  d_contact : option string;
  d_contactPerson : option string;
  d_phone : option string;
  d_email : option string;
  d_address : option string;
  d_createdDate : option Date;
  d_timestamp : option Z
}.

Record doc := {
  _id : option ObjectId;
  doc_mysqlId : option Z;
  doc_name : string;
  doc_contact : string;
  doc_contactPerson : string;
  doc_phone : string;
  doc_email : string;
  doc_address : string;
  doc_createdDate : Date;
  doc_timestamp : Z
}.

Definition new (d : data) : Clocked t :=
  cd <- js_or_do (d_createdDate d) new_Date ;;
  ts <- js_or_do (d_timestamp d) Date_now ;;
  ret {| id := js_or_null (d_id d);
         mysqlId := js_or_null (d_mysqlId d);
         name := js_or (d_name d) "";
         contact := js_or (d_contact d) "";
         contactPerson := js_or (d_contactPerson d) "";
         phone := js_or (d_phone d) "";
         email := js_or (d_email d) "";
         address := js_or (d_address d) "";
         createdDate := cd;
         timestamp := ts |}.

Definition create (d : data) : Clocked t :=
  cd <- js_or_do (d_createdDate d) new_Date ;;
  now <- Date_now ;;
  new {| d_id := None;
         d_mysqlId := d_mysqlId d;
         d_name := d_name d;
         d_contact := d_contact d;
         d_contactPerson := d_contactPerson d;
         d_phone := d_phone d;
         d_email := d_email d;
         d_address := d_address d;
         d_createdDate := Some cd;
         d_timestamp := Some now |}.

Definition toDocument (s : t) : doc :=
  {| _id := None;
     doc_mysqlId := mysqlId s;
     doc_name := name s;
     doc_contact := contact s;
     doc_contactPerson := contactPerson s;
     doc_phone := phone s;
     doc_email := email s;
     doc_address := address s;
     doc_createdDate := createdDate s;
     doc_timestamp := timestamp s |}.

Definition fromDocument (d : doc) : Clocked t :=
  new {| d_id := _id d;
         d_mysqlId := doc_mysqlId d;
         d_name := Some (doc_name d);
         d_contact := Some (doc_contact d);
         d_contactPerson := Some (doc_contactPerson d);
         d_phone := Some (doc_phone d);
         d_email := Some (doc_email d);
         d_address := Some (doc_address d);
         d_createdDate := Some (doc_createdDate d);
         d_timestamp := Some (doc_timestamp d) |}.

(** [isValidEmail(email)] *)
Definition isValidEmail (email : string) : bool :=
  Regex.test Regex.emailRegex email.

(** [isValidPhone(phone)] *)
Definition isValidPhone (phone : string) : bool :=
  Regex.test Regex.phoneRegex (Regex.without Regex.phone_filler phone).

(** [validate()]; the result has the shape of [Sale.validate]'s. *)
Definition validate (s : t) : Sale.Validation :=
  let errors := [] in
  let errors :=
    Sale.push_if (falsy (name s) || String.eqb (trim (name s)) "")
                 "Supplier name is required" errors in
  let errors :=
    Sale.push_if (falsy (contact s) || String.eqb (trim (contact s)) "")
                 "Contact information is required" errors in
  let errors :=
    Sale.push_if (negb (falsy (email s)) && negb (isValidEmail (email s)))
                 "Invalid email format" errors in
  let errors :=
    Sale.push_if (negb (falsy (phone s)) && negb (isValidPhone (phone s)))
                 "Invalid phone number format" errors in
  {| Sale.isValid := (List.length errors =? 0)%nat; Sale.errors := errors |}.

End Supplier.

(** ** The document store

    What the services use of the MongoDB driver: cursors built by
    [find], [sort], [skip] and [limit] and run by [toArray];
    [countDocuments]; and the [$match]/[$group] pipeline of the
    analytics. *)

(** A call either returns or throws an [Error] with a message. *)
Inductive Result (A : Type) :=
| Ok (a : A)
| Throw (message : string).

Arguments Ok {A} a.
Arguments Throw {A} message.

Module Mongo.

(** The value a sort reads in a document.  Values of different types
    compare by type: null (also a missing field), then numbers, then
    strings, then dates. *)
Inductive Key :=
| KNull
| KNumber (z : Z)
| KString (s : string)
| KDate (ms : Z).

Definition key_rank (k : Key) : Z :=
  match k with
  | KNull => 0
  | KNumber _ => 1
  | KString _ => 2
  | KDate _ => 3
  end.

Definition key_leb (a b : Key) : bool :=
  match a, b with
  | KNumber x, KNumber y => x <=? y
  | KString x, KString y => String.leb x y
  | KDate x, KDate y => x <=? y
  | _, _ => key_rank a <=? key_rank b
  end.

(** A sort direction: [1] or [-1]. *)
Inductive SortDirection :=
| Ascending
| Descending.

Section Cursor.

Variable D : Type.

Record cursor := {
  c_docs : list D;
  c_filter : D -> bool;
  c_sort : option ((D -> Key) * SortDirection);
  c_skip : Z;
  c_limit : Z
}.

Definition find (coll : list D) (filter : D -> bool) : cursor :=
  {| c_docs := coll; c_filter := filter; c_sort := None; c_skip := 0; c_limit := 0 |}.

Definition sort (key : D -> Key) (dir : SortDirection) (c : cursor) : cursor :=
  {| c_docs := c_docs c; c_filter := c_filter c; c_sort := Some (key, dir);
     c_skip := c_skip c; c_limit := c_limit c |}.

Definition skip (n : Z) (c : cursor) : cursor :=
  {| c_docs := c_docs c; c_filter := c_filter c; c_sort := c_sort c;
     c_skip := n; c_limit := c_limit c |}.

Definition limit (n : Z) (c : cursor) : cursor :=
  {| c_docs := c_docs c; c_filter := c_filter c; c_sort := c_sort c;
     c_skip := c_skip c; c_limit := n |}.

Fixpoint insert_by (le : D -> D -> bool) (x : D) (l : list D) : list D :=
  match l with
  | [] => [x]
  | y :: l' => if le x y then x :: l else y :: insert_by le x l'
  end.

Definition sort_by (le : D -> D -> bool) (l : list D) : list D :=
  fold_right (insert_by le) [] l.

Definition sorted_docs (s : option ((D -> Key) * SortDirection)) (l : list D) : list D :=
  match s with
  | None => l
  | Some (key, Ascending) => sort_by (fun x y => key_leb (key x) (key y)) l
  | Some (key, Descending) => sort_by (fun x y => key_leb (key y) (key x)) l
  end.

(** A limit of [0] is no limit; a negative limit asks for one batch of
    as many documents as its absolute value. *)
Definition limited (n : Z) (l : list D) : list D :=
  if n =? 0 then l else firstn (Z.to_nat (Z.abs n)) l.

(** The server refuses a negative skip; the wording of its error is
    not relied upon. *)
Definition toArray (c : cursor) : Result (list D) :=
  if c_skip c <? 0 then Throw "Skip value must be non-negative"
  else Ok (limited (c_limit c)
             (skipn (Z.to_nat (c_skip c))
                (sorted_docs (c_sort c) (filter (c_filter c) (c_docs c))))).

Definition countDocuments (coll : list D) (filter : D -> bool) : Z :=
  Z.of_nat (List.length (List.filter filter coll)).

Definition findOne (coll : list D) (filter : D -> bool) : option D :=
  List.find filter coll.

End Cursor.

(** A query on the collection [sales]: [{ saleDate: { $gte, $lte },
    customerId }], each part optional. *)
Record DateRange := { gte : option Date; lte : option Date }.

Record SaleFilter := { f_saleDate : option DateRange; f_customerId : option Z }.

Definition date_matches (r : DateRange) (d : Date) : bool :=
  match gte r, lte r with
  | None, None => false (* [{}]: equality with the empty document *)
  | _, _ =>
      match gte r with Some lo => epoch_ms lo <=? epoch_ms d | None => true end
      && match lte r with Some hi => epoch_ms d <=? epoch_ms hi | None => true end
  end.

Definition sale_matches (f : SaleFilter) (d : Sale.doc) : bool :=
  match f_saleDate f with
  | Some r => date_matches r (Sale.doc_saleDate d)
  | None => true
  end
  && match f_customerId f with
     | Some c =>
         match Sale.doc_customerId d with Some c' => c' =? c | None => false end
     | None => true
     end.

(** The field a sort on [sales] reads. *)
Definition sale_field (name : string) (d : Sale.doc) : Key :=
  if String.eqb name "timestamp" then KNumber (Sale.doc_timestamp d)
  else if String.eqb name "saleDate" then KDate (epoch_ms (Sale.doc_saleDate d))
  else if String.eqb name "totalAmount" then KNumber (Sale.doc_totalAmount d)
  else if String.eqb name "subTotal" then KNumber (Sale.doc_subTotal d)
  else if String.eqb name "taxAmount" then KNumber (Sale.doc_taxAmount d)
  else if String.eqb name "discountAmount" then KNumber (Sale.doc_discountAmount d)
  else if String.eqb name "paidAmount" then KNumber (Sale.doc_paidAmount d)
  else if String.eqb name "changeAmount" then KNumber (Sale.doc_changeAmount d)
  else if String.eqb name "saleId" then KString (Sale.doc_saleId d)
  else if String.eqb name "customerContact" then KString (Sale.doc_customerContact d)
  else if String.eqb name "paymentMethod" then KString (Sale.doc_paymentMethod d)
  else if String.eqb name "mysqlId" then
    match Sale.doc_mysqlId d with Some z => KNumber z | None => KNull end
  else if String.eqb name "customerId" then
    match Sale.doc_customerId d with Some z => KNumber z | None => KNull end
  else KNull.

Definition customer_field (name : string) (d : Customer.doc) : Key :=
  if String.eqb name "timestamp" then KNumber (Customer.doc_timestamp d)
  else if String.eqb name "createdDate" then KDate (epoch_ms (Customer.doc_createdDate d))
  else if String.eqb name "contact" then KString (Customer.doc_contact d)
  else if String.eqb name "email" then KString (Customer.doc_email d)
  else if String.eqb name "mysqlId" then
    match Customer.doc_mysqlId d with Some z => KNumber z | None => KNull end
  else if String.eqb name "saleId" then
    match Customer.doc_saleId d with Some s => KString s | None => KNull end
  else KNull.

(** The [$group] stage of the analytics, with [_id: null]: one group for
    all the documents that reach it, fed one document at a time.
    [$sum: 1] counts, [$sum: '$totalAmount'] adds, [$sum: { $size:
    '$saleItems' }] adds the array lengths, [$avg: '$totalAmount'] keeps
    a sum and a count and divides at the end. *)
Record Analytics := {
  totalSales : Z;
  totalRevenue : Z;
  totalItemsSold : Z;
  averageSaleAmount : Q
}.

Record group_state := {
  g_totalSales : Z;
  g_totalRevenue : Z;
  g_totalItemsSold : Z;
  g_avg_sum : Z;
  g_avg_count : positive
}.

Definition group_first (d : Sale.doc) : group_state :=
  {| g_totalSales := 1;
     g_totalRevenue := Sale.doc_totalAmount d;
     g_totalItemsSold := Z.of_nat (List.length (Sale.doc_saleItems d));
     g_avg_sum := Sale.doc_totalAmount d;
     g_avg_count := 1 |}.

Definition group_step (g : group_state) (d : Sale.doc) : group_state :=
  {| g_totalSales := g_totalSales g + 1;
     g_totalRevenue := g_totalRevenue g + Sale.doc_totalAmount d;
     g_totalItemsSold := g_totalItemsSold g + Z.of_nat (List.length (Sale.doc_saleItems d));
     g_avg_sum := g_avg_sum g + Sale.doc_totalAmount d;
     g_avg_count := Pos.succ (g_avg_count g) |}.

Definition group_result (g : group_state) : Analytics :=
  {| totalSales := g_totalSales g;
     totalRevenue := g_totalRevenue g;
     totalItemsSold := g_totalItemsSold g;
     averageSaleAmount := g_avg_sum g # g_avg_count g |}.

(** [aggregate([{ $match }, { $group }]).toArray()]: no document in, no
    group out. *)
Definition aggregate (coll : list Sale.doc) (matchFilter : SaleFilter) : list Analytics :=
  match List.filter (sale_matches matchFilter) coll with
  | [] => []
  | d :: rest => [group_result (fold_left group_step rest (group_first d))]
  end.

End Mongo.

(** ** The services' world: the clock and the collections *)

Record World := {
  w_clock : Clock;
  w_next_id : N;
  w_sales : list Sale.doc;
  w_customers : list Customer.doc
}.

Definition Service (A : Type) : Type := World -> Result A * World.

#[global] Instance Monad_Service : Monad Service := {
  ret := fun A (a : A) w => (Ok a, w);
  bind := fun A B (m : Service A) (k : A -> Service B) w =>
            match m w with
            | (Ok a, w') => k a w'
            | (Throw e, w') => (Throw e, w')
            end
}.

Definition throw {A} (message : string) : Service A :=
  fun w => (Throw message, w).

(** A construction that reads the clock, run inside a service. *)
Definition clocked {A} (m : Clocked A) : Service A :=
  fun w =>
    let (a, c) := m (w_clock w) in
    (Ok a, {| w_clock := c; w_next_id := w_next_id w;
              w_sales := w_sales w; w_customers := w_customers w |}).

Definition returned {A} (r : Result A) : Service A :=
  fun w => (r, w).

Fixpoint map_clocked {A B} (f : A -> Clocked B) (l : list A) : Clocked (list B) :=
  match l with
  | [] => ret []
  | x :: l' =>
      y <- f x ;;
      ys <- map_clocked f l' ;;
      ret (y :: ys)
  end.

(** The response envelope. *)
Record Pagination := {
  page : Z;
  limit : Z;
  totalCount : Z;
  totalPages : number
}.

Record Response (A : Type) := {
  success : bool;
  data : A;
  message : option string;
  pagination : option Pagination
}.

(** The options of a list query; a missing one takes its default. *)
Record ListOptions := {
  o_page : option Z;
  o_limit : option Z;
  o_sortBy : option string;
  o_sortOrder : option Mongo.SortDirection;
  o_startDate : option Date;
  o_endDate : option Date;
  o_customerId : option Z
}.

(** [const { x = d } = options]: the default stands in for [undefined]
    only. *)
Definition default_to {A} (d : A) (x : option A) : A :=
  match x with
  | Some v => v
  | None => d
  end.

(** [if (x)] on a property that may be missing. *)
Definition truthy {A} `{Falsy A} (x : option A) : bool :=
  match x with
  | Some v => negb (falsy v)
  | None => false
  end.

(** [a || b] where [b] may be missing too: the value of a chain of
    [||] before its last operand. *)
Definition js_or_opt {A} `{Falsy A} (x y : option A) : option A :=
  match x with
  | Some v => if falsy v then y else Some v
  | None => y
  end.

(** ** SaleItem.js: the class *)

Module SaleItemClass.

Record t := {
  mysqlId : option Z;
  productId : option Z;
  productName : string;
  category : string;
  quantity : Z;
  unitPrice : Z;
  subTotal : Z
}.

Record data := {
  d_mysqlId : option Z;
  d_productId : option Z;
  d_productName : option string;
  d_category : option string;
  d_quantity : option Z;
  d_unitPrice : option Z;
  d_subTotal : option Z
}.

Record doc := {
  doc_mysqlId : option Z;
  doc_productId : option Z;
  doc_productName : string;
  doc_category : string;
  doc_quantity : Z;
  doc_unitPrice : Z;
  doc_subTotal : Z
}.

(** [constructor(data = {})] *)
Definition new (d : data) : t :=
  {| mysqlId := js_or_null (d_mysqlId d);
     productId := js_or_null (d_productId d);
     productName := js_or (d_productName d) "";
     category := js_or (d_category d) "";
     quantity := js_or (d_quantity d) 0;
     unitPrice := js_or (d_unitPrice d) 0;
     subTotal := js_or (d_subTotal d) 0 |}.

(** [static create(data)] *)
Definition create (d : data) : t :=
  new {| d_mysqlId := d_mysqlId d;
         d_productId := d_productId d;
         d_productName := d_productName d;
         d_category := d_category d;
         d_quantity := d_quantity d;
         d_unitPrice := d_unitPrice d;
         d_subTotal := d_subTotal d |}.

Definition toDocument (i : t) : doc :=
  {| doc_mysqlId := mysqlId i;
     doc_productId := productId i;
     doc_productName := productName i;
     doc_category := category i;
     doc_quantity := quantity i;
     doc_unitPrice := unitPrice i;
     doc_subTotal := subTotal i |}.

(** [static fromDocument(doc)] *)
Definition fromDocument (d : doc) : t :=
  new {| d_mysqlId := doc_mysqlId d;
         d_productId := doc_productId d;
         d_productName := Some (doc_productName d);
         d_category := Some (doc_category d);
         d_quantity := Some (doc_quantity d);
         d_unitPrice := Some (doc_unitPrice d);
         d_subTotal := Some (doc_subTotal d) |}.

(** [calculateSubTotal()]: the item after the call, and what the call
    returns. *)
Definition calculateSubTotal (i : t) : t * Z :=
  let i' := {| mysqlId := mysqlId i; productId := productId i;
               productName := productName i; category := category i;
               quantity := quantity i; unitPrice := unitPrice i;
               subTotal := quantity i * unitPrice i |} in
  (i', subTotal i').

Definition validate (i : t) : Sale.Validation :=
  let errors := [] in
  let errors :=
    Sale.push_if (negb (truthy (productId i))) "Product ID is required" errors in
  let errors :=
    Sale.push_if (falsy (productName i) || String.eqb (trim (productName i)) "")
                 "Product name is required" errors in
  let errors :=
    Sale.push_if (falsy (quantity i) || (quantity i <=? 0))
                 "Quantity must be greater than 0" errors in
  let errors :=
    Sale.push_if (falsy (unitPrice i) || (unitPrice i <? 0))
                 "Unit price must be non-negative" errors in
  {| Sale.isValid := (List.length errors =? 0)%nat; Sale.errors := errors |}.

(** An instance of the class as an element of [saleItems]. *)
Definition as_item (i : t) : SaleItem.t :=
  SaleItem.Instance
    {| SaleItem.mysqlId := mysqlId i;
       SaleItem.productId := productId i;
       SaleItem.productName := Some (productName i);
       SaleItem.category := Some (category i);
       SaleItem.quantity := quantity i;
       SaleItem.unitPrice := unitPrice i;
       SaleItem.subTotal := Some (subTotal i) |}.

End SaleItemClass.

(** ** Quantity.js *)

Module Quantity.

Record t := {
  id : option ObjectId;
  productMysqlId : option Z;
  quantitySize : Z;
  createdDate : Date;
  updatedDate : Date
}.

(** The object handed to the constructor, with the spellings it
    looks for. *)
Record data := {
  d_id : option ObjectId;
  d_productMysqlId : option Z;
  d_product_mysql_id : option Z;
  d_productId : option Z;
  d_product_id : option Z;
  d_quantitySize : option Z;
  d_quantity_size : option Z;
  d_createdDate : option Date;
  d_created_date : option Date;
  d_updatedDate : option Date;
  d_updated_date : option Date
}.

Record doc := {
  _id : option ObjectId;
  doc_productMysqlId : option Z;
  doc_quantitySize : Z;
  doc_createdDate : Date;
  doc_updatedDate : Date
}.

(** [constructor(data = {})] *)
Definition new (d : data) : Clocked t :=
  cd <- js_or_do (js_or_opt (d_createdDate d) (d_created_date d)) new_Date ;;
  ud <- js_or_do (js_or_opt (d_updatedDate d) (d_updated_date d)) new_Date ;;
  ret {| id := js_or_null (d_id d);
         productMysqlId :=
           js_or_null
             (js_or_opt
                (js_or_opt (js_or_opt (d_productMysqlId d) (d_product_mysql_id d))
                   (d_productId d))
                (d_product_id d));
         quantitySize := js_or (js_or_opt (d_quantitySize d) (d_quantity_size d)) 0;
         createdDate := cd;
         updatedDate := ud |}.

(** [static create(data)] *)
Definition create (d : data) : Clocked t :=
  cd <- js_or_do (d_createdDate d) new_Date ;;
  ud <- js_or_do (d_updatedDate d) new_Date ;;
  new {| d_id := None;
         d_productMysqlId := js_or_opt (d_productMysqlId d) (d_productId d);
         d_product_mysql_id := None;
         d_productId := None;
         d_product_id := None;
         d_quantitySize := d_quantitySize d;
         d_quantity_size := None;
         d_createdDate := Some cd;
         d_created_date := None;
         d_updatedDate := Some ud;
         d_updated_date := None |}.

Definition toDocument (q : t) : doc :=
  {| _id := None;
     doc_productMysqlId := productMysqlId q;
     doc_quantitySize := quantitySize q;
     doc_createdDate := createdDate q;
     doc_updatedDate := updatedDate q |}.

(** [static fromDocument(doc)] *)
Definition fromDocument (d : doc) : Clocked t :=
  new {| d_id := _id d;
         d_productMysqlId := doc_productMysqlId d;
         d_product_mysql_id := None;
         d_productId := None;
         d_product_id := None;
         d_quantitySize := Some (doc_quantitySize d);
         d_quantity_size := None;
         d_createdDate := Some (doc_createdDate d);
         d_created_date := None;
         d_updatedDate := Some (doc_updatedDate d);
         d_updated_date := None |}.

Definition validate (q : t) : Sale.Validation :=
  let errors := [] in
  let errors :=
    Sale.push_if (negb (truthy (productMysqlId q))) "Product ID is required" errors in
  let errors :=
    Sale.push_if (quantitySize q <? 0) "Quantity size must be non-negative" errors in
  {| Sale.isValid := (List.length errors =? 0)%nat; Sale.errors := errors |}.

End Quantity.

(** ** helpers.js *)

Module Helpers.

Record PaginationInfo := {
  page : Z;
  limit : Z;
  totalCount : Z;
  totalPages : number;
  hasNext : bool;
  hasPrev : bool
}.

(** [page < Math.ceil(totalCount / limit)].  With a limit of zero the
    quotient is [Infinity] for a positive count, which every page is
    below, and [NaN] or [-Infinity] otherwise, which no page is below. *)
Definition below_ceil_div (page totalCount limit : Z) : bool :=
  if limit =? 0 then 0 <? totalCount
  else page <? - ((- totalCount) / limit).

(** [calculatePagination(page, limit, totalCount)] *)
Definition calculatePagination (page limit totalCount : Z) : PaginationInfo :=
  {| page := page;
     limit := limit;
     totalCount := totalCount;
     totalPages := Math_ceil_div totalCount limit;
     hasNext := below_ceil_div page totalCount limit;
     hasPrev := 1 <? page |}.

(** [/[<>]/] *)
Definition angle_bracket (c : char) : bool :=
  Regex.is_char "<" c || Regex.is_char ">" c.

(** [sanitizeInput(input)], for a string. *)
Definition sanitizeInput (input : string) : string :=
  Regex.without angle_bracket (trim input).

Definition isValidEmail (email : string) : bool :=
  Regex.test Regex.emailRegex email.

Definition isValidPhone (phone : string) : bool :=
  Regex.test Regex.phoneRegex (Regex.without Regex.phone_filler phone).

End Helpers.

(** ** SaleService.js *)

Module SaleService.

Definition getCollection : Service (list Sale.doc) :=
  fun w => (Ok (w_sales w), w).

(** [insertOne(document)]: the store assigns the next identifier. *)
Definition insertOne (d : Sale.doc) : Service ObjectId :=
  fun w =>
    let i := {| oid := w_next_id w |} in
    (Ok i, {| w_clock := w_clock w; w_next_id := N.succ (w_next_id w);
              w_sales := w_sales w ++ [Sale.with_id i d];
              w_customers := w_customers w |}).

(** [{ _id: id }] as a query.  The store holds an [ObjectId] under
    [_id]; a value of another type, a string among them, is equal to
    none. *)
Definition has_id (i : Identifier) (d : Sale.doc) : bool :=
  match i with
  | OfObjectId i =>
      match Sale._id d with
      | Some j => N.eqb (oid j) (oid i)
      | None => false
      end
  | OfString _ => false
  end.

(** [{ $set: document }] on a stored document: the fields of
    [document], under the [_id] the stored document has. *)
Definition set_fields (d x : Sale.doc) : Sale.doc :=
  match Sale._id x with
  | Some j => Sale.with_id j d
  | None => d
  end.

(** [updateOne({ _id: id }, { $set: document })] on a list of
    documents: the first match takes the fields of [document] and keeps
    its [_id]; the count of matched documents comes back. *)
Fixpoint update_first (i : Identifier) (d : Sale.doc) (l : list Sale.doc)
  : list Sale.doc * Z :=
  match l with
  | [] => ([], 0)
  | x :: l' =>
      if has_id i x then (set_fields d x :: l', 1)
      else let (r, n) := update_first i d l' in (x :: r, n)
  end.

Definition updateOne (i : Identifier) (d : Sale.doc) : Service Z :=
  fun w =>
    let (l, matchedCount) := update_first i d (w_sales w) in
    (Ok matchedCount, {| w_clock := w_clock w; w_next_id := w_next_id w;
                         w_sales := l; w_customers := w_customers w |}).

(** [createSale(saleData)] *)
Definition createSale (saleData : Sale.data) : Service (Response Sale.t) :=
  sale <- clocked (Sale.create saleData) ;;
  let validation := Sale.validate sale in
  if negb (Sale.isValid validation) then
    throw (String.append "Validation failed: " (join ", " (Sale.errors validation)))
  else
    let sale := Sale.calculateTotals sale in
    insertedId <- insertOne (Sale.toDocument sale) ;;
    created <- clocked (Sale.fromDocument (Sale.with_id insertedId (Sale.toDocument sale))) ;;
    ret {| success := true; data := created;
           message := Some "Sale created successfully"; pagination := None |}.

(** The query of [getAllSales]. *)
Definition list_filter (startDate endDate : option Date) (customerId : option Z)
  : Mongo.SaleFilter :=
  let filter := {| Mongo.f_saleDate := None; Mongo.f_customerId := None |} in
  let filter :=
    if truthy startDate || truthy endDate then
      {| Mongo.f_saleDate :=
           Some {| Mongo.gte := if truthy startDate then startDate else None;
                   Mongo.lte := if truthy endDate then endDate else None |};
         Mongo.f_customerId := Mongo.f_customerId filter |}
    else filter in
  if truthy customerId then
    {| Mongo.f_saleDate := Mongo.f_saleDate filter; Mongo.f_customerId := customerId |}
  else filter.

(** [getAllSales(options = {})] *)
Definition getAllSales (options : ListOptions) : Service (Response (list Sale.t)) :=
  let page := default_to 1 (o_page options) in
  let limit := default_to 10 (o_limit options) in
  let sortBy := default_to "timestamp" (o_sortBy options) in
  let sortOrder := default_to Mongo.Descending (o_sortOrder options) in
  let skip := (page - 1) * limit in
  let filter := list_filter (o_startDate options) (o_endDate options)
                            (o_customerId options) in
  coll <- getCollection ;;
  sales <- returned
    (Mongo.toArray
       (Mongo.limit limit
          (Mongo.skip skip
             (Mongo.sort (Mongo.sale_field sortBy) sortOrder
                (Mongo.find coll (Mongo.sale_matches filter)))))) ;;
  coll' <- getCollection ;;
  let totalCount := Mongo.countDocuments coll' (Mongo.sale_matches filter) in
  formattedSales <- clocked (map_clocked Sale.fromDocument sales) ;;
  ret {| success := true; data := formattedSales; message := None;
         pagination := Some {| page := page; limit := limit;
                               totalCount := totalCount;
                               totalPages := Math_ceil_div totalCount limit |} |}.

(** [getSaleById(id)] *)
Definition getSaleById (i : Identifier) : Service (Response Sale.t) :=
  coll <- getCollection ;;
  match Mongo.findOne coll (has_id i) with
  | None => throw "Sale not found"
  | Some sale =>
      found <- clocked (Sale.fromDocument sale) ;;
      ret {| success := true; data := found; message := None; pagination := None |}
  end.

(** [updateSale(id, updateData)] *)
Definition updateSale (i : Identifier) (updateData : Sale.data)
  : Service (Response Sale.t) :=
  sale <- clocked (Sale.create updateData) ;;
  let validation := Sale.validate sale in
  if negb (Sale.isValid validation) then
    throw (String.append "Validation failed: " (join ", " (Sale.errors validation)))
  else
    let sale := Sale.calculateTotals sale in
    matchedCount <- updateOne i (Sale.toDocument sale) ;;
    if matchedCount =? 0 then throw "Sale not found"
    else
      updatedSale <- getSaleById i ;;
      ret {| success := true; data := data updatedSale;
             message := Some "Sale updated successfully"; pagination := None |}.

(** The [$match] filter of [getSalesAnalytics]. *)
Definition analytics_filter (startDate endDate : option Date) : Mongo.SaleFilter :=
  let matchFilter := {| Mongo.f_saleDate := None; Mongo.f_customerId := None |} in
  if truthy startDate || truthy endDate then
    {| Mongo.f_saleDate :=
         Some {| Mongo.gte := if truthy startDate then startDate else None;
                 Mongo.lte := if truthy endDate then endDate else None |};
       Mongo.f_customerId := Mongo.f_customerId matchFilter |}
  else matchFilter.

(** [analytics[0] || { ... }]: an object is truthy, so the fallback
    stands in exactly when the array is empty. *)
Definition first_or (l : list Mongo.Analytics) (fallback : Mongo.Analytics)
  : Mongo.Analytics :=
  match l with
  | a :: _ => a
  | [] => fallback
  end.

(** [getSalesAnalytics(options = {})] *)
Definition getSalesAnalytics (startDate endDate : option Date)
  : Service (Response Mongo.Analytics) :=
  let matchFilter := analytics_filter startDate endDate in
  coll <- getCollection ;;
  let analytics := Mongo.aggregate coll matchFilter in
  ret {| success := true;
         data := first_or analytics
                   {| Mongo.totalSales := 0; Mongo.totalRevenue := 0;
                      Mongo.totalItemsSold := 0;
                      Mongo.averageSaleAmount := 0%Q |};
         message := None; pagination := None |}.

(** [{ mysqlId }] as a query. *)
Definition has_mysqlId (m : Z) (d : Sale.doc) : bool :=
  match Sale.doc_mysqlId d with
  | Some z => z =? m
  | None => false
  end.

(** [getSaleByMysqlId(mysqlId)] *)
Definition getSaleByMysqlId (mysqlId : Z) : Service (Response Sale.t) :=
  coll <- getCollection ;;
  match Mongo.findOne coll (has_mysqlId mysqlId) with
  | None => throw "Sale not found"
  | Some sale =>
      found <- clocked (Sale.fromDocument sale) ;;
      ret {| success := true; data := found; message := None; pagination := None |}
  end.

(** [getSalesByCustomerId(customerId, options = {})] *)
Definition getSalesByCustomerId (customerId : Z) (options : ListOptions)
  : Service (Response (list Sale.t)) :=
  let page := default_to 1 (o_page options) in
  let limit := default_to 10 (o_limit options) in
  let sortBy := default_to "timestamp" (o_sortBy options) in
  let sortOrder := default_to Mongo.Descending (o_sortOrder options) in
  let skip := (page - 1) * limit in
  let filter := {| Mongo.f_saleDate := None; Mongo.f_customerId := Some customerId |} in
  coll <- getCollection ;;
  sales <- returned
    (Mongo.toArray
       (Mongo.limit limit
          (Mongo.skip skip
             (Mongo.sort (Mongo.sale_field sortBy) sortOrder
                (Mongo.find coll (Mongo.sale_matches filter)))))) ;;
  coll' <- getCollection ;;
  let totalCount := Mongo.countDocuments coll' (Mongo.sale_matches filter) in
  formattedSales <- clocked (map_clocked Sale.fromDocument sales) ;;
  ret {| success := true; data := formattedSales; message := None;
         pagination := Some {| page := page; limit := limit;
                               totalCount := totalCount;
                               totalPages := Math_ceil_div totalCount limit |} |}.

(** [deleteOne({ _id: id })] on a list of documents: the first match
    goes; the count of deleted documents comes back. *)
Fixpoint delete_first (i : Identifier) (l : list Sale.doc) : list Sale.doc * Z :=
  match l with
  | [] => ([], 0)
  | x :: l' =>
      if has_id i x then (l', 1)
      else let (r, n) := delete_first i l' in (x :: r, n)
  end.

Definition deleteOne (i : Identifier) : Service Z :=
  fun w =>
    let (l, deletedCount) := delete_first i (w_sales w) in
    (Ok deletedCount, {| w_clock := w_clock w; w_next_id := w_next_id w;
                         w_sales := l; w_customers := w_customers w |}).

(** [deleteSale(id)]; the response carries no data. *)
Definition deleteSale (i : Identifier) : Service (Response unit) :=
  deletedCount <- deleteOne i ;;
  if deletedCount =? 0 then throw "Sale not found"
  else ret {| success := true; data := tt;
              message := Some "Sale deleted successfully"; pagination := None |}.

End SaleService.

(** ** CustomerService.js: the list query *)

Module CustomerService.

Definition getCollection : Service (list Customer.doc) :=
  fun w => (Ok (w_customers w), w).

(** [getAllCustomers(options = {})]: [find({})] and [countDocuments()]
    both take every document. *)
Definition getAllCustomers (options : ListOptions)
  : Service (Response (list Customer.t)) :=
  let page := default_to 1 (o_page options) in
  let limit := default_to 10 (o_limit options) in
  let sortBy := default_to "timestamp" (o_sortBy options) in
  let sortOrder := default_to Mongo.Descending (o_sortOrder options) in
  let skip := (page - 1) * limit in
  coll <- getCollection ;;
  customers <- returned
    (Mongo.toArray
       (Mongo.limit limit
          (Mongo.skip skip
             (Mongo.sort (Mongo.customer_field sortBy) sortOrder
                (Mongo.find coll (fun _ => true)))))) ;;
  coll' <- getCollection ;;
  let totalCount := Mongo.countDocuments coll' (fun _ => true) in
  formattedCustomers <- clocked (map_clocked Customer.fromDocument customers) ;;
  ret {| success := true; data := formattedCustomers; message := None;
         pagination := Some {| page := page; limit := limit;
                               totalCount := totalCount;
                               totalPages := Math_ceil_div totalCount limit |} |}.

(** [{ _id: insertedId, ...document }] *)
Definition with_id (i : ObjectId) (d : Customer.doc) : Customer.doc :=
  {| Customer._id := Some i;
     Customer.doc_mysqlId := Customer.doc_mysqlId d;
     Customer.doc_saleId := Customer.doc_saleId d;
     Customer.doc_contact := Customer.doc_contact d;
     Customer.doc_email := Customer.doc_email d;
     Customer.doc_createdDate := Customer.doc_createdDate d;
     Customer.doc_timestamp := Customer.doc_timestamp d |}.

Definition insertOne (d : Customer.doc) : Service ObjectId :=
  fun w =>
    let i := {| oid := w_next_id w |} in
    (Ok i, {| w_clock := w_clock w; w_next_id := N.succ (w_next_id w);
              w_sales := w_sales w;
              w_customers := w_customers w ++ [with_id i d] |}).

Definition has_id (i : Identifier) (d : Customer.doc) : bool :=
  match i with
  | OfObjectId i =>
      match Customer._id d with
      | Some j => N.eqb (oid j) (oid i)
      | None => false
      end
  | OfString _ => false
  end.

(** [{ $set: document }] on a stored document. *)
Definition set_fields (d x : Customer.doc) : Customer.doc :=
  match Customer._id x with
  | Some j => with_id j d
  | None => d
  end.

Fixpoint update_first (i : Identifier) (d : Customer.doc) (l : list Customer.doc)
  : list Customer.doc * Z :=
  match l with
  | [] => ([], 0)
  | x :: l' =>
      if has_id i x then (set_fields d x :: l', 1)
      else let (r, n) := update_first i d l' in (x :: r, n)
  end.

Definition updateOne (i : Identifier) (d : Customer.doc) : Service Z :=
  fun w =>
    let (l, matchedCount) := update_first i d (w_customers w) in
    (Ok matchedCount, {| w_clock := w_clock w; w_next_id := w_next_id w;
                         w_sales := w_sales w; w_customers := l |}).

(** [createCustomer(customerData)] *)
Definition createCustomer (customerData : Customer.data)
  : Service (Response Customer.t) :=
  customer <- clocked (Customer.create customerData) ;;
  let validation := Customer.validate customer in
  if negb (Sale.isValid validation) then
    throw (String.append "Validation failed: " (join ", " (Sale.errors validation)))
  else
    insertedId <- insertOne (Customer.toDocument customer) ;;
    created <- clocked (Customer.fromDocument
                          (with_id insertedId (Customer.toDocument customer))) ;;
    ret {| success := true; data := created;
           message := Some "Customer created successfully"; pagination := None |}.

(** [getCustomerById(id)] *)
Definition getCustomerById (i : Identifier) : Service (Response Customer.t) :=
  coll <- getCollection ;;
  match Mongo.findOne coll (has_id i) with
  | None => throw "Customer not found"
  | Some customer =>
      found <- clocked (Customer.fromDocument customer) ;;
      ret {| success := true; data := found; message := None; pagination := None |}
  end.

(** [updateCustomer(id, updateData)] *)
Definition updateCustomer (i : Identifier) (updateData : Customer.data)
  : Service (Response Customer.t) :=
  customer <- clocked (Customer.create updateData) ;;
  let validation := Customer.validate customer in
  if negb (Sale.isValid validation) then
    throw (String.append "Validation failed: " (join ", " (Sale.errors validation)))
  else
    matchedCount <- updateOne i (Customer.toDocument customer) ;;
    if matchedCount =? 0 then throw "Customer not found"
    else
      updatedCustomer <- getCustomerById i ;;
      ret {| success := true; data := data updatedCustomer;
             message := Some "Customer updated successfully"; pagination := None |}.

End CustomerService.

(** ** SaleController.js

    A handler answers with a status and a JSON body: the service's
    response, or [{ success: false, error }].  [req.body] is the data
    of a sale as the JSON parser left it.  [req.params.id] is the string
    of the URL, and the handlers pass it on as it is. *)

Module SaleController.

Inductive Json (A : Type) :=
| Payload (r : Response A)
| Failure (error : string).

Arguments Payload {A} r.
Arguments Failure {A} error.

Record Reply (A : Type) := { status : Z; json : Json A }.

(** [const statusCode = error.message === 'Sale not found' ? 404 : other] *)
Definition not_found_or (other : Z) (message : string) : Z :=
  if String.eqb message "Sale not found" then 404 else other.

(** [createSale(req, res)] *)
Definition createSale (body : Sale.data) (w : World) : Reply Sale.t * World :=
  match SaleService.createSale body w with
  | (Ok result, w') => ({| status := 201; json := Payload result |}, w')
  | (Throw m, w') => ({| status := 400; json := Failure m |}, w')
  end.

(** [getSaleById(req, res)]; [res.json] alone answers 200. *)
Definition getSaleById (id : string) (w : World) : Reply Sale.t * World :=
  match SaleService.getSaleById (OfString id) w with
  | (Ok result, w') => ({| status := 200; json := Payload result |}, w')
  | (Throw m, w') => ({| status := not_found_or 500 m; json := Failure m |}, w')
  end.

(** [updateSale(req, res)] *)
Definition updateSale (id : string) (body : Sale.data) (w : World)
  : Reply Sale.t * World :=
  match SaleService.updateSale (OfString id) body w with
  | (Ok result, w') => ({| status := 200; json := Payload result |}, w')
  | (Throw m, w') => ({| status := not_found_or 400 m; json := Failure m |}, w')
  end.

(** [deleteSale(req, res)] *)
Definition deleteSale (id : string) (w : World) : Reply unit * World :=
  match SaleService.deleteSale (OfString id) w with
  | (Ok result, w') => ({| status := 200; json := Payload result |}, w')
  | (Throw m, w') => ({| status := not_found_or 500 m; json := Failure m |}, w')
  end.

End SaleController.

(** ** The specification's words, and the inputs of its scenarios *)

Module Spec.

(** The code units of a string, and the code unit of an ASCII
    character. *)
Fixpoint units (s : string) : list char :=
  match s with
  | EmptyString => []
  | String c s' => c :: units s'
  end.

Fixpoint of_units (l : list char) : string :=
  match l with
  | [] => EmptyString
  | c :: l' => String c (of_units l')
  end.

Definition code (x : ascii) : char := N_of_ascii x.

(** The white space of ECMAScript, code unit by code unit: U+0009 to
    U+000D, U+0020, U+00A0, U+1680, U+2000 to U+200A, U+2028, U+2029,
    U+202F, U+205F, U+3000 and U+FEFF. *)
Definition white_space : list char :=
  [9; 10; 11; 12; 13; 32; 160; 5760;
   8192; 8193; 8194; 8195; 8196; 8197; 8198; 8199; 8200; 8201; 8202;
   8232; 8233; 8239; 8287; 12288; 65279]%N.

(** A string made of white space: every code unit of it is one of
    these; so it is of the empty string. *)
Definition all_white_space (s : string) : bool :=
  forallb (fun c => existsb (N.eqb c) white_space) (units s).

(** A string with no character but white space, as the models test
    it. *)
Definition blank (s : string) : bool :=
  String.eqb s "" || String.eqb (trim s) "".

(** The messages of a list in one line: the first, and each of the
    others after a comma and a space. *)
Fixpoint each_after_comma (l : list string) : string :=
  match l with
  | [] => ""
  | m :: l' => ", " ++ m ++ each_after_comma l'
  end.

Definition listed (l : list string) : string :=
  match l with
  | [] => ""
  | m :: l' => m ++ each_after_comma l'
  end.

(** The contribution of a line on exact amounts: an absent [subTotal]
    and a [subTotal] of zero both fall back on quantity times unit
    price. *)
Definition line_amount (it : SaleItem.t) : Z :=
  let f := SaleItem.get it in
  match SaleItem.subTotal f with
  | Some 0 => SaleItem.quantity f * SaleItem.unitPrice f
  | Some v => v
  | None => SaleItem.quantity f * SaleItem.unitPrice f
  end.

Definition sum (l : list Z) : Z := fold_right Z.add 0 l.

(** The inclusive date range of the list query and of the analytics. *)
Definition in_date_range (startDate endDate : option Date) (d : Date) : bool :=
  match startDate with Some lo => epoch_ms lo <=? epoch_ms d | None => true end
  && match endDate with Some hi => epoch_ms d <=? epoch_ms hi | None => true end.

(** The arithmetic mean; of no numbers, zero. *)
Definition mean (l : list Z) : Q :=
  match l with
  | [] => 0%Q
  | _ => (inject_Z (sum l) / inject_Z (Z.of_nat (List.length l)))%Q
  end.

(** The four rules of [Sale.validate], as conditions on the sale: a
    [saleId] of white space only, the empty one included; no item; a
    total below zero; less paid than the total. *)
Definition saleId_missing (s : Sale.t) : bool := all_white_space (Sale.saleId s).
Definition no_items (s : Sale.t) : bool :=
  match Sale.saleItems s with [] => true | _ => false end.
Definition negative_total (s : Sale.t) : bool := Sale.totalAmount s <? 0.
Definition underpaid (s : Sale.t) : bool := Sale.paidAmount s <? Sale.totalAmount s.

Definition count_true (l : list bool) : nat := List.length (List.filter id l).

(** An optional property that [x || null] gives back as it is. *)
Definition settled {A} `{Falsy A} (x : option A) : bool :=
  match x with
  | Some v => negb (falsy v)
  | None => true
  end.

(** An entity as a constructor leaves it: a legacy identifier is [null]
    rather than [0] (or the empty string), and the timestamp, a reading
    of the clock, is not [0]. *)
Definition sale_constructed (s : Sale.t) : bool :=
  settled (Sale.mysqlId s) && settled (Sale.customerId s)
  && negb (falsy (Sale.timestamp s)).

Definition customer_constructed (c : Customer.t) : bool :=
  settled (Customer.mysqlId c) && settled (Customer.saleId c)
  && negb (falsy (Customer.timestamp c)).

Definition supplier_constructed (s : Supplier.t) : bool :=
  settled (Supplier.mysqlId s) && negb (falsy (Supplier.timestamp s)).

(** The entity with its store identifier forgotten. *)
Definition sale_without_id (s : Sale.t) : Sale.t :=
  {| Sale.id := None; Sale.mysqlId := Sale.mysqlId s; Sale.saleId := Sale.saleId s;
     Sale.customerId := Sale.customerId s;
     Sale.customerContact := Sale.customerContact s;
     Sale.saleItems := map Sale.item_document (Sale.saleItems s);
     Sale.subTotal := Sale.subTotal s; Sale.taxAmount := Sale.taxAmount s;
     Sale.discountAmount := Sale.discountAmount s;
     Sale.totalAmount := Sale.totalAmount s; Sale.paidAmount := Sale.paidAmount s;
     Sale.changeAmount := Sale.changeAmount s;
     Sale.paymentMethod := Sale.paymentMethod s; Sale.saleDate := Sale.saleDate s;
     Sale.timestamp := Sale.timestamp s |}.

Definition customer_without_id (c : Customer.t) : Customer.t :=
  {| Customer.id := None; Customer.mysqlId := Customer.mysqlId c;
     Customer.saleId := Customer.saleId c; Customer.contact := Customer.contact c;
     Customer.email := Customer.email c;
     Customer.createdDate := Customer.createdDate c;
     Customer.timestamp := Customer.timestamp c |}.

Definition supplier_without_id (s : Supplier.t) : Supplier.t :=
  {| Supplier.id := None; Supplier.mysqlId := Supplier.mysqlId s;
     Supplier.name := Supplier.name s; Supplier.contact := Supplier.contact s;
     Supplier.contactPerson := Supplier.contactPerson s;
     Supplier.phone := Supplier.phone s; Supplier.email := Supplier.email s;
     Supplier.address := Supplier.address s;
     Supplier.createdDate := Supplier.createdDate s;
     Supplier.timestamp := Supplier.timestamp s |}.

(** The clock of the scenarios: it starts in November 2023 and advances
    a millisecond at each reading. *)
Definition clock0 : Clock :=
  {| readings := fun k => 1700000000000 + Z.of_nat k; ticks := 0 |}.

Definition world0 : World :=
  {| w_clock := clock0; w_next_id := 1; w_sales := []; w_customers := [] |}.

(** [{ quantity: 2, unitPrice: 25.00 }] *)
Definition two_at_25 : SaleItem.t :=
  SaleItem.Plain
    {| SaleItem.mysqlId := None; SaleItem.productId := Some 1;
       SaleItem.productName := Some "Product 1"; SaleItem.category := None;
       SaleItem.quantity := 2; SaleItem.unitPrice := 2500;
       SaleItem.subTotal := None |}.

(** The product of two properties that are numbers; [NaN] as soon as
    one is missing, and [0] times the other when one is [null]. *)
Definition product (quantity unitPrice : Binary64.property) : float :=
  match quantity, unitPrice with
  | Binary64.Number q, Binary64.Number p => PrimFloat.mul q p
  | Binary64.Undefined, _ | _, Binary64.Undefined => nan
  | Binary64.Null, Binary64.Number p => PrimFloat.mul 0 p
  | Binary64.Number q, Binary64.Null => PrimFloat.mul q 0
  | Binary64.Null, Binary64.Null => 0%float
  end.

(** The contribution of a line as the specification words it: the
    item's [subTotal], or quantity times unit price when it is absent. *)
Definition stated_amount (it : Binary64.SaleItem.t) : float :=
  match Binary64.SaleItem.subTotal it with
  | Binary64.Number v => v
  | Binary64.Undefined | Binary64.Null =>
      product (Binary64.SaleItem.quantity it) (Binary64.SaleItem.unitPrice it)
  end.

(** The contribution of a line as the code computes it: the item's
    [subTotal] when it is a number other than [0], [-0] and [NaN], and
    quantity times unit price otherwise. *)
Definition counted_amount (it : Binary64.SaleItem.t) : float :=
  match Binary64.SaleItem.subTotal it with
  | Binary64.Number v =>
      if PrimFloat.eqb v 0 || PrimFloat.is_nan v
      then product (Binary64.SaleItem.quantity it) (Binary64.SaleItem.unitPrice it)
      else v
  | Binary64.Undefined | Binary64.Null =>
      product (Binary64.SaleItem.quantity it) (Binary64.SaleItem.unitPrice it)
  end.

(** The sum of a list of numbers, added one after the other to [0] in
    the order of the list, each addition rounded. *)
Definition sum_in_order (l : list float) : float := fold_left PrimFloat.add l 0%float.

(** A line with a quantity, a unit price and, perhaps, a subtotal. *)
Definition line (quantity unitPrice subTotal : Binary64.property) : Binary64.SaleItem.t :=
  {| Binary64.SaleItem.mysqlId := None; Binary64.SaleItem.productId := Some 1;
     Binary64.SaleItem.productName := Some "Product 1";
     Binary64.SaleItem.category := None;
     Binary64.SaleItem.quantity := quantity;
     Binary64.SaleItem.unitPrice := unitPrice;
     Binary64.SaleItem.subTotal := subTotal |}.

(** The sale object the constructor makes of a body with the given
    items, tax, discount and paid amount and no totals. *)
Definition sale_of (items : list Binary64.SaleItem.t) (tax discount paid : float)
  : Binary64.Sale.t :=
  {| Binary64.Sale.id := None; Binary64.Sale.mysqlId := None;
     Binary64.Sale.saleId := "SALE-2024-001";
     Binary64.Sale.customerId := None; Binary64.Sale.customerContact := "";
     Binary64.Sale.saleItems := items;
     Binary64.Sale.subTotal := 0; Binary64.Sale.taxAmount := tax;
     Binary64.Sale.discountAmount := discount; Binary64.Sale.totalAmount := 0;
     Binary64.Sale.paidAmount := paid; Binary64.Sale.changeAmount := 0;
     Binary64.Sale.paymentMethod := "cash";
     Binary64.Sale.saleDate := {| epoch_ms := 1700000000000 |};
     Binary64.Sale.timestamp := 1700000000001 |}.

(** [{ quantity: 2, unitPrice: 25.00 }], and the same line with
    [subTotal: 0] written out. *)
Definition two_at_25_line : Binary64.SaleItem.t :=
  line (Binary64.Number 2) (Binary64.Number 25) Binary64.Undefined.

Definition two_at_25_free : Binary64.SaleItem.t :=
  line (Binary64.Number 2) (Binary64.Number 25) (Binary64.Number 0).

(** A line with nothing to count: no subtotal but a missing or falsy
    one, and no quantity or no unit price. *)
Definition lacks_a_number (it : Binary64.SaleItem.t) : bool :=
  match Binary64.SaleItem.subTotal it with
  | Binary64.Number v => falsy v
  | Binary64.Undefined | Binary64.Null => true
  end
  && match Binary64.SaleItem.quantity it, Binary64.SaleItem.unitPrice it with
     | Binary64.Undefined, _ | _, Binary64.Undefined => true
     | _, _ => false
     end.

(** [{ quantity: 1 }]: a line without a unit price. *)
Definition one_without_price : Binary64.SaleItem.t :=
  line (Binary64.Number 1) Binary64.Undefined Binary64.Undefined.

(** Ten cents: the binary64 value nearest to a tenth. *)
Definition ten_cents : float := PrimFloat.div 1 10.

(** Thirty cents: the binary64 value nearest to three tenths. *)
Definition thirty_cents : float := PrimFloat.div 3 10.

(** A request body with the given items and paid amount, [taxAmount:
    5.00], [discountAmount: 2.00] and no totals. *)
Definition sale_body (items : list SaleItem.t) (paid : Z) : Sale.data :=
  {| Sale.d_id := None; Sale.d_mysqlId := None;
     Sale.d_saleId := Some "SALE-2024-001";
     Sale.d_customerId := None; Sale.d_customerContact := None;
     Sale.d_saleItems := Some items;
     Sale.d_subTotal := None; Sale.d_taxAmount := Some 500;
     Sale.d_discountAmount := Some 200; Sale.d_totalAmount := None;
     Sale.d_paidAmount := Some paid; Sale.d_changeAmount := None;
     Sale.d_paymentMethod := Some "cash"; Sale.d_saleDate := None;
     Sale.d_timestamp := None |}.

(** Paid 60.00: the scenario of a settled sale. *)
Definition paid_60 : Sale.data := sale_body [two_at_25] 6000.

(** Paid 40.00 for the same items: the scenario of an underpaid sale. *)
Definition paid_40 : Sale.data := sale_body [two_at_25] 4000.

(** A body with another [timestamp] property. *)
Definition with_timestamp (ts : option Z) (d : Sale.data) : Sale.data :=
  {| Sale.d_id := Sale.d_id d; Sale.d_mysqlId := Sale.d_mysqlId d;
     Sale.d_saleId := Sale.d_saleId d; Sale.d_customerId := Sale.d_customerId d;
     Sale.d_customerContact := Sale.d_customerContact d;
     Sale.d_saleItems := Sale.d_saleItems d; Sale.d_subTotal := Sale.d_subTotal d;
     Sale.d_taxAmount := Sale.d_taxAmount d;
     Sale.d_discountAmount := Sale.d_discountAmount d;
     Sale.d_totalAmount := Sale.d_totalAmount d;
     Sale.d_paidAmount := Sale.d_paidAmount d;
     Sale.d_changeAmount := Sale.d_changeAmount d;
     Sale.d_paymentMethod := Sale.d_paymentMethod d;
     Sale.d_saleDate := Sale.d_saleDate d; Sale.d_timestamp := ts |}.

(** The sale object [Sale.create] makes of a body at the scenario clock. *)
Definition created (d : Sale.data) : Sale.t := fst (Sale.create d clock0).

(** The reading [Sale.create] takes for the timestamp: the one after the
    reading for [saleDate], when that one was needed. *)
Definition timestamp_reading (d : Sale.data) (c : Clock) : nat :=
  match Sale.d_saleDate d with
  | Some _ => ticks c
  | None => S (ticks c)
  end.

(** A body that breaks the four rules at once; its [saleId] is a
    NO-BREAK SPACE, a LINE SEPARATOR and a SPACE. *)
Definition all_wrong : Sale.data :=
  {| Sale.d_id := None; Sale.d_mysqlId := None;
     Sale.d_saleId := Some (String 160 (String 8232 " "));
     Sale.d_customerId := None; Sale.d_customerContact := None;
     Sale.d_saleItems := None;
     Sale.d_subTotal := None; Sale.d_taxAmount := None;
     Sale.d_discountAmount := None; Sale.d_totalAmount := Some (-100);
     Sale.d_paidAmount := Some (-200); Sale.d_changeAmount := None;
     Sale.d_paymentMethod := None; Sale.d_saleDate := None;
     Sale.d_timestamp := None |}.

(** Paid 60.00 for the same items, with a [totalAmount] of 100.00
    written by the caller. *)
Definition paid_60_total_100 : Sale.data :=
  {| Sale.d_id := None; Sale.d_mysqlId := None;
     Sale.d_saleId := Some "SALE-2024-001";
     Sale.d_customerId := None; Sale.d_customerContact := None;
     Sale.d_saleItems := Some [two_at_25];
     Sale.d_subTotal := None; Sale.d_taxAmount := Some 500;
     Sale.d_discountAmount := Some 200; Sale.d_totalAmount := Some 10000;
     Sale.d_paidAmount := Some 6000; Sale.d_changeAmount := None;
     Sale.d_paymentMethod := Some "cash"; Sale.d_saleDate := None;
     Sale.d_timestamp := None |}.

(** The store after the settled sale of the scenario was created, and
    the sale as [createSale] returned it. *)
Definition world1 : World := snd (SaleService.createSale paid_60 world0).

Definition stored_sale : Sale.t :=
  match fst (SaleService.createSale paid_60 world0) with
  | Ok r => data r
  | Throw _ => created paid_60
  end.

Definition first_id : ObjectId := {| oid := 1 |}.

(** Entities for the round trip: a customer and a supplier as their
    constructors make them. *)
Definition a_customer : Customer.t :=
  {| Customer.id := None; Customer.mysqlId := Some 7; Customer.saleId := None;
     Customer.contact := "John Doe"; Customer.email := "";
     Customer.createdDate := {| epoch_ms := 1700000000000 |};
     Customer.timestamp := 1700000000001 |}.

Definition a_supplier : Supplier.t :=
  {| Supplier.id := None; Supplier.mysqlId := None; Supplier.name := "ACME";
     Supplier.contact := "acme@example.com"; Supplier.contactPerson := "";
     Supplier.phone := ""; Supplier.email := ""; Supplier.address := "";
     Supplier.createdDate := {| epoch_ms := 1700000000000 |};
     Supplier.timestamp := 1700000000001 |}.

(** The options [{ page, limit }] of a list query. *)
Definition page_of (page limit : Z) : ListOptions :=
  {| o_page := Some page; o_limit := Some limit; o_sortBy := None;
     o_sortOrder := None; o_startDate := None; o_endDate := None;
     o_customerId := None |}.

(** The store after [n] settled sales were created. *)
Fixpoint world_after (n : nat) : World :=
  match n with
  | O => world0
  | S n' => snd (SaleService.createSale paid_60 (world_after n'))
  end.

(** A date after every reading of the scenario clock that the store
    holds: the first of January 2100. *)
Definition year_2100 : Date := {| epoch_ms := 4102444800000 |}.

(** A page of a list: without its first [(page - 1) * limit] elements,
    and no more than [limit] of the rest. *)
Definition page_slice {D} (page limit : Z) (l : list D) : list D :=
  firstn (Z.to_nat limit) (skipn (Z.to_nat ((page - 1) * limit)) l).

(** The number of items of a stored sale. *)
Definition items_of (d : Sale.doc) : Z := Z.of_nat (List.length (Sale.doc_saleItems d)).

(** A part of an address: not empty, and free of white space and of
    [@]. *)
Definition email_part (l : list char) : Prop :=
  l <> [] /\ Forall (fun c => ~ In c (code "@" :: white_space)) l.

(** What [isValidPhone] keeps of a phone number: its code units, in
    order, but for white space, hyphens and parentheses. *)
Definition dialled (phone : string) : list char :=
  filter (fun c => negb (existsb (N.eqb c)
                           (code "-" :: code "(" :: code ")" :: white_space)))
         (units phone).

(** A digit of ASCII, from [lo] on. *)
Definition digit_from (lo : ascii) (c : char) : Prop := (code lo <= c <= code "9")%N.

(** The data of a quantity with other values under the spellings that
    only the constructor reads. *)
Definition with_other_spellings
  (product_mysql_id product_id quantity_size : option Z)
  (created_date updated_date : option Date) (d : Quantity.data) : Quantity.data :=
  {| Quantity.d_id := Quantity.d_id d;
     Quantity.d_productMysqlId := Quantity.d_productMysqlId d;
     Quantity.d_product_mysql_id := product_mysql_id;
     Quantity.d_productId := Quantity.d_productId d;
     Quantity.d_product_id := product_id;
     Quantity.d_quantitySize := Quantity.d_quantitySize d;
     Quantity.d_quantity_size := quantity_size;
     Quantity.d_createdDate := Quantity.d_createdDate d;
     Quantity.d_created_date := created_date;
     Quantity.d_updatedDate := Quantity.d_updatedDate d;
     Quantity.d_updated_date := updated_date |}.

(** [{ product_id: 5, quantity_size: 3 }] *)
Definition legacy_quantity : Quantity.data :=
  {| Quantity.d_id := None; Quantity.d_productMysqlId := None;
     Quantity.d_product_mysql_id := None; Quantity.d_productId := None;
     Quantity.d_product_id := Some 5; Quantity.d_quantitySize := None;
     Quantity.d_quantity_size := Some 3; Quantity.d_createdDate := None;
     Quantity.d_created_date := None; Quantity.d_updatedDate := None;
     Quantity.d_updated_date := None |}.

Definition quantity_without_id (q : Quantity.t) : Quantity.t :=
  {| Quantity.id := None; Quantity.productMysqlId := Quantity.productMysqlId q;
     Quantity.quantitySize := Quantity.quantitySize q;
     Quantity.createdDate := Quantity.createdDate q;
     Quantity.updatedDate := Quantity.updatedDate q |}.

(** What a line item of the class is worth before any subtotal is
    written: quantity times unit price. *)
Definition item_worth (i : SaleItemClass.t) : Z :=
  SaleItemClass.quantity i * SaleItemClass.unitPrice i.

(** The data of a line item with no [subTotal]. *)
Definition no_subTotal (d : SaleItemClass.data) : SaleItemClass.data :=
  {| SaleItemClass.d_mysqlId := SaleItemClass.d_mysqlId d;
     SaleItemClass.d_productId := SaleItemClass.d_productId d;
     SaleItemClass.d_productName := SaleItemClass.d_productName d;
     SaleItemClass.d_category := SaleItemClass.d_category d;
     SaleItemClass.d_quantity := SaleItemClass.d_quantity d;
     SaleItemClass.d_unitPrice := SaleItemClass.d_unitPrice d;
     SaleItemClass.d_subTotal := None |}.

(** The identifiers of stored sales rise along the collection, from
    [lo] on, and stay below [hi]. *)
Fixpoint ids_rise (lo : N) (l : list Sale.doc) (hi : N) : bool :=
  match l with
  | [] => (lo <=? hi)%N
  | d :: l' =>
      match Sale._id d with
      | Some j => (lo <=? oid j)%N && ids_rise (N.succ (oid j)) l' hi
      | None => false
      end
  end.

(** The store as the services leave it: every sale has an identifier,
    the identifiers rise in the order of insertion and the next one to
    be given is above them all. *)
Definition store_ok (w : World) : bool := ids_rise 0 (w_sales w) (w_next_id w).

(** The clock never reads the first millisecond of 1970. *)
Definition clock_runs (c : Clock) : Prop := forall k, readings c k <> 0.

(** No document of a list has the identifier. *)
Definition none_has_id (i : Identifier) (l : list Sale.doc) : bool :=
  forallb (fun d => negb (SaleService.has_id i d)) l.

(** The totals of a stored sale are those of its items, tax, discount
    and payment. *)
Definition doc_totals_derived (d : Sale.doc) : Prop :=
  Sale.doc_subTotal d = sum (map line_amount (Sale.doc_saleItems d))
  /\ Sale.doc_totalAmount d =
       Sale.doc_subTotal d + Sale.doc_taxAmount d - Sale.doc_discountAmount d
  /\ Sale.doc_changeAmount d = Sale.doc_paidAmount d - Sale.doc_totalAmount d.

(** A body with a legacy identifier. *)
Definition with_mysqlId (m : option Z) (d : Sale.data) : Sale.data :=
  {| Sale.d_id := Sale.d_id d; Sale.d_mysqlId := m;
     Sale.d_saleId := Sale.d_saleId d; Sale.d_customerId := Sale.d_customerId d;
     Sale.d_customerContact := Sale.d_customerContact d;
     Sale.d_saleItems := Sale.d_saleItems d; Sale.d_subTotal := Sale.d_subTotal d;
     Sale.d_taxAmount := Sale.d_taxAmount d;
     Sale.d_discountAmount := Sale.d_discountAmount d;
     Sale.d_totalAmount := Sale.d_totalAmount d;
     Sale.d_paidAmount := Sale.d_paidAmount d;
     Sale.d_changeAmount := Sale.d_changeAmount d;
     Sale.d_paymentMethod := Sale.d_paymentMethod d;
     Sale.d_saleDate := Sale.d_saleDate d;
     Sale.d_timestamp := Sale.d_timestamp d |}.

(** A body with a customer. *)
Definition with_customerId (c : option Z) (d : Sale.data) : Sale.data :=
  {| Sale.d_id := Sale.d_id d; Sale.d_mysqlId := Sale.d_mysqlId d;
     Sale.d_saleId := Sale.d_saleId d; Sale.d_customerId := c;
     Sale.d_customerContact := Sale.d_customerContact d;
     Sale.d_saleItems := Sale.d_saleItems d; Sale.d_subTotal := Sale.d_subTotal d;
     Sale.d_taxAmount := Sale.d_taxAmount d;
     Sale.d_discountAmount := Sale.d_discountAmount d;
     Sale.d_totalAmount := Sale.d_totalAmount d;
     Sale.d_paidAmount := Sale.d_paidAmount d;
     Sale.d_changeAmount := Sale.d_changeAmount d;
     Sale.d_paymentMethod := Sale.d_paymentMethod d;
     Sale.d_saleDate := Sale.d_saleDate d;
     Sale.d_timestamp := Sale.d_timestamp d |}.

(** The options of a list query with a customer. *)
Definition with_customer (c : Z) (o : ListOptions) : ListOptions :=
  {| o_page := o_page o; o_limit := o_limit o; o_sortBy := o_sortBy o;
     o_sortOrder := o_sortOrder o; o_startDate := None; o_endDate := None;
     o_customerId := Some c |}.

(** A store with the sales of two customers. *)
Definition world_customers : World :=
  snd (SaleService.createSale (with_customerId (Some 8) paid_60)
         (snd (SaleService.createSale (with_customerId (Some 7) paid_60)
                 (snd (SaleService.createSale (with_customerId (Some 8) paid_60)
                         world0))))).

(** The options of a list query with both dates. *)
Definition between (startDate endDate : Date) (o : ListOptions) : ListOptions :=
  {| o_page := o_page o; o_limit := o_limit o; o_sortBy := o_sortBy o;
     o_sortOrder := o_sortOrder o; o_startDate := Some startDate;
     o_endDate := Some endDate; o_customerId := o_customerId o |}.

(** The statistics of no sale. *)
Definition no_statistics : Mongo.Analytics :=
  {| Mongo.totalSales := 0; Mongo.totalRevenue := 0; Mongo.totalItemsSold := 0;
     Mongo.averageSaleAmount := 0%Q |}.

(** The line [addItem] appends for the data of an item. *)
Definition added_line (itemData : SaleItem.fields) : SaleItem.t :=
  SaleItem.Plain
    {| SaleItem.mysqlId := SaleItem.mysqlId itemData;
       SaleItem.productId := SaleItem.productId itemData;
       SaleItem.productName := SaleItem.productName itemData;
       SaleItem.category := SaleItem.category itemData;
       SaleItem.quantity := SaleItem.quantity itemData;
       SaleItem.unitPrice := SaleItem.unitPrice itemData;
       SaleItem.subTotal :=
         Some (SaleItem.quantity itemData * SaleItem.unitPrice itemData) |}.

(** The order of two timestamps in a direction. *)
Definition in_order (dir : Mongo.SortDirection) (a b : Z) : Prop :=
  match dir with
  | Mongo.Ascending => a <= b
  | Mongo.Descending => b <= a
  end.

(** The answer of a route that found no sale. *)
Definition not_found {A} : SaleController.Reply A :=
  {| SaleController.status := 404;
     SaleController.json := SaleController.Failure "Sale not found" |}.

(** No customer of a list has the identifier. *)
Definition no_customer_has_id (i : Identifier) (l : list Customer.doc) : bool :=
  forallb (fun d => negb (CustomerService.has_id i d)) l.

End Spec.

(** * Properties *)

Import Spec.

(** ** Strings *)

Section Strings.

Lemma string_eqb_eq (a b : string) : String.eqb a b = true <-> a = b.
Proof.
  revert b; induction a as [|x a IH]; intros [|y b]; simpl;
    try (split; [discriminate | discriminate]); [tauto|].
  rewrite andb_true_iff, N.eqb_eq, IH. split.
  - intros [-> ->]. reflexivity.
  - intro E. inversion E. auto.
Qed.

Lemma string_eqb_refl (a : string) : String.eqb a a = true.
Proof. apply string_eqb_eq. reflexivity. Qed.

Lemma string_eqb_spec (a b : string) : reflect (a = b) (String.eqb a b).
Proof. apply iff_reflect. symmetry. apply string_eqb_eq. Qed.

Lemma append_empty_r (s : string) : String.append s "" = s.
Proof. induction s as [|c s IH]; simpl; congruence. Qed.

Lemma append_assoc (a b c : string) :
  String.append (String.append a b) c = String.append a (String.append b c).
Proof. induction a as [|x a IH]; simpl; congruence. Qed.

Lemma append_is_empty (a b : string) :
  String.append a b = "" -> a = "" /\ b = "".
Proof. destruct a; simpl; intro H; [split; [reflexivity | exact H] | discriminate]. Qed.

Lemma units_append (a b : string) : units (a ++ b) = (units a ++ units b)%list.
Proof. induction a as [|c a IH]; simpl; congruence. Qed.

Lemma units_of_units (l : list char) : units (of_units l) = l.
Proof. induction l as [|c l IH]; simpl; congruence. Qed.

Lemma of_units_units (s : string) : of_units (units s) = s.
Proof. induction s as [|c s IH]; simpl; congruence. Qed.

Lemma units_inj (a b : string) : units a = units b -> a = b.
Proof.
  intro H. rewrite <- (of_units_units a), <- (of_units_units b), H. reflexivity.
Qed.

Lemma every_units (p : char -> bool) (s : string) :
  Regex.every p s = forallb p (units s).
Proof. induction s as [|c s IH]; simpl; congruence. Qed.

Lemma units_without (p : char -> bool) (s : string) :
  units (Regex.without p s) = filter (fun c => negb (p c)) (units s).
Proof.
  induction s as [|c s IH]; simpl; [reflexivity|].
  destruct (p c); simpl; congruence.
Qed.

Lemma length_units (s : string) : List.length (units s) = String.length s.
Proof. induction s as [|c s IH]; simpl; congruence. Qed.

(** [is_space] holds of the white space of ECMAScript, and of nothing
    else. *)
Lemma is_space_white_space (c : char) : is_space c = true <-> In c white_space.
Proof.
  unfold is_space, white_space. split.
  - rewrite !orb_true_iff, !andb_true_iff, !N.eqb_eq, !N.leb_le.
    intro H. simpl. lia.
  - simpl. intro H.
    repeat (destruct H as [<- | H]; [reflexivity|]). contradiction.
Qed.

Lemma existsb_eqb_In (c : char) (l : list char) :
  existsb (N.eqb c) l = true <-> In c l.
Proof.
  rewrite existsb_exists. split.
  - intros (x & Hx & E). apply N.eqb_eq in E. subst. exact Hx.
  - intro H. exists c. split; [exact H | apply N.eqb_refl].
Qed.

Lemma is_space_existsb (c : char) : is_space c = existsb (N.eqb c) white_space.
Proof.
  apply eq_true_iff_eq. rewrite existsb_eqb_In. apply is_space_white_space.
Qed.

Lemma every_trimStart (s : string) :
  Regex.every is_space (trimStart s) = Regex.every is_space s.
Proof.
  induction s as [|c s IH]; simpl; [reflexivity|].
  destruct (is_space c) eqn:E; simpl; [exact IH | rewrite E; reflexivity].
Qed.

Lemma trimEnd_empty (s : string) :
  String.eqb (trimEnd s) "" = Regex.every is_space s.
Proof.
  induction s as [|c s IH]; simpl; [reflexivity|].
  destruct (trimEnd s) as [|x t]; simpl in *; rewrite <- IH.
  - destruct (is_space c); reflexivity.
  - rewrite andb_false_r. reflexivity.
Qed.

(** [s.trim() === ''] holds of the strings made of white space, the
    empty one among them, and of no other. *)
Lemma trim_empty (s : string) :
  String.eqb (trim s) "" = all_white_space s.
Proof.
  unfold trim, all_white_space. rewrite trimEnd_empty, every_trimStart, every_units.
  induction (units s) as [|c l IH]; simpl; [reflexivity|].
  rewrite IH, is_space_existsb. reflexivity.
Qed.

Lemma blank_all_white_space (s : string) : blank s = all_white_space s.
Proof.
  unfold blank. rewrite trim_empty.
  destruct s as [|c s]; [reflexivity|]. reflexivity.
Qed.

End Strings.

(** ** Sale: derived totals *)

Section Totals.

Lemma item_amount_line_amount (it : SaleItem.t) :
  Sale.item_amount it = line_amount it.
Proof.
  unfold Sale.item_amount, line_amount, js_or, falsy, Falsy_number.
  destruct (SaleItem.subTotal (SaleItem.get it)) as [v|]; [|reflexivity].
  destruct v; reflexivity.
Qed.

Lemma fold_left_running_total (f : SaleItem.t -> Z) (l : list SaleItem.t) (a : Z) :
  fold_left (fun total item => total + f item) l a = a + sum (map f l).
Proof.
  revert a; induction l as [|x l IH]; intro a; simpl.
  - lia.
  - rewrite IH. unfold sum. lia.
Qed.

Lemma subTotal_calculateTotals (s : Sale.t) :
  Sale.subTotal (Sale.calculateTotals s) = sum (map line_amount (Sale.saleItems s)).
Proof.
  unfold Sale.calculateTotals; simpl.
  rewrite fold_left_running_total.
  rewrite (map_ext _ _ item_amount_line_amount). lia.
Qed.

(** [NaN] in, [NaN] out. *)
Lemma mul_nan_l (y : float) : PrimFloat.mul nan y = nan.
Proof. apply Prim2SF_inj. rewrite mul_spec. reflexivity. Qed.

Lemma mul_nan_r (x : float) : PrimFloat.mul x nan = nan.
Proof.
  apply Prim2SF_inj. rewrite mul_spec. change (Prim2SF nan) with S754_nan.
  unfold SF64mul, SFmul. destruct (Prim2SF x); reflexivity.
Qed.

Lemma add_nan_l (y : float) : PrimFloat.add nan y = nan.
Proof. apply Prim2SF_inj. rewrite add_spec. reflexivity. Qed.

Lemma add_nan_r (x : float) : PrimFloat.add x nan = nan.
Proof.
  apply Prim2SF_inj. rewrite add_spec. change (Prim2SF nan) with S754_nan.
  unfold SF64add, SFadd. destruct (Prim2SF x); reflexivity.
Qed.

Lemma sub_nan_l (y : float) : PrimFloat.sub nan y = nan.
Proof. apply Prim2SF_inj. rewrite sub_spec. reflexivity. Qed.

Lemma sub_nan_r (x : float) : PrimFloat.sub x nan = nan.
Proof.
  apply Prim2SF_inj. rewrite sub_spec. change (Prim2SF nan) with S754_nan.
  unfold SF64sub, SFsub. destruct (Prim2SF x); reflexivity.
Qed.

Lemma times_product (a b : Binary64.property) : Binary64.times a b = product a b.
Proof.
  unfold Binary64.times, product, Binary64.to_number.
  destruct a as [| |x], b as [| |y];
    try reflexivity; try apply mul_nan_l; apply mul_nan_r.
Qed.

Lemma item_amount_counted_amount (it : Binary64.SaleItem.t) :
  Binary64.Sale.item_amount it = counted_amount it.
Proof.
  unfold Binary64.Sale.item_amount, counted_amount. rewrite times_product.
  destruct (Binary64.SaleItem.subTotal it); reflexivity.
Qed.

Lemma fold_left_sum_in_order {A} (f : A -> float) (l : list A) (a : float) :
  fold_left (fun total item => PrimFloat.add total (f item)) l a =
  fold_left PrimFloat.add (map f l) a.
Proof. revert a; induction l as [|x l IH]; intro a; simpl; [reflexivity | apply IH]. Qed.

(** C1, as amended: after [calculateTotals()], in the arithmetic of
    binary64, [subTotal] is the sum of the lines' amounts, added one
    after the other to 0 in the order of [saleItems], where the amount
    of a line is its [subTotal] when that is a number other than 0 and
    [NaN], and its quantity times its unit price otherwise ([NaN] when
    one of the two is missing); [totalAmount] is [subTotal + taxAmount]
    minus [discountAmount]; [changeAmount] is [paidAmount -
    totalAmount]; and the scenario of two units at 25.00 with tax 5.00,
    discount 2.00 and 60.00 paid gives 50.00, 53.00 and 7.00. *)
Theorem calculateTotals_derives (s : Binary64.Sale.t) :
  let s' := Binary64.Sale.calculateTotals s in
  Binary64.Sale.subTotal s' =
    sum_in_order (map counted_amount (Binary64.Sale.saleItems s'))
  /\ Binary64.Sale.totalAmount s' =
       PrimFloat.sub (PrimFloat.add (Binary64.Sale.subTotal s')
                                    (Binary64.Sale.taxAmount s'))
                     (Binary64.Sale.discountAmount s')
  /\ Binary64.Sale.changeAmount s' =
       PrimFloat.sub (Binary64.Sale.paidAmount s') (Binary64.Sale.totalAmount s')
  /\ (let r := Binary64.Sale.calculateTotals (sale_of [two_at_25_line] 5 2 60) in
      Binary64.Sale.subTotal r = 50%float
      /\ Binary64.Sale.totalAmount r = 53%float
      /\ Binary64.Sale.changeAmount r = 7%float).
Proof.
  cbv zeta. split.
  - unfold Binary64.Sale.calculateTotals, sum_in_order.
    cbn [Binary64.Sale.subTotal Binary64.Sale.saleItems].
    rewrite fold_left_sum_in_order.
    rewrite (map_ext _ _ item_amount_counted_amount). reflexivity.
  - split; [reflexivity|]. split; [reflexivity|].
    repeat split; vm_compute; reflexivity.
Qed.

(** C1, as stated, fails on a line that carries [subTotal: 0]: the
    stated sum of the items' subtotals is 0, the computed [subTotal] is
    50.00. *)
Lemma calculateTotals_zero_subTotal :
  let s := sale_of [two_at_25_free] 5 2 60 in
  sum_in_order (map stated_amount (Binary64.Sale.saleItems s)) = 0%float
  /\ Binary64.Sale.subTotal (Binary64.Sale.calculateTotals s) = 50%float
  /\ Binary64.Sale.subTotal (Binary64.Sale.calculateTotals s) <>
     sum_in_order (map stated_amount (Binary64.Sale.saleItems s)).
Proof.
  cbv zeta. split; [reflexivity|]. split; [reflexivity|].
  intro E.
  assert (H : PrimFloat.eqb
                (Binary64.Sale.subTotal
                   (Binary64.Sale.calculateTotals (sale_of [two_at_25_free] 5 2 60)))
                0 = true) by (rewrite E; reflexivity).
  vm_compute in H. discriminate.
Qed.

(** The sums are the rounded ones.  Three units at ten cents come to
    0.30000000000000004, which is not the number that stands for thirty
    cents, and thirty cents paid leave a change of -5.55e-17, below
    zero. *)
Example calculateTotals_rounds :
  let line30 := line (Binary64.Number 3) (Binary64.Number ten_cents) Binary64.Undefined in
  let r := Binary64.Sale.calculateTotals (sale_of [line30] 0 0 thirty_cents) in
  Binary64.Sale.subTotal r = 0x1.3333333333334p-2%float
  /\ Binary64.Sale.changeAmount r = (- 0x1p-54)%float
  /\ PrimFloat.eqb (Binary64.Sale.subTotal r) thirty_cents = false
  /\ PrimFloat.ltb thirty_cents (Binary64.Sale.subTotal r) = true
  /\ PrimFloat.ltb (Binary64.Sale.changeAmount r) 0 = true
  /\ PrimFloat.ltb (Binary64.Sale.paidAmount r) (Binary64.Sale.totalAmount r) = true.
Proof. cbv zeta. repeat split; vm_compute; reflexivity. Qed.

Lemma lacks_a_number_counted (it : Binary64.SaleItem.t) :
  lacks_a_number it = true -> counted_amount it = nan.
Proof.
  unfold lacks_a_number, counted_amount, product, falsy, Binary64.Falsy_float.
  intro H. apply andb_prop in H. destruct H as [Hs Hq].
  destruct (Binary64.SaleItem.subTotal it) as [| |v];
    [| |rewrite Hs];
    destruct (Binary64.SaleItem.quantity it), (Binary64.SaleItem.unitPrice it);
    try discriminate; reflexivity.
Qed.

(** X25: a line that has no subtotal to count (none, [null], 0 or
    [NaN]) and lacks its quantity or its unit price turns the three
    totals into [NaN], whatever the other lines, the tax, the discount
    and the payment are. *)
Theorem calculateTotals_not_a_number
  (s : Binary64.Sale.t) (it : Binary64.SaleItem.t) :
  In it (Binary64.Sale.saleItems s) ->
  lacks_a_number it = true ->
  let s' := Binary64.Sale.calculateTotals s in
  Binary64.Sale.subTotal s' = nan
  /\ Binary64.Sale.totalAmount s' = nan
  /\ Binary64.Sale.changeAmount s' = nan.
Proof.
  intros Hin Hlack. cbv zeta.
  pose proof (lacks_a_number_counted it Hlack) as Hnan.
  assert (Hsub : Binary64.Sale.subTotal (Binary64.Sale.calculateTotals s) = nan).
  { unfold Binary64.Sale.calculateTotals. cbn [Binary64.Sale.subTotal].
    rewrite fold_left_sum_in_order, (map_ext _ _ item_amount_counted_amount).
    generalize 0%float.
    induction (Binary64.Sale.saleItems s) as [|x l IH]; intro a; [contradiction|].
    simpl. destruct Hin as [-> | Hin].
    - rewrite Hnan, add_nan_r. clear. induction l as [|y l IH]; simpl;
        [reflexivity | rewrite add_nan_l; exact IH].
    - apply IH. exact Hin. }
  split; [exact Hsub|].
  unfold Binary64.Sale.calculateTotals in *.
  cbn [Binary64.Sale.subTotal Binary64.Sale.totalAmount Binary64.Sale.changeAmount] in *.
  rewrite Hsub, add_nan_l, sub_nan_l, sub_nan_r. split; reflexivity.
Qed.

Lemma calculateTotals_not_a_number_witness :
  let s := sale_of [two_at_25_line; one_without_price] 5 2 60 in
  In one_without_price (Binary64.Sale.saleItems s)
  /\ lacks_a_number one_without_price = true
  /\ Binary64.Sale.subTotal (Binary64.Sale.calculateTotals s) = nan
  /\ Binary64.Sale.changeAmount (Binary64.Sale.calculateTotals s) = nan.
Proof.
  cbv zeta.
  assert (Hin : In one_without_price
                  (Binary64.Sale.saleItems
                     (sale_of [two_at_25_line; one_without_price] 5 2 60)))
    by (right; left; reflexivity).
  split; [exact Hin|]. split; [reflexivity|].
  destruct (@calculateTotals_not_a_number _ _ Hin eq_refl) as (H1 & _ & H3).
  split; [exact H1 | exact H3].
Defined.

(** [addItem] leaves the sale with its totals derived from the items,
    the new one included. *)
Lemma addItem_subTotal (itemData : SaleItem.fields) (s : Sale.t) :
  let s' := Sale.addItem itemData s in
  List.length (Sale.saleItems s') = S (List.length (Sale.saleItems s))
  /\ Sale.subTotal s' = sum (map line_amount (Sale.saleItems s')).
Proof.
  cbv zeta. unfold Sale.addItem. split.
  - cbn [Sale.calculateTotals Sale.saleItems Sale.set_changeAmount
         Sale.set_totalAmount Sale.set_subTotal Sale.set_saleItems].
    rewrite length_app. simpl. lia.
  - exact (subTotal_calculateTotals _).
Qed.

(** C9: [calculateTotals()] leaves the items, tax, discount, paid amount
    and every identity or metadata field as they were, and a second call
    changes nothing. *)
Theorem calculateTotals_idempotent (s : Sale.t) :
  let s' := Sale.calculateTotals s in
  (Sale.saleItems s' = Sale.saleItems s
   /\ Sale.taxAmount s' = Sale.taxAmount s
   /\ Sale.discountAmount s' = Sale.discountAmount s
   /\ Sale.paidAmount s' = Sale.paidAmount s)
  /\ (Sale.id s' = Sale.id s
      /\ Sale.mysqlId s' = Sale.mysqlId s
      /\ Sale.saleId s' = Sale.saleId s
      /\ Sale.customerId s' = Sale.customerId s
      /\ Sale.customerContact s' = Sale.customerContact s
      /\ Sale.paymentMethod s' = Sale.paymentMethod s
      /\ Sale.saleDate s' = Sale.saleDate s
      /\ Sale.timestamp s' = Sale.timestamp s)
  /\ Sale.calculateTotals s' = s'.
Proof.
  cbv zeta. split; [repeat split|]. split; [repeat split|].
  unfold Sale.calculateTotals; simpl. reflexivity.
Qed.

End Totals.

(** ** Sale: construction *)

Section Construction.

Lemma js_or_zero (x : option Z) : js_or x 0 = default_to 0 x.
Proof.
  destruct x as [v|]; [|reflexivity].
  unfold js_or, falsy, Falsy_number; simpl.
  destruct (Z.eqb_spec v 0); congruence.
Qed.

Lemma js_or_array {A} (x : option (list A)) (d : list A) : js_or x d = default_to d x.
Proof. destruct x; reflexivity. Qed.

Lemma js_or_zero_twice (x : option Z) : js_or (Some (js_or x 0)) 0 = default_to 0 x.
Proof.
  rewrite js_or_zero. destruct x as [v|]; [|reflexivity].
  apply (js_or_zero (Some v)).
Qed.

Lemma create_fields (d : Sale.data) (c : Clock) :
  let s := fst (Sale.create d c) in
  let k := timestamp_reading d c in
  Sale.subTotal s = js_or (Some (js_or (Sale.d_subTotal d) 0)) 0
  /\ Sale.taxAmount s = js_or (Some (js_or (Sale.d_taxAmount d) 0)) 0
  /\ Sale.discountAmount s = js_or (Some (js_or (Sale.d_discountAmount d) 0)) 0
  /\ Sale.totalAmount s = js_or (Some (js_or (Sale.d_totalAmount d) 0)) 0
  /\ Sale.paidAmount s = js_or (Some (js_or (Sale.d_paidAmount d) 0)) 0
  /\ Sale.changeAmount s = js_or (Some (js_or (Sale.d_changeAmount d) 0)) 0
  /\ Sale.saleItems s = js_or (Sale.d_saleItems d) []
  /\ Sale.saleDate s = default_to {| epoch_ms := readings c (ticks c) |} (Sale.d_saleDate d)
  /\ Sale.timestamp s = (if readings c k =? 0 then readings c (S k) else readings c k)
  /\ Sale.saleId s = js_or (Sale.d_saleId d) ""
  /\ ticks (snd (Sale.create d c)) = (if readings c k =? 0 then S (S k) else S k).
Proof.
  unfold timestamp_reading, Sale.create, Sale.new, Date_now, new_Date; cbv zeta.
  destruct (Sale.d_saleDate d) as [sd|]; simpl;
    unfold falsy, Falsy_number;
    match goal with |- context [readings c ?k =? 0] =>
      destruct (readings c k =? 0) eqn:E end;
    simpl; repeat split; reflexivity.
Qed.


End Construction.

(** ** Sale: validation, and the services that call it *)

Section Validation.

Lemma length_zero_iff_nil {A} (l : list A) : (List.length l =? 0)%nat = true <-> l = [].
Proof.
  destruct l; simpl; split; intro H; try reflexivity; discriminate.
Qed.

Lemma validate_errors (s : Sale.t) :
  Sale.errors (Sale.validate s) =
    ((if blank (Sale.saleId s) then ["Sale ID is required"] else [])
     ++ (if no_items s then ["Sale must have at least one item"] else [])
     ++ (if negative_total s then ["Total amount cannot be negative"] else [])
     ++ (if underpaid s
         then ["Paid amount must be greater than or equal to total amount"]
         else []))%list.
Proof.
  unfold Sale.validate, Sale.push_if, blank, no_items, negative_total,
    underpaid, falsy, Falsy_string, Falsy_array; simpl.
  destruct (String.eqb (Sale.saleId s) "" || String.eqb (trim (Sale.saleId s)) "");
    destruct (Sale.saleItems s); simpl;
    destruct (Sale.totalAmount s <? 0);
    destruct (Sale.paidAmount s <? Sale.totalAmount s); reflexivity.
Qed.

Lemma validate_isValid (s : Sale.t) :
  Sale.isValid (Sale.validate s) = (List.length (Sale.errors (Sale.validate s)) =? 0)%nat.
Proof. reflexivity. Qed.

(** What [createSale] does with a body: it throws exactly when the sale
    object, as [Sale.create] built it from the body, fails [validate];
    otherwise it stores the document of the sale with its totals
    calculated. *)
Lemma createSale_outcome (d : Sale.data) (w : World) :
  let s := fst (Sale.create d (w_clock w)) in
  let v := Sale.validate s in
  match SaleService.createSale d w with
  | (Ok r, w') =>
      Sale.isValid v = true
      /\ w_sales w' =
           (w_sales w ++ [Sale.with_id {| oid := w_next_id w |}
                            (Sale.toDocument (Sale.calculateTotals s))])%list
  | (Throw m, w') =>
      Sale.isValid v = false
      /\ m = String.append "Validation failed: " (join ", " (Sale.errors v))
      /\ w_sales w' = w_sales w
  end.
Proof.
  unfold SaleService.createSale, SaleService.insertOne, clocked, throw.
  cbv beta iota zeta delta [bind ret Monad_Service].
  destruct (Sale.create d (w_clock w)) as [s c]. cbn [fst].
  destruct (Sale.isValid (Sale.validate s)) eqn:V; cbn [negb].
  - cbn [w_clock w_next_id w_sales w_customers].
    match goal with |- context [Sale.fromDocument ?x c] =>
      destruct (Sale.fromDocument x c) as [s' c'] end.
    cbn [w_sales]. split; reflexivity.
  - repeat split.
Qed.

Lemma join_listed (l : list string) : join ", " l = listed l.
Proof.
  unfold join. destruct l as [|m l]; [reflexivity|].
  revert m; induction l as [|m' l IH]; intro m.
  - simpl. symmetry. apply append_empty_r.
  - change (String.concat ", " (m :: m' :: l))
      with (m ++ ", " ++ String.concat ", " (m' :: l)).
    rewrite IH. reflexivity.
Qed.


(** C2, on the code: the body of the underpaid scenario (two units at
    25.00, tax 5.00, discount 2.00, 40.00 paid, no totals) is accepted,
    and the stored document has [paidAmount] 40.00 under [totalAmount]
    53.00, with a change of -13.00. *)
Theorem createSale_stores_underpaid :
  match SaleService.createSale paid_40 world0 with
  | (Ok r, w') =>
      success r = true
      /\ List.length (w_sales w') = 1%nat
      /\ map Sale.doc_paidAmount (w_sales w') = [4000]
      /\ map Sale.doc_totalAmount (w_sales w') = [5300]
      /\ map Sale.doc_changeAmount (w_sales w') = [-1300]
      /\ Sale.paidAmount (data r) < Sale.totalAmount (data r)
  | (Throw _, _) => False
  end.
Proof. vm_compute. repeat split; reflexivity. Qed.

(** C3, on the code: in [createSale] and in [updateSale], [validate()]
    runs on the totals the caller wrote (0 when there are none) and the
    totals are calculated afterwards.  The underpaid body passes both,
    though the sale with its totals calculated fails [validate()]; and a
    body that pays the calculated total in full is refused because of
    the [totalAmount] its caller wrote. *)
Theorem services_validate_before_totals :
  Sale.isValid (Sale.validate (created paid_40)) = true
  /\ Sale.validate (Sale.calculateTotals (created paid_40)) =
       {| Sale.isValid := false;
          Sale.errors :=
            ["Paid amount must be greater than or equal to total amount"] |}
  /\ (exists r, fst (SaleService.createSale paid_40 world0) = Ok r)
  /\ (exists r, fst (SaleService.updateSale first_id paid_40 world1) = Ok r)
  /\ map Sale.doc_paidAmount (w_sales (snd (SaleService.updateSale first_id paid_40 world1))) = [4000]
  /\ map Sale.doc_totalAmount (w_sales (snd (SaleService.updateSale first_id paid_40 world1))) = [5300]
  /\ Sale.isValid (Sale.validate (Sale.calculateTotals (created paid_60_total_100))) = true
  /\ fst (SaleService.createSale paid_60_total_100 world0) =
       Throw "Validation failed: Paid amount must be greater than or equal to total amount".
Proof.
  repeat split; try (vm_compute; reflexivity);
    eexists; vm_compute; reflexivity.
Qed.

End Validation.

(** ** Documents: there and back *)

Section RoundTrip.

Lemma js_or_string (s : string) : js_or (Some s) "" = s.
Proof.
  unfold js_or, falsy, Falsy_string.
  destruct (string_eqb_spec s ""); congruence.
Qed.

Lemma js_or_number (v : Z) : js_or (Some v) 0 = v.
Proof. apply (js_or_zero (Some v)). Qed.

Lemma js_or_null_settled {A} `{Falsy A} (x : option A) :
  settled x = true -> js_or_null x = x.
Proof.
  destruct x as [v|]; simpl; [|reflexivity].
  destruct (falsy v); [discriminate | reflexivity].
Qed.

Lemma js_or_do_truthy (v : Z) (e : Clocked Z) (c : Clock) :
  negb (falsy v) = true -> js_or_do (Some v) e c = (v, c).
Proof.
  unfold js_or_do. destruct (falsy v); [discriminate | reflexivity].
Qed.

Lemma js_or_do_date (d : Date) (e : Clocked Date) (c : Clock) :
  js_or_do (Some d) e c = (d, c).
Proof. reflexivity. Qed.

Lemma sale_roundtrip (s : Sale.t) (c : Clock) :
  sale_constructed s = true ->
  Sale.fromDocument (Sale.toDocument s) c = (sale_without_id s, c).
Proof.
  unfold sale_constructed. intro H.
  apply andb_prop in H; destruct H as [H Ht].
  apply andb_prop in H; destruct H as [Hm Hc].
  unfold Sale.fromDocument, Sale.new, Sale.toDocument, sale_without_id.
  cbn [Sale._id Sale.doc_mysqlId Sale.doc_saleId Sale.doc_customerId
       Sale.doc_customerContact Sale.doc_saleItems Sale.doc_subTotal
       Sale.doc_taxAmount Sale.doc_discountAmount Sale.doc_totalAmount
       Sale.doc_paidAmount Sale.doc_changeAmount Sale.doc_paymentMethod
       Sale.doc_saleDate Sale.doc_timestamp
       Sale.d_id Sale.d_mysqlId Sale.d_saleId Sale.d_customerId
       Sale.d_customerContact Sale.d_saleItems Sale.d_subTotal
       Sale.d_taxAmount Sale.d_discountAmount Sale.d_totalAmount
       Sale.d_paidAmount Sale.d_changeAmount Sale.d_paymentMethod
       Sale.d_saleDate Sale.d_timestamp].
  cbv beta iota delta [bind ret Monad_Clocked].
  rewrite js_or_do_date. rewrite js_or_do_truthy by assumption.
  rewrite !js_or_string, !js_or_number, !js_or_null_settled by (assumption || reflexivity).
  reflexivity.
Qed.

Lemma customer_roundtrip (x : Customer.t) (c : Clock) :
  customer_constructed x = true ->
  Customer.fromDocument (Customer.toDocument x) c = (customer_without_id x, c).
Proof.
  unfold customer_constructed. intro H.
  apply andb_prop in H; destruct H as [H Ht].
  apply andb_prop in H; destruct H as [Hm Hs].
  unfold Customer.fromDocument, Customer.new, Customer.toDocument,
    customer_without_id.
  cbn [Customer._id Customer.doc_mysqlId Customer.doc_saleId Customer.doc_contact
       Customer.doc_email Customer.doc_createdDate Customer.doc_timestamp
       Customer.d_id Customer.d_mysqlId Customer.d_saleId Customer.d_contact
       Customer.d_email Customer.d_createdDate Customer.d_timestamp].
  cbv beta iota delta [bind ret Monad_Clocked].
  rewrite js_or_do_date. rewrite js_or_do_truthy by assumption.
  rewrite !js_or_string, !js_or_null_settled by (assumption || reflexivity).
  reflexivity.
Qed.

Lemma supplier_roundtrip (x : Supplier.t) (c : Clock) :
  supplier_constructed x = true ->
  Supplier.fromDocument (Supplier.toDocument x) c = (supplier_without_id x, c).
Proof.
  unfold supplier_constructed. intro H.
  apply andb_prop in H; destruct H as [Hm Ht].
  unfold Supplier.fromDocument, Supplier.new, Supplier.toDocument,
    supplier_without_id.
  cbn [Supplier._id Supplier.doc_mysqlId Supplier.doc_name Supplier.doc_contact
       Supplier.doc_contactPerson Supplier.doc_phone Supplier.doc_email
       Supplier.doc_address Supplier.doc_createdDate Supplier.doc_timestamp
       Supplier.d_id Supplier.d_mysqlId Supplier.d_name Supplier.d_contact
       Supplier.d_contactPerson Supplier.d_phone Supplier.d_email
       Supplier.d_address Supplier.d_createdDate Supplier.d_timestamp].
  cbv beta iota delta [bind ret Monad_Clocked].
  rewrite js_or_do_date. rewrite js_or_do_truthy by assumption.
  rewrite !js_or_string, !js_or_null_settled by (assumption || reflexivity).
  reflexivity.
Qed.

Lemma settled_js_or_null {A} `{Falsy A} (x : option A) : settled (js_or_null x) = true.
Proof.
  destruct x as [v|]; simpl; [|reflexivity].
  destruct (falsy v) eqn:E; simpl; [reflexivity | rewrite E; reflexivity].
Qed.

(** The constructor returns a sale in constructed form, provided the
    clock never reads 0. *)
Lemma new_sale_constructed (d : Sale.data) (c : Clock) :
  (forall k, readings c k <> 0) ->
  sale_constructed (fst (Sale.new d c)) = true.
Proof.
  intro Hc. unfold Sale.new, sale_constructed.
  cbv beta iota delta [bind ret Monad_Clocked].
  destruct (js_or_do (Sale.d_saleDate d) new_Date c) as [sd c1] eqn:E1.
  assert (Hr : readings c1 = readings c).
  { unfold js_or_do, new_Date in E1.
    destruct (Sale.d_saleDate d); inversion E1; reflexivity. }
  destruct (js_or_do (Sale.d_timestamp d) Date_now c1) as [ts c2] eqn:E2.
  cbn [fst Sale.mysqlId Sale.customerId Sale.timestamp].
  rewrite !settled_js_or_null. cbn [andb].
  unfold js_or_do, Date_now, falsy, Falsy_number in *.
  assert (Hts : ts <> 0).
  { destruct (Sale.d_timestamp d) as [v|].
    - destruct (Z.eqb_spec v 0).
      + inversion E2. rewrite Hr. apply Hc.
      + inversion E2. subst. assumption.
    - inversion E2. rewrite Hr. apply Hc. }
  destruct (Z.eqb_spec ts 0); [contradiction | reflexivity].
Qed.

Lemma item_fields_preserved (l : list SaleItem.t) :
  map SaleItem.get (map Sale.item_document l) = map SaleItem.get l.
Proof.
  induction l as [|it l IH]; simpl; [reflexivity|].
  rewrite IH. destruct it as [f|f]; simpl; [reflexivity|].
  destruct f; reflexivity.
Qed.

(** C8, as amended: for a customer, a supplier and a sale as their
    constructors leave them, [fromDocument(toDocument(entity))] gives
    back every attribute but [id], which is [null] because [toDocument]
    leaves the store identifier out; the line items of a sale come back
    as their documents, each with the fields it had; the clock is not
    read. *)
Theorem roundtrip_keeps_attributes
  (s : Sale.t) (x : Customer.t) (y : Supplier.t) (c : Clock) :
  sale_constructed s = true ->
  customer_constructed x = true ->
  supplier_constructed y = true ->
  Sale.fromDocument (Sale.toDocument s) c = (sale_without_id s, c)
  /\ map SaleItem.get (Sale.saleItems (sale_without_id s)) =
       map SaleItem.get (Sale.saleItems s)
  /\ Customer.fromDocument (Customer.toDocument x) c = (customer_without_id x, c)
  /\ Supplier.fromDocument (Supplier.toDocument y) c = (supplier_without_id y, c).
Proof.
  intros Hs Hx Hy.
  split; [apply sale_roundtrip; assumption|].
  split; [apply item_fields_preserved|].
  split; [apply customer_roundtrip | apply supplier_roundtrip]; assumption.
Qed.

Lemma roundtrip_keeps_attributes_witness :
  sale_constructed stored_sale = true
  /\ customer_constructed a_customer = true
  /\ supplier_constructed a_supplier = true
  /\ Sale.fromDocument (Sale.toDocument stored_sale) clock0 =
       (sale_without_id stored_sale, clock0)
  /\ Customer.fromDocument (Customer.toDocument a_customer) clock0 =
       (a_customer, clock0).
Proof.
  split; [reflexivity|]. split; [reflexivity|]. split; [reflexivity|].
  destruct (roundtrip_keeps_attributes stored_sale a_customer a_supplier clock0
              eq_refl eq_refl eq_refl) as (Hs & _ & Hx & _).
  split; [exact Hs | exact Hx].
Defined.

(** C8, as stated, fails on a sale that carries its store identifier,
    as every sale read back from the store does: the identifier is lost
    on the way. *)
Lemma roundtrip_forgets_id :
  Sale.id stored_sale = Some first_id
  /\ Sale.id (fst (Sale.fromDocument (Sale.toDocument stored_sale) clock0)) = None
  /\ fst (Sale.fromDocument (Sale.toDocument stored_sale) clock0) <> stored_sale.
Proof.
  split; [reflexivity|]. split; [reflexivity|].
  intro H. apply (f_equal Sale.id) in H. vm_compute in H. discriminate.
Qed.

End RoundTrip.

(** ** List queries *)

Section Pagination.

Lemma length_insert_by {D} (le : D -> D -> bool) (x : D) (l : list D) :
  List.length (Mongo.insert_by le x l) = S (List.length l).
Proof.
  induction l as [|y l IH]; simpl; [reflexivity|].
  destruct (le x y); simpl; [reflexivity | rewrite IH; reflexivity].
Qed.

Lemma length_sort_by {D} (le : D -> D -> bool) (l : list D) :
  List.length (Mongo.sort_by le l) = List.length l.
Proof.
  unfold Mongo.sort_by.
  induction l as [|x l IH]; simpl; [reflexivity|].
  rewrite length_insert_by, IH. reflexivity.
Qed.

Lemma length_sorted_docs {D} (s : option ((D -> Mongo.Key) * Mongo.SortDirection))
  (l : list D) :
  List.length (Mongo.sorted_docs s l) = List.length l.
Proof.
  destruct s as [[key []]|]; simpl; try apply length_sort_by; reflexivity.
Qed.

Lemma In_insert_by {D} (le : D -> D -> bool) (x y : D) (l : list D) :
  In y (Mongo.insert_by le x l) <-> y = x \/ In y l.
Proof.
  induction l as [|z l IH]; simpl.
  - intuition congruence.
  - destruct (le x z); simpl; [intuition congruence|].
    rewrite IH. intuition congruence.
Qed.

Lemma In_sorted_docs {D} (s : option ((D -> Mongo.Key) * Mongo.SortDirection))
  (l : list D) (y : D) :
  In y (Mongo.sorted_docs s l) <-> In y l.
Proof.
  assert (Hs : forall le, In y (Mongo.sort_by le l) <-> In y l).
  { intro le. unfold Mongo.sort_by.
    induction l as [|x l IH]; simpl; [tauto|].
    rewrite In_insert_by, IH. intuition congruence. }
  destruct s as [[key []]|]; simpl; try apply Hs; tauto.
Qed.

(** The cursor of a list query, run: the documents that match, in the
    order asked for, without the first [(page - 1) * limit], and no more
    than [limit] of what is left. *)
Lemma toArray_page {D} (coll : list D) (f : D -> bool) (key : D -> Mongo.Key)
  (dir : Mongo.SortDirection) (page limit : Z) :
  1 <= page -> 1 <= limit ->
  Mongo.toArray
    (Mongo.limit limit
       (Mongo.skip ((page - 1) * limit)
          (Mongo.sort key dir (Mongo.find coll f)))) =
  Ok (firstn (Z.to_nat limit)
        (skipn (Z.to_nat ((page - 1) * limit))
           (Mongo.sorted_docs (Some (key, dir)) (List.filter f coll)))).
Proof.
  intros Hp Hl. unfold Mongo.toArray, Mongo.limited; cbn [Mongo.c_skip Mongo.c_limit
    Mongo.c_sort Mongo.c_filter Mongo.c_docs Mongo.limit Mongo.skip Mongo.sort
    Mongo.find].
  destruct (Z.ltb_spec ((page - 1) * limit) 0); [nia|].
  destruct (Z.eqb_spec limit 0); [lia|].
  rewrite Z.abs_eq by lia. reflexivity.
Qed.

Lemma length_page {D} (l : list D) (page limit : Z) :
  1 <= page -> 1 <= limit ->
  Z.of_nat (List.length (firstn (Z.to_nat limit) (skipn (Z.to_nat ((page - 1) * limit)) l)))
  = Z.min limit (Z.max 0 (Z.of_nat (List.length l) - (page - 1) * limit)).
Proof.
  intros Hp Hl. rewrite length_firstn, length_skipn.
  assert (0 <= (page - 1) * limit) by nia. lia.
Qed.

Lemma length_map_clocked {A B} (f : A -> Clocked B) (l : list A) (c : Clock) :
  List.length (fst (map_clocked f l c)) = List.length l.
Proof.
  revert c; induction l as [|x l IH]; intro c; simpl; [reflexivity|].
  destruct (f x c) as [y c1]. specialize (IH c1).
  destruct (map_clocked f l c1) as [ys c2]. simpl in *. congruence.
Qed.

(** [Math.ceil(n / limit)] for a positive limit is the least number of
    pages of [limit] items that hold [n] items. *)
Lemma Math_ceil_div_pages (n limit : Z) :
  1 <= limit ->
  exists p, Math_ceil_div n limit = Finite p
            /\ (p - 1) * limit < n <= p * limit.
Proof.
  intro Hl. unfold Math_ceil_div.
  destruct (Z.eqb_spec limit 0); [lia|].
  exists (- (- n / limit)). split; [reflexivity|].
  pose proof (Z.div_mod (- n) limit ltac:(lia)) as Hd.
  pose proof (Z.mod_pos_bound (- n) limit ltac:(lia)) as Hm.
  nia.
Qed.

Lemma filter_all {D} (l : list D) : List.filter (fun _ => true) l = l.
Proof. induction l as [|x l IH]; simpl; congruence. Qed.

Lemma getAllSales_page (options : ListOptions) (w : World) :
  let page := default_to 1 (o_page options) in
  let limit := default_to 10 (o_limit options) in
  let sortBy := default_to "timestamp" (o_sortBy options) in
  let sortOrder := default_to Mongo.Descending (o_sortOrder options) in
  let filter := SaleService.list_filter (o_startDate options) (o_endDate options)
                  (o_customerId options) in
  let matching := List.filter (Mongo.sale_matches filter) (w_sales w) in
  let ordered := Mongo.sorted_docs (Some (Mongo.sale_field sortBy, sortOrder)) matching in
  1 <= page -> 1 <= limit ->
  exists r w',
    SaleService.getAllSales options w = (Ok r, w')
    /\ w_sales w' = w_sales w
    /\ success r = true
    /\ data r = fst (map_clocked Sale.fromDocument (page_slice page limit ordered)
                       (w_clock w))
    /\ pagination r =
         Some {| page := page; limit := limit;
                 totalCount := Z.of_nat (List.length matching);
                 totalPages := Math_ceil_div (Z.of_nat (List.length matching)) limit |}.
Proof.
  cbv zeta. intros Hp Hl.
  unfold SaleService.getAllSales, SaleService.getCollection, returned, clocked.
  cbv beta iota zeta delta [bind ret Monad_Service].
  rewrite toArray_page by assumption.
  cbn [w_clock w_sales]. unfold page_slice.
  match goal with |- context [map_clocked Sale.fromDocument ?l ?c] =>
    destruct (map_clocked Sale.fromDocument l c) as [l' c'] end.
  eexists. eexists. split; [reflexivity|]. repeat split.
Qed.

Lemma getAllCustomers_page (options : ListOptions) (w : World) :
  let page := default_to 1 (o_page options) in
  let limit := default_to 10 (o_limit options) in
  let sortBy := default_to "timestamp" (o_sortBy options) in
  let sortOrder := default_to Mongo.Descending (o_sortOrder options) in
  let ordered := Mongo.sorted_docs (Some (Mongo.customer_field sortBy, sortOrder))
                   (w_customers w) in
  1 <= page -> 1 <= limit ->
  exists r w',
    CustomerService.getAllCustomers options w = (Ok r, w')
    /\ w_customers w' = w_customers w
    /\ success r = true
    /\ data r = fst (map_clocked Customer.fromDocument (page_slice page limit ordered)
                       (w_clock w))
    /\ pagination r =
         Some {| page := page; limit := limit;
                 totalCount := Z.of_nat (List.length (w_customers w));
                 totalPages := Math_ceil_div (Z.of_nat (List.length (w_customers w))) limit |}.
Proof.
  cbv zeta. intros Hp Hl.
  unfold CustomerService.getAllCustomers, CustomerService.getCollection, returned,
    clocked, Mongo.countDocuments.
  cbv beta iota zeta delta [bind ret Monad_Service].
  rewrite toArray_page by assumption.
  cbn [w_clock w_customers]. rewrite !filter_all. unfold page_slice.
  match goal with |- context [map_clocked Customer.fromDocument ?l ?c] =>
    destruct (map_clocked Customer.fromDocument l c) as [l' c'] end.
  eexists. eexists. split; [reflexivity|]. repeat split.
Qed.

(** C5, as amended: a list query with [page >= 1] and [limit >= 1]
    returns the documents that match its filter, in the order asked
    for, without the first [(page - 1) * limit] of them and no more than
    [limit] of the rest; it reports [page], [limit], a [totalCount] that
    is the number of documents matching the same filter over the whole
    collection, and [totalPages = ceil(totalCount / limit)], the least
    [p] with [totalCount <= p * limit].  So for the sales, with their
    date and customer filter, and for the customers, whose filter is
    empty. *)
Theorem list_query_pages (options : ListOptions) (w : World) :
  let page := default_to 1 (o_page options) in
  let limit := default_to 10 (o_limit options) in
  let sortBy := default_to "timestamp" (o_sortBy options) in
  let sortOrder := default_to Mongo.Descending (o_sortOrder options) in
  let filter := SaleService.list_filter (o_startDate options) (o_endDate options)
                  (o_customerId options) in
  let matching := List.filter (Mongo.sale_matches filter) (w_sales w) in
  let ordered := Mongo.sorted_docs (Some (Mongo.sale_field sortBy, sortOrder)) matching in
  let customers := Mongo.sorted_docs (Some (Mongo.customer_field sortBy, sortOrder))
                     (w_customers w) in
  1 <= page -> 1 <= limit ->
  (exists r w' p,
      SaleService.getAllSales options w = (Ok r, w')
      /\ data r = fst (map_clocked Sale.fromDocument (page_slice page limit ordered)
                         (w_clock w))
      /\ (forall d, In d ordered <->
                    In d (w_sales w) /\ Mongo.sale_matches filter d = true)
      /\ List.length ordered = List.length matching
      /\ Z.of_nat (List.length (data r)) <= limit
      /\ Z.of_nat (List.length (data r)) =
           Z.min limit (Z.max 0 (Z.of_nat (List.length matching) - (page - 1) * limit))
      /\ pagination r =
           Some {| page := page; limit := limit;
                   totalCount := Z.of_nat (List.length matching);
                   totalPages := Finite p |}
      /\ (p - 1) * limit < Z.of_nat (List.length matching) <= p * limit)
  /\ (exists r w' p,
        CustomerService.getAllCustomers options w = (Ok r, w')
        /\ data r = fst (map_clocked Customer.fromDocument
                           (page_slice page limit customers) (w_clock w))
        /\ (forall d, In d customers <-> In d (w_customers w))
        /\ Z.of_nat (List.length (data r)) <= limit
        /\ Z.of_nat (List.length (data r)) =
             Z.min limit
               (Z.max 0 (Z.of_nat (List.length (w_customers w)) - (page - 1) * limit))
        /\ pagination r =
             Some {| page := page; limit := limit;
                     totalCount := Z.of_nat (List.length (w_customers w));
                     totalPages := Finite p |}
        /\ (p - 1) * limit < Z.of_nat (List.length (w_customers w)) <= p * limit).
Proof.
  cbv zeta. intros Hp Hl. split.
  - destruct (getAllSales_page options w Hp Hl) as (r & w' & Hrun & _ & _ & Hd & Hpg).
    destruct (Math_ceil_div_pages
                (Z.of_nat (List.length
                   (List.filter
                      (Mongo.sale_matches
                         (SaleService.list_filter (o_startDate options)
                            (o_endDate options) (o_customerId options)))
                      (w_sales w)))) Hl) as (p & Hceil & Hbound).
    exists r, w', p. split; [exact Hrun|]. split; [exact Hd|].
    split; [intro d; rewrite In_sorted_docs; apply filter_In|].
    split; [apply length_sorted_docs|].
    assert (Hlen : Z.of_nat (List.length (data r)) =
              Z.min (default_to 10 (o_limit options))
                (Z.max 0
                   (Z.of_nat (List.length
                      (List.filter
                         (Mongo.sale_matches
                            (SaleService.list_filter (o_startDate options)
                               (o_endDate options) (o_customerId options)))
                         (w_sales w)))
                    - (default_to 1 (o_page options) - 1)
                      * default_to 10 (o_limit options)))).
    { rewrite Hd, length_map_clocked. unfold page_slice.
      rewrite length_page by assumption. rewrite length_sorted_docs. reflexivity. }
    split; [lia|]. split; [exact Hlen|].
    split; [rewrite Hpg, Hceil; reflexivity | exact Hbound].
  - destruct (getAllCustomers_page options w Hp Hl)
      as (r & w' & Hrun & _ & _ & Hd & Hpg).
    destruct (Math_ceil_div_pages (Z.of_nat (List.length (w_customers w))) Hl)
      as (p & Hceil & Hbound).
    exists r, w', p. split; [exact Hrun|]. split; [exact Hd|].
    split; [intro d; apply In_sorted_docs|].
    assert (Hlen : Z.of_nat (List.length (data r)) =
              Z.min (default_to 10 (o_limit options))
                (Z.max 0
                   (Z.of_nat (List.length (w_customers w))
                    - (default_to 1 (o_page options) - 1)
                      * default_to 10 (o_limit options)))).
    { rewrite Hd, length_map_clocked. unfold page_slice.
      rewrite length_page by assumption. rewrite length_sorted_docs. reflexivity. }
    split; [lia|]. split; [exact Hlen|].
    split; [rewrite Hpg, Hceil; reflexivity | exact Hbound].
Qed.

Lemma list_query_pages_witness :
  1 <= 2 /\ 1 <= 10
  /\ exists r w',
       SaleService.getAllSales (page_of 2 10) (world_after 25) = (Ok r, w')
       /\ Z.of_nat (List.length (data r)) <= 10
       /\ option_map totalCount (pagination r) = Some 25.
Proof.
  split; [lia|]. split; [lia|].
  destruct (list_query_pages (page_of 2 10) (world_after 25)) as [Hs _];
    [simpl; lia | simpl; lia |].
  destruct Hs as (r & w' & p & Hrun & _ & _ & _ & Hle & _ & Hpg & _).
  exists r, w'. split; [exact Hrun|]. split; [exact Hle|].
  rewrite Hpg. reflexivity.
Defined.

(** The scenario of the second page: 25 sales, [page = 2], [limit =
    10]: ten items, three pages. *)
Example getAllSales_second_page :
  match SaleService.getAllSales (page_of 2 10) (world_after 25) with
  | (Ok r, _) =>
      List.length (data r) = 10%nat
      /\ pagination r =
           Some {| page := 2; limit := 10; totalCount := 25; totalPages := Finite 3 |}
  | (Throw _, _) => False
  end.
Proof. vm_compute. split; reflexivity. Qed.

(** C5, as stated for every limit, fails at [limit = 0]: the store
    takes a limit of 0 as no limit, so the three sales of the store all
    come back, more than the limit, and [ceil(3 / 0)] is not a number of
    pages. *)
Lemma getAllSales_limit_zero :
  match SaleService.getAllSales (page_of 1 0) (world_after 3) with
  | (Ok r, _) =>
      List.length (data r) = 3%nat
      /\ ~ Z.of_nat (List.length (data r)) <= 0
      /\ option_map limit (pagination r) = Some 0
      /\ option_map totalPages (pagination r) = Some NotFinite
  | (Throw _, _) => False
  end.
Proof. vm_compute. repeat split; try reflexivity. intro H; apply H; reflexivity. Qed.

End Pagination.

(** ** Analytics *)

Section AnalyticsProps.

Lemma analytics_filter_list_filter (startDate endDate : option Date) :
  SaleService.analytics_filter startDate endDate =
  SaleService.list_filter startDate endDate None.
Proof. destruct startDate, endDate; reflexivity. Qed.

Lemma analytics_filter_in_date_range (startDate endDate : option Date) (d : Sale.doc) :
  Mongo.sale_matches (SaleService.analytics_filter startDate endDate) d =
  in_date_range startDate endDate (Sale.doc_saleDate d).
Proof.
  unfold SaleService.analytics_filter, Mongo.sale_matches, Mongo.date_matches,
    in_date_range.
  destruct startDate, endDate; simpl; rewrite ?andb_true_r; reflexivity.
Qed.

Lemma fold_group_step (rest : list Sale.doc) (g : Mongo.group_state) :
  let g' := fold_left Mongo.group_step rest g in
  Mongo.g_totalSales g' = Mongo.g_totalSales g + Z.of_nat (List.length rest)
  /\ Mongo.g_totalRevenue g' =
       Mongo.g_totalRevenue g + sum (map Sale.doc_totalAmount rest)
  /\ Mongo.g_totalItemsSold g' = Mongo.g_totalItemsSold g + sum (map items_of rest)
  /\ Mongo.g_avg_sum g' = Mongo.g_avg_sum g + sum (map Sale.doc_totalAmount rest)
  /\ Z.pos (Mongo.g_avg_count g') =
       Z.pos (Mongo.g_avg_count g) + Z.of_nat (List.length rest).
Proof.
  revert g; induction rest as [|d rest IH]; intro g; cbv zeta.
  - simpl. repeat split; lia.
  - cbn [fold_left]. specialize (IH (Mongo.group_step g d)). cbv zeta in IH.
    destruct IH as (H1 & H2 & H3 & H4 & H5).
    rewrite H1, H2, H3, H4, H5. unfold items_of. cbn [Mongo.group_step
      Mongo.g_totalSales Mongo.g_totalRevenue Mongo.g_totalItemsSold
      Mongo.g_avg_sum Mongo.g_avg_count map List.length sum fold_right].
    fold (sum (map Sale.doc_totalAmount rest)).
    fold (sum (map (fun d0 => Z.of_nat (List.length (Sale.doc_saleItems d0))) rest)).
    repeat split; lia.
Qed.

(** The pipeline on a set of sales: nothing for none, and otherwise one
    document with the count, the two sums and the mean. *)
Lemma aggregate_statistics (coll : list Sale.doc) (f : Mongo.SaleFilter) :
  let matched := List.filter (Mongo.sale_matches f) coll in
  match Mongo.aggregate coll f with
  | [] => matched = []
  | a :: more =>
      more = [] /\ matched <> []
      /\ Mongo.totalSales a = Z.of_nat (List.length matched)
      /\ Mongo.totalRevenue a = sum (map Sale.doc_totalAmount matched)
      /\ Mongo.totalItemsSold a = sum (map items_of matched)
      /\ (Mongo.averageSaleAmount a == mean (map Sale.doc_totalAmount matched))%Q
  end.
Proof.
  cbv zeta. unfold Mongo.aggregate.
  destruct (List.filter (Mongo.sale_matches f) coll) as [|d rest]; [reflexivity|].
  destruct (fold_group_step rest (Mongo.group_first d)) as (H1 & H2 & H3 & H4 & H5).
  cbv zeta in H1, H2, H3, H4, H5.
  split; [reflexivity|]. split; [discriminate|].
  unfold Mongo.group_result;
    cbn [Mongo.totalSales Mongo.totalRevenue Mongo.totalItemsSold
         Mongo.averageSaleAmount].
  rewrite H1, H2, H3.
  cbn [Mongo.group_first Mongo.g_totalSales Mongo.g_totalRevenue
       Mongo.g_totalItemsSold Mongo.g_avg_sum Mongo.g_avg_count] in *.
  split; [cbn [List.length]; lia|].
  split; [reflexivity|]. split; [reflexivity|].
  rewrite Qmake_Qdiv, H4, H5.
  unfold mean. cbn [map List.length]. rewrite length_map.
  replace (1 + Z.of_nat (List.length rest))
    with (Z.of_nat (S (List.length rest))) by lia.
  apply Qeq_refl.
Qed.

Lemma getSalesAnalytics_runs (startDate endDate : option Date) (w : World) :
  SaleService.getSalesAnalytics startDate endDate w =
  (Ok {| success := true;
         data := SaleService.first_or
                   (Mongo.aggregate (w_sales w)
                      (SaleService.analytics_filter startDate endDate))
                   {| Mongo.totalSales := 0; Mongo.totalRevenue := 0;
                      Mongo.totalItemsSold := 0; Mongo.averageSaleAmount := 0%Q |};
         message := None; pagination := None |}, w).
Proof. reflexivity. Qed.

Lemma matched_in_date_range (startDate endDate : option Date) (coll : list Sale.doc) :
  List.filter (Mongo.sale_matches (SaleService.analytics_filter startDate endDate)) coll
  = List.filter (fun d => in_date_range startDate endDate (Sale.doc_saleDate d)) coll.
Proof.
  apply filter_ext. intro d. apply analytics_filter_in_date_range.
Qed.

(** C6: [getSalesAnalytics] selects the sales whose [saleDate] lies in
    the inclusive range between [startDate] and [endDate], each bound
    applying when it is given, with the filter the list query builds
    for the same dates; it returns their count, the sum of their
    [totalAmount], the sum of the lengths of their [saleItems] and the
    mean of their [totalAmount]. *)
Theorem analytics_over_date_range (startDate endDate : option Date) (w : World) :
  let matched :=
    List.filter (fun d => in_date_range startDate endDate (Sale.doc_saleDate d))
      (w_sales w) in
  SaleService.analytics_filter startDate endDate =
    SaleService.list_filter startDate endDate None
  /\ (forall d,
        Mongo.sale_matches (SaleService.analytics_filter startDate endDate) d =
        in_date_range startDate endDate (Sale.doc_saleDate d))
  /\ exists r,
       SaleService.getSalesAnalytics startDate endDate w = (Ok r, w)
       /\ success r = true
       /\ Mongo.totalSales (data r) = Z.of_nat (List.length matched)
       /\ Mongo.totalRevenue (data r) = sum (map Sale.doc_totalAmount matched)
       /\ Mongo.totalItemsSold (data r) = sum (map items_of matched)
       /\ (Mongo.averageSaleAmount (data r) ==
             mean (map Sale.doc_totalAmount matched))%Q.
Proof.
  cbv zeta. split; [apply analytics_filter_list_filter|].
  split; [intro d; apply analytics_filter_in_date_range|].
  eexists. split; [apply getSalesAnalytics_runs|].
  split; [reflexivity|]. cbn [data].
  pose proof (aggregate_statistics (w_sales w)
                (SaleService.analytics_filter startDate endDate)) as H.
  cbv zeta in H. rewrite matched_in_date_range in H.
  destruct (Mongo.aggregate (w_sales w)
              (SaleService.analytics_filter startDate endDate)) as [|a more].
  - rewrite H. cbn. repeat split; reflexivity.
  - destruct H as (_ & _ & H1 & H2 & H3 & H4). cbn [SaleService.first_or].
    repeat split; assumption.
Qed.

(** C7: when no sale lies in the date range, [getSalesAnalytics]
    returns, as a success, the four statistics, each 0. *)
Theorem analytics_of_no_sales (startDate endDate : option Date) (w : World) :
  List.filter (fun d => in_date_range startDate endDate (Sale.doc_saleDate d))
    (w_sales w) = [] ->
  SaleService.getSalesAnalytics startDate endDate w =
  (Ok {| success := true;
         data := {| Mongo.totalSales := 0; Mongo.totalRevenue := 0;
                    Mongo.totalItemsSold := 0; Mongo.averageSaleAmount := 0%Q |};
         message := None; pagination := None |}, w).
Proof.
  intro Hnone. rewrite getSalesAnalytics_runs.
  pose proof (aggregate_statistics (w_sales w)
                (SaleService.analytics_filter startDate endDate)) as H.
  cbv zeta in H. rewrite matched_in_date_range in H.
  destruct (Mongo.aggregate (w_sales w)
              (SaleService.analytics_filter startDate endDate)) as [|a more].
  - reflexivity.
  - destruct H as (_ & Hsome & _). contradiction.
Qed.

Lemma analytics_of_no_sales_witness :
  List.filter (fun d => in_date_range (Some year_2100) None (Sale.doc_saleDate d))
    (w_sales (world_after 3)) = []
  /\ fst (SaleService.getSalesAnalytics (Some year_2100) None (world_after 3)) =
     Ok {| success := true;
           data := {| Mongo.totalSales := 0; Mongo.totalRevenue := 0;
                      Mongo.totalItemsSold := 0; Mongo.averageSaleAmount := 0%Q |};
           message := None; pagination := None |}.
Proof.
  split; [reflexivity|].
  rewrite (analytics_of_no_sales (Some year_2100) None (world_after 3) eq_refl).
  reflexivity.
Defined.

(** Three settled sales of the scenario, whatever the dates: three
    sales, 159.00 of revenue, three items, 53.00 on average. *)
Example analytics_of_three_sales :
  fst (SaleService.getSalesAnalytics None None (world_after 3)) =
  Ok {| success := true;
        data := {| Mongo.totalSales := 3; Mongo.totalRevenue := 15900;
                   Mongo.totalItemsSold := 3; Mongo.averageSaleAmount := 15900 # 3 |};
        message := None; pagination := None |}.
Proof. vm_compute. reflexivity. Qed.

End AnalyticsProps.

(** ** Regular expressions: matching by derivatives is membership *)

Section RegexTheory.

Lemma matches_empty_nullable (r : Regex.t) (s : string) :
  Regex.matches r s -> s = "" -> Regex.nullable r = true.
Proof.
  induction 1 as [ | p c Hp | a b s1 s2 Ha IHa Hb IHb | a b s Ha IHa
                 | a b s Hb IHb | a | a s1 s2 Ha IHa Hs IHs ]; intro E; simpl;
    try reflexivity; try discriminate.
  - apply append_is_empty in E. destruct E as [E1 E2].
    rewrite IHa, IHb by assumption. reflexivity.
  - rewrite IHa by assumption. reflexivity.
  - rewrite IHb by assumption. apply orb_true_r.
Qed.

Lemma nullable_matches_empty (r : Regex.t) :
  Regex.nullable r = true -> Regex.matches r "".
Proof.
  induction r as [ | | p | a IHa b IHb | a IHa b IHb | a IHa ]; simpl; intro H;
    try discriminate.
  - constructor.
  - apply andb_prop in H. destruct H as [Ha Hb].
    apply (Regex.m_Seq (IHa Ha) (IHb Hb)).
  - apply orb_prop in H. destruct H as [Ha | Hb].
    + apply Regex.m_Or_l, IHa, Ha.
    + apply Regex.m_Or_r, IHb, Hb.
  - constructor.
Qed.

Lemma derive_sound (c : char) (r : Regex.t) (s : string) :
  Regex.matches (Regex.derive c r) s -> Regex.matches r (String c s).
Proof.
  revert s.
  induction r as [ | | p | a IHa b IHb | a IHa b IHb | a IHa ]; simpl; intros s H.
  - inversion H.
  - inversion H.
  - destruct (p c) eqn:Hp; inversion H; subst. constructor. exact Hp.
  - destruct (Regex.nullable a) eqn:Na.
    + inversion H as [ | | | a' b' s' H1 | a' b' s' H1 | | ]; subst.
      * inversion H1 as [ | | a' b' s1 s2 Ha Hb | | | | ]; subst.
        apply (Regex.m_Seq (IHa _ Ha) Hb).
      * apply (Regex.m_Seq (nullable_matches_empty a Na) (IHb _ H1)).
    + inversion H as [ | | a' b' s1 s2 Ha Hb | | | | ]; subst.
      apply (Regex.m_Seq (IHa _ Ha) Hb).
  - inversion H; subst.
    + apply Regex.m_Or_l. auto.
    + apply Regex.m_Or_r. auto.
  - inversion H as [ | | a' b' s1 s2 Ha Hb | | | | ]; subst.
    apply (Regex.m_Star_cons (IHa _ Ha) Hb).
Qed.

Lemma derive_complete (c : char) (r : Regex.t) (t : string) :
  Regex.matches r t ->
  forall s, t = String c s -> Regex.matches (Regex.derive c r) s.
Proof.
  induction 1 as [ | p c' Hp | a b s1 s2 Ha IHa Hb IHb | a b s' Ha IHa
                 | a b s' Hb IHb | a | a s1 s2 Ha IHa Hs IHs ]; intros s E; simpl.
  - discriminate.
  - inversion E; subst. rewrite Hp. constructor.
  - destruct s1 as [|x s1]; simpl in E.
    + rewrite (matches_empty_nullable Ha eq_refl).
      apply Regex.m_Or_r. apply IHb. exact E.
    + inversion E; subst.
      assert (Hab : Regex.matches (Regex.Seq (Regex.derive c a) b)
                      (String.append s1 s2)).
      { apply Regex.m_Seq; [apply IHa; reflexivity | exact Hb]. }
      destruct (Regex.nullable a); [apply Regex.m_Or_l|]; exact Hab.
  - apply Regex.m_Or_l. auto.
  - apply Regex.m_Or_r. auto.
  - discriminate.
  - destruct s1 as [|x s1]; simpl in E.
    + apply (IHs s E).
    + inversion E; subst.
      apply Regex.m_Seq; [apply IHa; reflexivity | exact Hs].
Qed.

Lemma test_matches (r : Regex.t) (s : string) :
  Regex.test r s = true <-> Regex.matches r s.
Proof.
  revert r; induction s as [|c s IH]; intro r; simpl.
  - split; [apply nullable_matches_empty|].
    intro H. apply (matches_empty_nullable H eq_refl).
  - rewrite IH. split; [apply derive_sound|].
    intro H. apply (derive_complete H eq_refl).
Qed.

Lemma matches_class (p : char -> bool) (s : string) :
  Regex.matches (Regex.Class p) s <-> exists c, s = String c "" /\ p c = true.
Proof.
  split.
  - intro H. inversion H; subst. eexists. split; [reflexivity | assumption].
  - intros (c & E & Hp). subst. constructor. exact Hp.
Qed.

Lemma matches_star_class (p : char -> bool) (s : string) :
  Regex.matches (Regex.Star (Regex.Class p)) s <-> Regex.every p s = true.
Proof.
  split.
  - intro H. remember (Regex.Star (Regex.Class p)) as r eqn:E.
    induction H as [ | | | | | a | a s1 s2 Ha _ Hs IHs ]; try discriminate.
    + reflexivity.
    + inversion E; subst. inversion Ha; subst. simpl.
      rewrite IHs by reflexivity.
      match goal with H : p _ = true |- _ => rewrite H end. reflexivity.
  - induction s as [|c s IH]; simpl; intro H.
    + constructor.
    + apply andb_prop in H. destruct H as [Hc Hs].
      apply (@Regex.m_Star_cons (Regex.Class p) (String c "") s).
      * constructor. exact Hc.
      * apply IH. exact Hs.
Qed.

Lemma matches_plus_class (p : char -> bool) (s : string) :
  Regex.matches (Regex.plus (Regex.Class p)) s <->
  s <> "" /\ Regex.every p s = true.
Proof.
  unfold Regex.plus. split.
  - intro H. inversion H as [ | | a b s1 s2 Ha Hb | | | | ]; subst.
    inversion Ha; subst. simpl. split; [discriminate|].
    apply matches_star_class in Hb. rewrite Hb.
    match goal with H : p _ = true |- _ => rewrite H end. reflexivity.
  - intros [Hne H]. destruct s as [|c s]; [contradiction|].
    simpl in H. apply andb_prop in H. destruct H as [Hc Hs].
    apply (@Regex.m_Seq (Regex.Class p) (Regex.Star (Regex.Class p)) (String c "") s).
    + constructor. exact Hc.
    + apply matches_star_class. exact Hs.
Qed.

Lemma matches_at_most_class (p : char -> bool) (n : nat) (s : string) :
  Regex.matches (Regex.at_most n (Regex.Class p)) s <->
  (String.length s <= n)%nat /\ Regex.every p s = true.
Proof.
  revert s; induction n as [|n IH]; intro s; simpl.
  - split.
    + intro H. inversion H; subst. split; [simpl; lia | reflexivity].
    + intros [Hl _]. destruct s; [constructor | simpl in Hl; lia].
  - split.
    + intro H. inversion H as [ | | | a b s' H1 | a b s' H1 | | ]; subst.
      * inversion H1; subst. split; [simpl; lia | reflexivity].
      * inversion H1 as [ | | a b s1 s2 Ha Hb | | | | ]; subst.
        inversion Ha; subst. apply IH in Hb. destruct Hb as [Hl He].
        simpl. split; [lia|]. rewrite He.
        match goal with H : p _ = true |- _ => rewrite H end. reflexivity.
    + intros [Hl He]. destruct s as [|c s].
      * apply Regex.m_Or_l. constructor.
      * simpl in Hl, He. apply andb_prop in He. destruct He as [Hc Hs].
        apply Regex.m_Or_r.
        apply (@Regex.m_Seq (Regex.Class p) (Regex.at_most n (Regex.Class p))
                 (String c "") s).
        -- constructor. exact Hc.
        -- apply IH. split; [lia | exact Hs].
Qed.

End RegexTheory.

(** ** Addresses and phone numbers *)

Section Formats.

Lemma is_char_eq (x : ascii) (c : char) :
  Regex.is_char x c = true <-> c = code x.
Proof. unfold Regex.is_char, code. apply N.eqb_eq. Qed.

Lemma not_space_nor_at_spec (c : char) :
  Regex.not_space_nor_at c = true <-> ~ In c (code "@" :: white_space).
Proof.
  unfold Regex.not_space_nor_at. rewrite negb_true_iff, orb_false_iff.
  rewrite <- !not_true_iff_false, is_space_white_space, is_char_eq. simpl.
  split.
  - intros [Hs Ha] [E | Hin]; [apply Ha; symmetry; exact E | exact (Hs Hin)].
  - intro H. split; intro Hc; apply H; [right | left; symmetry]; exact Hc.
Qed.

Lemma phone_filler_spec (c : char) :
  Regex.phone_filler c =
  existsb (N.eqb c) (code "-" :: code "(" :: code ")" :: white_space).
Proof.
  apply eq_true_iff_eq. rewrite existsb_eqb_In.
  unfold Regex.phone_filler. rewrite !orb_true_iff, is_space_white_space, !is_char_eq.
  simpl. intuition congruence.
Qed.

Lemma email_part_every (s : string) :
  (s <> "" /\ Regex.every Regex.not_space_nor_at s = true) <-> email_part (units s).
Proof.
  unfold email_part. rewrite every_units, forallb_forall, Forall_forall.
  split; intros [Hne H]; split.
  - intro E. apply Hne. apply units_inj. exact E.
  - intros c Hc. apply not_space_nor_at_spec, H, Hc.
  - intro E. apply Hne. rewrite E. reflexivity.
  - intros c Hc. apply not_space_nor_at_spec, H, Hc.
Qed.

(** The strings the pattern of an address matches. *)
Lemma emailRegex_matches (e : string) :
  Regex.matches Regex.emailRegex e <->
  exists a b c,
    e = a ++ "@" ++ b ++ "." ++ c
    /\ Regex.matches (Regex.plus (Regex.Class Regex.not_space_nor_at)) a
    /\ Regex.matches (Regex.plus (Regex.Class Regex.not_space_nor_at)) b
    /\ Regex.matches (Regex.plus (Regex.Class Regex.not_space_nor_at)) c.
Proof.
  unfold Regex.emailRegex. split.
  - intro H.
    inversion H as [ | | r1 r2 a s2 Ha H2 | | | | ]; subst.
    inversion H2 as [ | | r1 r2 s_at s3 Hat H3 | | | | ]; subst.
    inversion H3 as [ | | r1 r2 b s4 Hb H4 | | | | ]; subst.
    inversion H4 as [ | | r1 r2 s_dot c Hdot Hc | | | | ]; subst.
    apply matches_class in Hat. destruct Hat as (x & -> & Hx).
    apply matches_class in Hdot. destruct Hdot as (y & -> & Hy).
    apply is_char_eq in Hx, Hy. subst x y.
    exists a, b, c. split; [reflexivity|]. auto.
  - intros (a & b & c & -> & Ha & Hb & Hc).
    apply Regex.m_Seq; [exact Ha|].
    apply (@Regex.m_Seq _ _ "@"); [constructor; reflexivity|].
    apply Regex.m_Seq; [exact Hb|].
    apply (@Regex.m_Seq _ _ "."); [constructor; reflexivity|].
    exact Hc.
Qed.

(** X1: [isValidEmail] accepts exactly the strings of the form
    [local@domain.tail] whose three parts are not empty and hold no [@]
    and no white space, where white space is any of the twenty-five
    code units that [\s] stands for, NO-BREAK SPACE, LINE SEPARATOR and
    the BYTE ORDER MARK among them; the three copies of the function
    (customer, supplier, helpers) agree. *)
Theorem isValidEmail_shape (e : string) :
  (Customer.isValidEmail e = true <->
   exists a b c,
     units e = (a ++ code "@" :: b ++ code "." :: c)%list
     /\ email_part a /\ email_part b /\ email_part c)
  /\ Supplier.isValidEmail e = Customer.isValidEmail e
  /\ Helpers.isValidEmail e = Customer.isValidEmail e.
Proof.
  split; [|split; reflexivity].
  unfold Customer.isValidEmail. rewrite test_matches, emailRegex_matches.
  split.
  - intros (a & b & c & -> & Ha & Hb & Hc).
    rewrite matches_plus_class, email_part_every in Ha, Hb, Hc.
    exists (units a), (units b), (units c).
    split; [|auto]. rewrite !units_append. reflexivity.
  - intros (a & b & c & E & Ha & Hb & Hc).
    exists (of_units a), (of_units b), (of_units c).
    rewrite !matches_plus_class, !email_part_every, !units_of_units.
    split; [|auto]. apply units_inj.
    rewrite E, !units_append, !units_of_units. reflexivity.
Qed.

Example isValidEmail_examples :
  Customer.isValidEmail "a@b.c" = true
  /\ Customer.isValidEmail "john.doe@example.co.uk" = true
  /\ Customer.isValidEmail "john@example" = false
  /\ Customer.isValidEmail "john doe@example.com" = false
  /\ Customer.isValidEmail "a@b@c.d" = false
  /\ Customer.isValidEmail "@b.c" = false
  /\ Customer.isValidEmail "a@b." = false
  /\ Customer.isValidEmail ("a" ++ String 160 "b@c.d") = false
  /\ Customer.isValidEmail ("a" ++ String 8232 "b@c.d") = false
  /\ Customer.isValidEmail ("a" ++ String 233 "b@c.d") = true.
Proof. repeat split; reflexivity. Qed.

Lemma digit_spec (c : char) : Regex.digit c = true <-> digit_from "0" c.
Proof.
  unfold Regex.digit, digit_from. change (code "0") with 48%N.
  change (code "9") with 57%N.
  rewrite andb_true_iff, !N.leb_le. tauto.
Qed.

Lemma one_to_nine_spec (c : char) : Regex.one_to_nine c = true <-> digit_from "1" c.
Proof.
  unfold Regex.one_to_nine, digit_from. change (code "1") with 49%N.
  change (code "9") with 57%N.
  rewrite andb_true_iff, !N.leb_le. tauto.
Qed.

(** The strings the pattern of a phone number matches. *)
Lemma phoneRegex_matches (s : string) :
  Regex.matches Regex.phoneRegex s <->
  exists sign d rest,
    s = sign ++ String d rest
    /\ (sign = "" \/ sign = "+")
    /\ Regex.one_to_nine d = true
    /\ Regex.every Regex.digit rest = true
    /\ (String.length rest <= 15)%nat.
Proof.
  unfold Regex.phoneRegex, Regex.optional. split.
  - intro H.
    inversion H as [ | | r1 r2 sign s2 Hsign H2 | | | | ]; subst.
    inversion H2 as [ | | r1 r2 s_d rest Hd Hrest | | | | ]; subst.
    apply matches_class in Hd. destruct Hd as (d & -> & Hd).
    apply (matches_at_most_class Regex.digit 15 rest) in Hrest.
    destruct Hrest as [Hl He].
    exists sign, d, rest. split; [reflexivity|]. split; [|auto].
    inversion Hsign as [ | | | r1 r2 s' H1 | r1 r2 s' H1 | | ]; subst.
    + apply matches_class in H1. destruct H1 as (x & -> & Hx).
      apply is_char_eq in Hx. subst x. right. reflexivity.
    + inversion H1. left. reflexivity.
  - intros (sign & d & rest & -> & Hsign & Hd & He & Hl).
    apply Regex.m_Seq.
    + destruct Hsign as [-> | ->].
      * apply Regex.m_Or_r. constructor.
      * apply Regex.m_Or_l. constructor. reflexivity.
    + apply (@Regex.m_Seq _ _ (String d "")); [constructor; exact Hd|].
      apply (matches_at_most_class Regex.digit 15 rest). split; assumption.
Qed.

(** X2: [isValidPhone] looks at the code units of the phone number
    that are neither white space (any of the twenty-five code units of
    [\s]) nor a hyphen nor a parenthesis, in their order, and accepts
    exactly when they are an optional [+], then a digit from 1 to 9,
    then at most fifteen more digits; the copy in the helpers agrees. *)
Theorem isValidPhone_shape (phone : string) :
  (Supplier.isValidPhone phone = true <->
   exists sign d rest,
     dialled phone = (sign ++ d :: rest)%list
     /\ (sign = [] \/ sign = [code "+"])
     /\ digit_from "1" d
     /\ Forall (digit_from "0") rest
     /\ (List.length rest <= 15)%nat)
  /\ Helpers.isValidPhone phone = Supplier.isValidPhone phone.
Proof.
  split; [|reflexivity].
  unfold Supplier.isValidPhone, dialled.
  rewrite test_matches, phoneRegex_matches.
  rewrite <- (filter_ext _ _ (fun c => f_equal negb (phone_filler_spec c))).
  rewrite <- units_without.
  generalize (Regex.without Regex.phone_filler phone). intro s. split.
  - intros (sign & d & rest & -> & Hsign & Hd & He & Hl).
    exists (units sign), d, (units rest).
    rewrite units_append. split; [reflexivity|].
    split; [destruct Hsign as [-> | ->]; [left | right]; reflexivity|].
    split; [apply one_to_nine_spec, Hd|].
    split; [|rewrite length_units; exact Hl].
    rewrite every_units, forallb_forall in He. apply Forall_forall.
    intros c Hc. apply digit_spec, He, Hc.
  - intros (sign & d & rest & E & Hsign & Hd & He & Hl).
    exists (of_units sign), d, (of_units rest).
    split; [apply units_inj; rewrite E, units_append; simpl;
            rewrite !units_of_units; reflexivity|].
    split; [destruct Hsign as [-> | ->]; [left | right]; reflexivity|].
    split; [apply one_to_nine_spec, Hd|].
    split; [|rewrite <- length_units, units_of_units; exact Hl].
    rewrite every_units, units_of_units, forallb_forall.
    rewrite Forall_forall in He. intros c Hc. apply digit_spec, He, Hc.
Qed.

Example isValidPhone_examples :
  Supplier.isValidPhone "+1 (555) 123-4567" = true
  /\ Supplier.isValidPhone "5551234567" = true
  /\ Supplier.isValidPhone "0771234567" = false
  /\ Supplier.isValidPhone "+" = false
  /\ Supplier.isValidPhone "12345678901234567" = false
  /\ Supplier.isValidPhone "555-CALL" = false
  /\ Supplier.isValidPhone ("555" ++ String 160 "1234") = true
  /\ Supplier.isValidPhone ("555" ++ String 65279 "1234") = true.
Proof. repeat split; reflexivity. Qed.

End Formats.

(** ** helpers.js *)

Section HelpersProps.

(** X3: for a limit of at least 1, [calculatePagination] reports
    [hasNext] exactly when items lie beyond the page, that is when
    [page * limit < totalCount]; [hasPrev] exactly when the page is after
    the first; and [totalPages] is the least number of pages that hold
    the items. *)
Theorem calculatePagination_flags (page limit totalCount : Z) :
  1 <= limit ->
  let p := Helpers.calculatePagination page limit totalCount in
  Helpers.hasNext p = (page * limit <? totalCount)
  /\ Helpers.hasPrev p = (1 <? page)
  /\ exists n,
       Helpers.totalPages p = Finite n
       /\ (n - 1) * limit < totalCount <= n * limit
       /\ Helpers.hasNext p = (page <? n).
Proof.
  intro Hl. cbv zeta. unfold Helpers.calculatePagination.
  cbn [Helpers.hasNext Helpers.hasPrev Helpers.totalPages].
  unfold Helpers.below_ceil_div.
  destruct (Math_ceil_div_pages totalCount Hl) as (n & Hn & Hb).
  unfold Math_ceil_div in *.
  destruct (Z.eqb_spec limit 0); [lia|].
  inversion Hn as [En]. rewrite En.
  split.
  - destruct (Z.ltb_spec page n); destruct (Z.ltb_spec (page * limit) totalCount);
      try reflexivity; nia.
  - split; [reflexivity|]. exists n. auto.
Qed.

Lemma calculatePagination_flags_witness :
  1 <= 10
  /\ Helpers.hasNext (Helpers.calculatePagination 2 10 25) = true
  /\ Helpers.hasNext (Helpers.calculatePagination 3 10 25) = false.
Proof.
  split; [lia|].
  destruct (@calculatePagination_flags 2 10 25 ltac:(lia)) as (H2 & _).
  destruct (@calculatePagination_flags 3 10 25 ltac:(lia)) as (H3 & _).
  split; [exact H2 | exact H3].
Defined.

Lemma every_without (p : char -> bool) (s : string) :
  Regex.every (fun c => negb (p c)) (Regex.without p s) = true.
Proof.
  induction s as [|c s IH]; simpl; [reflexivity|].
  destruct (p c) eqn:E; simpl; [exact IH | rewrite E, IH; reflexivity].
Qed.

Lemma length_without (p : char -> bool) (s : string) :
  (String.length (Regex.without p s) <= String.length s)%nat.
Proof.
  induction s as [|c s IH]; simpl; [lia|].
  destruct (p c); simpl; lia.
Qed.

Lemma without_none (p : char -> bool) (s : string) :
  Regex.every (fun c => negb (p c)) s = true -> Regex.without p s = s.
Proof.
  induction s as [|c s IH]; simpl; intro H; [reflexivity|].
  apply andb_prop in H. destruct H as [Hc Hs].
  destruct (p c); [discriminate|]. rewrite IH by assumption. reflexivity.
Qed.

Lemma length_trimStart (s : string) :
  (String.length (trimStart s) <= String.length s)%nat.
Proof.
  induction s as [|c s IH]; simpl; [lia|].
  destruct (is_space c); simpl; lia.
Qed.

Lemma length_trimEnd (s : string) :
  (String.length (trimEnd s) <= String.length s)%nat.
Proof.
  induction s as [|c s IH]; simpl; [lia|].
  destruct (trimEnd s); [destruct (is_space c)|]; simpl in *; lia.
Qed.

(** X4: what [sanitizeInput] returns for a string holds neither [<]
    nor [>], is no longer than the string, and is the trimmed string
    when that one has no angle bracket. *)
Theorem sanitizeInput_no_angle_brackets (input : string) :
  Regex.every (fun c => negb (Helpers.angle_bracket c)) (Helpers.sanitizeInput input)
    = true
  /\ (String.length (Helpers.sanitizeInput input) <= String.length input)%nat
  /\ (if Regex.every (fun c => negb (Helpers.angle_bracket c)) (trim input)
      then Helpers.sanitizeInput input = trim input
      else String.length (Helpers.sanitizeInput input) < String.length (trim input))%nat.
Proof.
  unfold Helpers.sanitizeInput. split; [apply every_without|]. split.
  - pose proof (length_without Helpers.angle_bracket (trim input)).
    unfold trim in *.
    pose proof (length_trimEnd (trimStart input)).
    pose proof (length_trimStart input). lia.
  - generalize (trim input). intro s.
    destruct (Regex.every (fun c => negb (Helpers.angle_bracket c)) s) eqn:E.
    + apply without_none. exact E.
    + induction s as [|c s IH]; simpl in *; [discriminate|].
      destruct (Helpers.angle_bracket c); simpl in *.
      * pose proof (length_without Helpers.angle_bracket s). lia.
      * apply IH in E. lia.
Qed.

(** Sanitizing twice is not sanitizing once: a bracket that goes may
    leave white space at the end it stood at. *)
Example sanitizeInput_twice :
  Helpers.sanitizeInput "< b" = " b"
  /\ Helpers.sanitizeInput (Helpers.sanitizeInput "< b") = "b".
Proof. split; reflexivity. Qed.

End HelpersProps.

(** ** SaleItem.js: the class *)

Section SaleItemProps.

Lemma js_or_null_twice {A} `{Falsy A} (x : option A) :
  js_or_null (js_or_null x) = js_or_null x.
Proof.
  destruct x as [v|]; simpl; [|reflexivity].
  destruct (falsy v) eqn:E; simpl; [reflexivity | rewrite E; reflexivity].
Qed.

Lemma js_or_string_twice (x : option string) :
  js_or (Some (js_or x "")) "" = js_or x "".
Proof. apply js_or_string. Qed.

Lemma js_or_number_twice (x : option Z) : js_or (Some (js_or x 0)) 0 = js_or x 0.
Proof. apply js_or_number. Qed.

(** X5: [SaleItem.validate()] reports each broken rule, and accepts an
    item exactly when it has a product identifier other than 0, a name
    that is not blank, a quantity above 0 and a unit price above 0: a
    unit price of 0 gets the message about a non-negative price. *)
Theorem saleItem_validate (i : SaleItemClass.t) :
  let v := SaleItemClass.validate i in
  Sale.errors v =
    ((if truthy (SaleItemClass.productId i) then [] else ["Product ID is required"])
     ++ (if blank (SaleItemClass.productName i)
         then ["Product name is required"] else [])
     ++ (if SaleItemClass.quantity i <=? 0
         then ["Quantity must be greater than 0"] else [])
     ++ (if SaleItemClass.unitPrice i <=? 0
         then ["Unit price must be non-negative"] else []))%list
  /\ Sale.isValid v =
       truthy (SaleItemClass.productId i)
       && negb (blank (SaleItemClass.productName i))
       && (0 <? SaleItemClass.quantity i)
       && (0 <? SaleItemClass.unitPrice i).
Proof.
  cbv zeta. unfold SaleItemClass.validate, Sale.push_if, blank, falsy,
    Falsy_string, Falsy_number.
  cbn [Sale.errors Sale.isValid].
  assert (Hq : forall z, (z =? 0) || (z <=? 0) = (z <=? 0)).
  { intro z. destruct (Z.eqb_spec z 0); destruct (Z.leb_spec z 0);
      try reflexivity; lia. }
  assert (Hu : forall z, (z =? 0) || (z <? 0) = (z <=? 0)).
  { intro z. destruct (Z.eqb_spec z 0); destruct (Z.ltb_spec z 0);
      destruct (Z.leb_spec z 0); try reflexivity; lia. }
  assert (Hp : forall z, (0 <? z) = negb (z <=? 0)).
  { intro z. destruct (Z.ltb_spec 0 z); destruct (Z.leb_spec z 0);
      try reflexivity; lia. }
  rewrite Hq, Hu, !Hp.
  destruct (truthy (SaleItemClass.productId i));
    destruct (String.eqb (SaleItemClass.productName i) ""
              || String.eqb (trim (SaleItemClass.productName i)) "");
    destruct (SaleItemClass.quantity i <=? 0);
    destruct (SaleItemClass.unitPrice i <=? 0);
    split; reflexivity.
Qed.

(** X6: [SaleItem.create] builds what the constructor builds, and a
    constructed item comes back from its document as it was: the class
    has no store identifier to lose. *)
Theorem saleItem_roundtrip (d : SaleItemClass.data) :
  SaleItemClass.create d = SaleItemClass.new d
  /\ SaleItemClass.fromDocument (SaleItemClass.toDocument (SaleItemClass.new d))
     = SaleItemClass.new d.
Proof.
  split; [reflexivity|].
  unfold SaleItemClass.fromDocument, SaleItemClass.toDocument, SaleItemClass.new.
  cbn [SaleItemClass.doc_mysqlId SaleItemClass.doc_productId
       SaleItemClass.doc_productName SaleItemClass.doc_category
       SaleItemClass.doc_quantity SaleItemClass.doc_unitPrice
       SaleItemClass.doc_subTotal
       SaleItemClass.d_mysqlId SaleItemClass.d_productId
       SaleItemClass.d_productName SaleItemClass.d_category
       SaleItemClass.d_quantity SaleItemClass.d_unitPrice SaleItemClass.d_subTotal
       SaleItemClass.mysqlId SaleItemClass.productId SaleItemClass.productName
       SaleItemClass.category SaleItemClass.quantity SaleItemClass.unitPrice
       SaleItemClass.subTotal].
  rewrite !js_or_null_twice, !js_or_string_twice, !js_or_number_twice.
  reflexivity.
Qed.

Lemma item_amount_as_item (i : SaleItemClass.t) :
  Sale.item_amount (SaleItemClass.as_item i) =
  if SaleItemClass.subTotal i =? 0 then item_worth i else SaleItemClass.subTotal i.
Proof. reflexivity. Qed.

Lemma item_amount_calculated (i : SaleItemClass.t) :
  Sale.item_amount (SaleItemClass.as_item (fst (SaleItemClass.calculateSubTotal i)))
  = item_worth i.
Proof.
  rewrite item_amount_as_item. unfold item_worth. simpl.
  destruct (Z.eqb_spec (SaleItemClass.quantity i * SaleItemClass.unitPrice i) 0);
    reflexivity.
Qed.

(** X7: in [Sale.calculateTotals], an item of the class counts for its
    [subTotal], or for quantity times unit price while its [subTotal] is
    still 0; [calculateSubTotal()] returns and stores that product; so a
    sale has for [subTotal] the sum of the products both when
    [calculateSubTotal()] was called on its items and when its items
    were constructed from data without [subTotal]. *)
Theorem calculateTotals_of_class_items
  (l : list SaleItemClass.t) (ds : list SaleItemClass.data) (s : Sale.t) :
  (forall i, Sale.item_amount (SaleItemClass.as_item i) =
             if SaleItemClass.subTotal i =? 0 then item_worth i
             else SaleItemClass.subTotal i)
  /\ (forall i, snd (SaleItemClass.calculateSubTotal i) = item_worth i)
  /\ Sale.subTotal
       (Sale.calculateTotals
          (Sale.set_saleItems
             (map (fun i => SaleItemClass.as_item (fst (SaleItemClass.calculateSubTotal i))) l)
             s))
     = sum (map item_worth l)
  /\ Sale.subTotal
       (Sale.calculateTotals
          (Sale.set_saleItems
             (map (fun d => SaleItemClass.as_item (SaleItemClass.new (no_subTotal d))) ds)
             s))
     = sum (map (fun d => item_worth (SaleItemClass.new d)) ds).
Proof.
  split; [exact item_amount_as_item|]. split; [reflexivity|].
  unfold Sale.calculateTotals; cbn [Sale.subTotal Sale.set_changeAmount
    Sale.set_totalAmount Sale.set_subTotal Sale.saleItems Sale.set_saleItems].
  rewrite !fold_left_running_total, !map_map. split.
  - rewrite (map_ext _ _ item_amount_calculated). lia.
  - rewrite Z.add_0_l. reflexivity.
Qed.

End SaleItemProps.

(** ** Quantity.js *)

Section QuantityProps.

Lemma js_or_opt_none {A} `{Falsy A} (x : option A) :
  js_or_null (js_or_opt x None) = js_or_null x.
Proof.
  destruct x as [v|]; simpl; [|reflexivity].
  destruct (falsy v) eqn:E; simpl; [reflexivity | rewrite E; reflexivity].
Qed.

Lemma js_or_opt_none_default (x : option Z) :
  js_or (js_or_opt x None) 0 = default_to 0 x.
Proof.
  rewrite <- js_or_zero. destruct x as [v|]; simpl; [|reflexivity].
  unfold js_or, falsy, Falsy_number. destruct (v =? 0) eqn:E; simpl;
    [reflexivity | rewrite E; reflexivity].
Qed.

Lemma truthy_js_or_null {A} `{Falsy A} (x : option A) :
  truthy (js_or_null x) = truthy x.
Proof.
  destruct x as [v|]; simpl; [|reflexivity].
  destruct (falsy v) eqn:E; simpl; [reflexivity | rewrite E; reflexivity].
Qed.

Lemma js_or_do_opt_date (d : Date) (e : Clocked Date) (c : Clock) :
  js_or_do (js_or_opt (Some d) None) e c = (d, c).
Proof. reflexivity. Qed.

Lemma quantity_create_fields (d : Quantity.data) (c : Clock) :
  Quantity.productMysqlId (fst (Quantity.create d c)) =
    js_or_null (js_or_opt (Quantity.d_productMysqlId d) (Quantity.d_productId d))
  /\ Quantity.quantitySize (fst (Quantity.create d c)) =
       default_to 0 (Quantity.d_quantitySize d).
Proof.
  unfold Quantity.create, Quantity.new, new_Date.
  destruct (Quantity.d_createdDate d), (Quantity.d_updatedDate d); simpl;
    rewrite !js_or_opt_none, js_or_opt_none_default; split; reflexivity.
Qed.

(** X8: [Quantity.create] reads the product identifier under
    [productMysqlId] or [productId] only, and the size under
    [quantitySize] only: whatever stands under [product_mysql_id],
    [product_id], [quantity_size], [created_date] and [updated_date]
    changes nothing.  What it builds passes [validate()] exactly when
    that identifier is present and not 0 and the size is not negative.
    So the data [{ product_id: 5, quantity_size: 3 }], which the
    constructor reads as product 5 with size 3, gives through [create] a
    quantity with no product and size 0, which [validate()] refuses. *)
Theorem quantity_create_spellings
  (d : Quantity.data) (c : Clock)
  (product_mysql_id product_id quantity_size : option Z)
  (created_date updated_date : option Date) :
  Quantity.create
    (with_other_spellings product_mysql_id product_id quantity_size
       created_date updated_date d) c
  = Quantity.create d c
  /\ Sale.isValid (Quantity.validate (fst (Quantity.create d c))) =
       truthy (js_or_opt (Quantity.d_productMysqlId d) (Quantity.d_productId d))
       && (0 <=? default_to 0 (Quantity.d_quantitySize d))
  /\ (Quantity.productMysqlId (fst (Quantity.new legacy_quantity c)) = Some 5
      /\ Quantity.quantitySize (fst (Quantity.new legacy_quantity c)) = 3
      /\ Quantity.productMysqlId (fst (Quantity.create legacy_quantity c)) = None
      /\ Quantity.quantitySize (fst (Quantity.create legacy_quantity c)) = 0
      /\ Sale.errors (Quantity.validate (fst (Quantity.create legacy_quantity c)))
         = ["Product ID is required"]).
Proof.
  split; [reflexivity|]. split.
  - destruct (quantity_create_fields d c) as [Hp Hq].
    unfold Quantity.validate, Sale.push_if. cbn [Sale.isValid].
    rewrite Hp, Hq, truthy_js_or_null.
    destruct (truthy (js_or_opt (Quantity.d_productMysqlId d) (Quantity.d_productId d)));
      destruct (Z.ltb_spec (default_to 0 (Quantity.d_quantitySize d)) 0);
      destruct (Z.leb_spec 0 (default_to 0 (Quantity.d_quantitySize d)));
      try lia; reflexivity.
  - repeat split; reflexivity.
Qed.

(** X9: a quantity whose product identifier is [null] or not 0 comes
    back from its document with every attribute but [id], which is
    [null]; the clock is not read. *)
Theorem quantity_roundtrip (q : Quantity.t) (c : Clock) :
  settled (Quantity.productMysqlId q) = true ->
  Quantity.fromDocument (Quantity.toDocument q) c = (quantity_without_id q, c).
Proof.
  intro Hp.
  unfold Quantity.fromDocument, Quantity.toDocument, Quantity.new,
    quantity_without_id.
  cbn [Quantity._id Quantity.doc_productMysqlId Quantity.doc_quantitySize
       Quantity.doc_createdDate Quantity.doc_updatedDate
       Quantity.d_id Quantity.d_productMysqlId Quantity.d_product_mysql_id
       Quantity.d_productId Quantity.d_product_id Quantity.d_quantitySize
       Quantity.d_quantity_size Quantity.d_createdDate Quantity.d_created_date
       Quantity.d_updatedDate Quantity.d_updated_date].
  cbv beta iota delta [bind ret Monad_Clocked].
  rewrite !js_or_do_opt_date.
  rewrite !js_or_opt_none, js_or_opt_none_default.
  rewrite !js_or_null_settled by (assumption || reflexivity). reflexivity.
Qed.

Lemma quantity_roundtrip_witness :
  settled (Quantity.productMysqlId (fst (Quantity.new legacy_quantity clock0))) = true
  /\ fst (Quantity.fromDocument
            (Quantity.toDocument (fst (Quantity.new legacy_quantity clock0))) clock0)
     = fst (Quantity.new legacy_quantity clock0).
Proof.
  split; [reflexivity|].
  rewrite (@quantity_roundtrip (fst (Quantity.new legacy_quantity clock0)) clock0
             eq_refl).
  reflexivity.
Defined.

End QuantityProps.

(** ** The sales in the store *)

Section StoreProps.

#[local] Arguments SaleService.has_id : simpl never.

Lemma has_id_with_id (i : ObjectId) (d : Sale.doc) :
  SaleService.has_id i (Sale.with_id i d) = true.
Proof. unfold SaleService.has_id. simpl. apply N.eqb_refl. Qed.

Lemma has_id_eq (i : ObjectId) (d : Sale.doc) :
  SaleService.has_id i d = true -> Sale._id d = Some i.
Proof.
  unfold SaleService.has_id. destruct (Sale._id d) as [[j]|]; [|discriminate].
  destruct i as [i]. simpl. intro H. apply N.eqb_eq in H. subst. reflexivity.
Qed.

Lemma find_first {D} (p : D -> bool) (l1 l2 : list D) (x : D) :
  forallb (fun d => negb (p d)) l1 = true -> p x = true ->
  List.find p (l1 ++ x :: l2) = Some x.
Proof.
  intros H1 Hx. induction l1 as [|y l1 IH]; simpl in *.
  - rewrite Hx. reflexivity.
  - apply andb_prop in H1. destruct H1 as [Hy H1].
    destruct (p y); [discriminate | auto].
Qed.

Lemma find_nothing {D} (p : D -> bool) (l : list D) :
  forallb (fun d => negb (p d)) l = true -> List.find p l = None.
Proof.
  induction l as [|y l IH]; simpl; intro H; [reflexivity|].
  apply andb_prop in H. destruct H as [Hy H].
  destruct (p y); [discriminate | auto].
Qed.

Lemma find_something {D} (p : D -> bool) (l : list D) :
  forallb (fun d => negb (p d)) l = false -> exists x, List.find p l = Some x.
Proof.
  induction l as [|y l IH]; simpl; intro H; [discriminate|].
  destruct (p y); [eexists; reflexivity | auto].
Qed.

Lemma ids_rise_weaken (lo lo' hi : N) (l : list Sale.doc) :
  (lo' <= lo)%N -> ids_rise lo l hi = true -> ids_rise lo' l hi = true.
Proof.
  intros Hlo H. destruct l as [|d l]; simpl in *.
  - apply N.leb_le in H. apply N.leb_le. lia.
  - destruct (Sale._id d) as [j|]; [|discriminate].
    apply andb_prop in H. destruct H as [Hj H]. rewrite H.
    apply N.leb_le in Hj. rewrite andb_true_r. apply N.leb_le. lia.
Qed.

Lemma ids_rise_le (lo hi : N) (l : list Sale.doc) :
  ids_rise lo l hi = true -> (lo <= hi)%N.
Proof.
  revert lo; induction l as [|d l IH]; intros lo H; simpl in H.
  - apply N.leb_le. exact H.
  - destruct (Sale._id d) as [j|]; [|discriminate].
    apply andb_prop in H. destruct H as [Hj H].
    apply N.leb_le in Hj. apply IH in H. lia.
Qed.

Lemma ids_rise_outside (i : ObjectId) (lo hi : N) (l : list Sale.doc) :
  ids_rise lo l hi = true -> (oid i < lo \/ hi <= oid i)%N ->
  none_has_id i l = true.
Proof.
  revert lo; induction l as [|d l IH]; intros lo H Hi; simpl in *; [reflexivity|].
  unfold SaleService.has_id.
  destruct (Sale._id d) as [j|]; [|discriminate].
  apply andb_prop in H. destruct H as [Hj H]. apply N.leb_le in Hj.
  pose proof (ids_rise_le _ _ _ H) as Hle.
  rewrite (IH _ H) by lia. rewrite andb_true_r.
  apply negb_true_iff. apply N.eqb_neq. lia.
Qed.

Lemma ids_rise_insert (lo hi : N) (l : list Sale.doc) (d : Sale.doc) :
  ids_rise lo l hi = true ->
  ids_rise lo (l ++ [Sale.with_id {| oid := hi |} d]) (N.succ hi) = true.
Proof.
  revert lo; induction l as [|x l IH]; intros lo H; simpl in *.
  - rewrite H. simpl. apply N.leb_le. lia.
  - destruct (Sale._id x) as [j|]; [|discriminate].
    apply andb_prop in H. destruct H as [Hj H]. rewrite Hj. simpl. auto.
Qed.

Lemma ids_rise_split (lo hi : N) (l1 l2 : list Sale.doc) (x : Sale.doc) (i : ObjectId) :
  ids_rise lo (l1 ++ x :: l2) hi = true -> Sale._id x = Some i ->
  ids_rise lo l1 (oid i) = true /\ ids_rise (N.succ (oid i)) l2 hi = true.
Proof.
  revert lo; induction l1 as [|y l1 IH]; intros lo H Hx; simpl in *.
  - rewrite Hx in H. apply andb_prop in H. exact H.
  - destruct (Sale._id y) as [j|]; [|discriminate].
    apply andb_prop in H. destruct H as [Hj H]. rewrite Hj. simpl. auto.
Qed.

Lemma ids_rise_join (lo mid hi : N) (l1 l2 : list Sale.doc) :
  ids_rise lo l1 mid = true -> ids_rise mid l2 hi = true ->
  ids_rise lo (l1 ++ l2) hi = true.
Proof.
  revert lo; induction l1 as [|y l1 IH]; intros lo H1 H2; simpl in *.
  - apply N.leb_le in H1. eapply ids_rise_weaken; eassumption.
  - destruct (Sale._id y) as [j|]; [|discriminate].
    apply andb_prop in H1. destruct H1 as [Hj H1]. rewrite Hj. simpl. eauto.
Qed.

(** [createSale], run. *)
Lemma createSale_run (d : Sale.data) (w : World) :
  SaleService.createSale d w =
  let (s, c1) := Sale.create d (w_clock w) in
  if Sale.isValid (Sale.validate s) then
    let doc := Sale.with_id {| oid := w_next_id w |}
                 (Sale.toDocument (Sale.calculateTotals s)) in
    let (s', c2) := Sale.fromDocument doc c1 in
    (Ok {| success := true; data := s';
           message := Some "Sale created successfully"; pagination := None |},
     {| w_clock := c2; w_next_id := N.succ (w_next_id w);
        w_sales := (w_sales w ++ [doc])%list; w_customers := w_customers w |})
  else
    (Throw (String.append "Validation failed: "
              (join ", " (Sale.errors (Sale.validate s)))),
     {| w_clock := c1; w_next_id := w_next_id w;
        w_sales := w_sales w; w_customers := w_customers w |}).
Proof.
  unfold SaleService.createSale, SaleService.insertOne, clocked, throw.
  cbv beta iota zeta delta [bind ret Monad_Service].
  destruct (Sale.create d (w_clock w)) as [s c1].
  destruct (Sale.isValid (Sale.validate s)); cbn [negb]; [|reflexivity].
  cbn [w_clock w_next_id w_sales w_customers].
  match goal with |- context [Sale.fromDocument ?x c1] =>
    destruct (Sale.fromDocument x c1) as [s' c2] end.
  reflexivity.
Qed.

(** A document with a timestamp other than 0 is read back without a
    look at the clock. *)
Lemma fromDocument_still (d : Sale.doc) (c c' : Clock) :
  Sale.doc_timestamp d <> 0 ->
  Sale.fromDocument d c = (fst (Sale.fromDocument d c'), c).
Proof.
  intro Ht. unfold Sale.fromDocument, Sale.new.
  cbv beta iota delta [bind ret Monad_Clocked].
  cbn [Sale.d_saleDate Sale.d_timestamp].
  rewrite !js_or_do_date.
  assert (Hn : negb (falsy (Sale.doc_timestamp d)) = true).
  { unfold falsy, Falsy_number. destruct (Z.eqb_spec (Sale.doc_timestamp d) 0);
      [contradiction | reflexivity]. }
  rewrite !js_or_do_truthy by exact Hn. reflexivity.
Qed.

Lemma create_timestamp (d : Sale.data) (c : Clock) :
  clock_runs c -> Sale.timestamp (fst (Sale.create d c)) <> 0.
Proof.
  intro Hc. destruct (create_fields d c) as (_ & _ & _ & _ & _ & _ & _ & _ & Ht & _).
  cbv zeta in Ht. rewrite Ht.
  destruct (readings c (timestamp_reading d c) =? 0); apply Hc.
Qed.

Lemma get_line_document (it : SaleItem.t) :
  SaleItem.get (Sale.item_document it) = SaleItem.get it.
Proof. destruct it as [f|f]; [reflexivity | destruct f; reflexivity]. Qed.

Lemma line_amount_document (l : list SaleItem.t) :
  map line_amount (map Sale.item_document l) = map line_amount l.
Proof.
  rewrite map_map. apply map_ext. intro it.
  unfold line_amount. rewrite get_line_document. reflexivity.
Qed.

Lemma totals_derived (s : Sale.t) :
  doc_totals_derived (Sale.toDocument (Sale.calculateTotals s)).
Proof.
  unfold doc_totals_derived. cbn [Sale.toDocument Sale.doc_subTotal
    Sale.doc_saleItems Sale.doc_totalAmount Sale.doc_taxAmount
    Sale.doc_discountAmount Sale.doc_changeAmount Sale.doc_paidAmount].
  rewrite line_amount_document. split; [exact (subTotal_calculateTotals s)|].
  split; reflexivity.
Qed.

Lemma fromDocument_fields (d : Sale.doc) (c : Clock) :
  let s := fst (Sale.fromDocument d c) in
  Sale.id s = Sale._id d
  /\ Sale.mysqlId s = js_or_null (Sale.doc_mysqlId d)
  /\ Sale.customerId s = js_or_null (Sale.doc_customerId d)
  /\ Sale.saleItems s = Sale.doc_saleItems d
  /\ Sale.totalAmount s = Sale.doc_totalAmount d
  /\ Sale.paidAmount s = Sale.doc_paidAmount d.
Proof.
  unfold Sale.fromDocument, Sale.new.
  cbv beta iota zeta delta [bind ret Monad_Clocked].
  destruct (js_or_do _ new_Date c) as [sd c1].
  destruct (js_or_do _ Date_now c1) as [ts c2].
  cbn [fst Sale.id Sale.mysqlId Sale.customerId Sale.saleItems Sale.totalAmount
       Sale.paidAmount Sale.d_id Sale.d_mysqlId Sale.d_customerId Sale.d_saleItems
       Sale.d_totalAmount Sale.d_paidAmount].
  rewrite !js_or_number. repeat split.
  destruct (Sale._id d); reflexivity.
Qed.

Lemma valid_has_items (s : Sale.t) :
  Sale.isValid (Sale.validate s) = true ->
  blank (Sale.saleId s) = false /\ Sale.saleItems s <> [].
Proof.
  rewrite validate_isValid. intro H. apply length_zero_iff_nil in H.
  rewrite validate_errors in H. unfold no_items in H.
  destruct (blank (Sale.saleId s)); [discriminate|].
  destruct (Sale.saleItems s); [discriminate|]. split; [reflexivity | discriminate].
Qed.


(** The store stays well formed under [createSale]. *)
Lemma createSale_store_ok (d : Sale.data) (w : World) :
  store_ok w = true -> store_ok (snd (SaleService.createSale d w)) = true.
Proof.
  unfold store_ok. intro H. rewrite createSale_run.
  destruct (Sale.create d (w_clock w)) as [s c1].
  destruct (Sale.isValid (Sale.validate s)); [|exact H].
  cbv zeta. destruct (Sale.fromDocument _ c1) as [s' c2].
  cbn [snd w_sales w_next_id]. apply ids_rise_insert. exact H.
Qed.

(** X11: in a well-formed store, with a clock that never reads 0, the
    sale [createSale] returns is the one [getSaleById] then finds under
    the identifier of the response, field for field, and finding it
    changes nothing. *)
Theorem createSale_then_getSaleById
  (d : Sale.data) (w w' : World) (r : Response Sale.t) :
  store_ok w = true ->
  clock_runs (w_clock w) ->
  SaleService.createSale d w = (Ok r, w') ->
  Sale.id (data r) = Some {| oid := w_next_id w |}
  /\ SaleService.getSaleById {| oid := w_next_id w |} w' =
     (Ok {| success := true; data := data r; message := None; pagination := None |},
      w').
Proof.
  intros Hok Hclock Hrun. rewrite createSale_run in Hrun.
  pose proof (create_timestamp d Hclock) as Hts.
  destruct (Sale.create d (w_clock w)) as [s c1]. cbn [fst] in Hts.
  destruct (Sale.isValid (Sale.validate s)); [|discriminate].
  cbv zeta in Hrun.
  set (doc := Sale.with_id {| oid := w_next_id w |}
                (Sale.toDocument (Sale.calculateTotals s))) in *.
  assert (Hdoc : Sale.doc_timestamp doc <> 0) by exact Hts.
  pose proof (fromDocument_fields doc c1) as Hf. cbv zeta in Hf.
  destruct Hf as (Hid & _).
  pose proof (fromDocument_still doc c1 c1 Hdoc) as Hstill1.
  destruct (Sale.fromDocument doc c1) as [s' c2] eqn:Hfrom.
  cbn [fst] in Hid, Hstill1. inversion Hstill1; subst c2.
  inversion Hrun; subst r w'. cbn [data]. split; [exact Hid|].
  unfold SaleService.getSaleById, SaleService.getCollection, clocked, throw.
  cbv beta iota zeta delta [bind ret Monad_Service]. cbn [w_sales w_clock].
  unfold Mongo.findOne.
  rewrite (@find_first _ (SaleService.has_id {| oid := w_next_id w |})
             (w_sales w) [] doc).
  - cbv beta iota. cbn [w_clock w_next_id w_sales w_customers].
    rewrite Hfrom. reflexivity.
  - apply (@ids_rise_outside _ 0%N (w_next_id w)); [exact Hok|].
    right. cbn [oid]. lia.
  - apply has_id_with_id.
Qed.

Lemma createSale_then_getSaleById_witness :
  store_ok world0 = true
  /\ clock_runs (w_clock world0)
  /\ exists r,
       fst (SaleService.createSale paid_60 world0) = Ok r
       /\ fst (SaleService.getSaleById first_id world1) =
          Ok {| success := true; data := data r; message := None;
                pagination := None |}.
Proof.
  assert (Hc : clock_runs (w_clock world0))
    by (intro k; cbn [world0 clock0 w_clock readings]; lia).
  assert (Hok : store_ok world0 = true) by reflexivity.
  assert (Hacc : exists r, fst (SaleService.createSale paid_60 world0) = Ok r)
    by (eexists; vm_compute; reflexivity).
  split; [exact Hok|]. split; [exact Hc|].
  unfold world1.
  destruct (SaleService.createSale paid_60 world0) as [[r|m] w'] eqn:E.
  - destruct (@createSale_then_getSaleById _ _ _ _ Hok Hc E) as [_ H].
    exists r. split; [reflexivity|]. cbn [snd].
    change first_id with {| oid := w_next_id world0 |}.
    rewrite H. reflexivity.
  - destruct Hacc as [r Hr]. discriminate Hr.
Defined.


Lemma delete_first_spec (i : Identifier) (l : list Sale.doc) :
  (SaleService.delete_first i l = (l, 0) /\ none_has_id i l = true)
  \/ (exists l1 x l2,
        l = (l1 ++ x :: l2)%list
        /\ SaleService.has_id i x = true
        /\ none_has_id i l1 = true
        /\ SaleService.delete_first i l = ((l1 ++ l2)%list, 1)).
Proof.
  induction l as [|y l IH]; simpl.
  - left. split; reflexivity.
  - destruct (SaleService.has_id i y) eqn:Hy.
    + right. exists [], y, l. repeat split. exact Hy.
    + destruct IH as [[E N] | (l1 & x & l2 & E & Hx & N & D)].
      * left. rewrite E. simpl. split; [reflexivity | exact N].
      * right. exists (y :: l1), x, l2. rewrite D, E. simpl. rewrite Hy.
        repeat split; assumption.
Qed.

Lemma update_first_spec (i : ObjectId) (d : Sale.doc) (l : list Sale.doc) :
  (SaleService.update_first i d l = (l, 0) /\ none_has_id i l = true)
  \/ (exists l1 x l2,
        l = (l1 ++ x :: l2)%list
        /\ SaleService.has_id i x = true
        /\ none_has_id i l1 = true
        /\ SaleService.update_first i d l =
           ((l1 ++ Sale.with_id i d :: l2)%list, 1)).
Proof.
  induction l as [|y l IH]; simpl.
  - left. split; reflexivity.
  - destruct (SaleService.has_id i y) eqn:Hy.
    + right. exists [], y, l. unfold SaleService.set_fields.
      rewrite (has_id_eq _ _ Hy). repeat split. exact Hy.
    + destruct IH as [[E N] | (l1 & x & l2 & E & Hx & N & D)].
      * left. rewrite E. simpl. split; [reflexivity | exact N].
      * right. exists (y :: l1), x, l2. rewrite D, E. simpl. rewrite Hy.
        repeat split; assumption.
Qed.

(** [deleteSale], run. *)
Lemma deleteSale_run (i : Identifier) (w : World) :
  SaleService.deleteSale i w =
  let (l, n) := SaleService.delete_first i (w_sales w) in
  let w' := {| w_clock := w_clock w; w_next_id := w_next_id w;
               w_sales := l; w_customers := w_customers w |} in
  if n =? 0 then (Throw "Sale not found", w')
  else (Ok {| success := true; data := tt;
              message := Some "Sale deleted successfully"; pagination := None |},
        w').
Proof.
  unfold SaleService.deleteSale, SaleService.deleteOne, throw.
  cbv beta iota zeta delta [bind ret Monad_Service].
  destruct (SaleService.delete_first i (w_sales w)) as [l n].
  destruct (n =? 0); reflexivity.
Qed.

(** X12: [deleteSale] removes the first sale that has the identifier
    and nothing else, and says so; when no sale has it, it throws
    ["Sale not found"] and the store is as it was. *)
Theorem deleteSale_outcome (i : ObjectId) (w : World) :
  match SaleService.deleteSale i w with
  | (Ok r, w') =>
      success r = true
      /\ message r = Some "Sale deleted successfully"
      /\ w_customers w' = w_customers w
      /\ exists l1 x l2,
           w_sales w = (l1 ++ x :: l2)%list
           /\ SaleService.has_id i x = true
           /\ none_has_id i l1 = true
           /\ w_sales w' = (l1 ++ l2)%list
  | (Throw m, w') =>
      m = "Sale not found"
      /\ none_has_id i (w_sales w) = true
      /\ w_sales w' = w_sales w
      /\ w_customers w' = w_customers w
  end.
Proof.
  rewrite deleteSale_run.
  destruct (delete_first_spec i (w_sales w))
    as [[E N] | (l1 & x & l2 & E & Hx & N & D)].
  - rewrite E. cbn. repeat split. exact N.
  - rewrite D. cbn. repeat split. exists l1, x, l2. repeat split; assumption.
Qed.

Lemma none_has_id_app (i : ObjectId) (l1 l2 : list Sale.doc) :
  none_has_id i (l1 ++ l2) = none_has_id i l1 && none_has_id i l2.
Proof. apply forallb_app. Qed.

Lemma getSaleById_missing (i : Identifier) (w : World) :
  none_has_id i (w_sales w) = true ->
  SaleService.getSaleById i w = (Throw "Sale not found", w).
Proof.
  intro H. unfold SaleService.getSaleById, SaleService.getCollection, throw.
  cbv beta iota zeta delta [bind ret Monad_Service]. unfold Mongo.findOne.
  rewrite (@find_nothing _ _ _ H). reflexivity.
Qed.

(** X13: in a well-formed store, once [deleteSale] has removed a sale,
    no sale has its identifier any more: [getSaleById] and a second
    [deleteSale] both throw ["Sale not found"]; the store has one sale
    less and is still well formed. *)
Theorem deleteSale_then_not_found
  (i : ObjectId) (w w' : World) (r : Response unit) :
  store_ok w = true ->
  SaleService.deleteSale i w = (Ok r, w') ->
  fst (SaleService.getSaleById i w') = Throw "Sale not found"
  /\ fst (SaleService.deleteSale i w') = Throw "Sale not found"
  /\ S (List.length (w_sales w')) = List.length (w_sales w)
  /\ store_ok w' = true.
Proof.
  intros Hok Hrun. rewrite deleteSale_run in Hrun.
  destruct (delete_first_spec i (w_sales w))
    as [[E N] | (l1 & x & l2 & E & Hx & N & D)];
    [rewrite E in Hrun; discriminate|].
  rewrite D in Hrun. cbn in Hrun. inversion Hrun; subst r w'. clear Hrun.
  cbn [w_sales w_next_id].
  unfold store_ok in *. rewrite E in Hok. cbn [w_sales w_next_id].
  destruct (@ids_rise_split _ _ _ _ _ _ Hok (@has_id_eq _ _ Hx)) as [H1 H2].
  assert (Hnone : none_has_id i (l1 ++ l2) = true).
  { rewrite none_has_id_app.
    rewrite (@ids_rise_outside i 0%N (oid i) l1 H1) by (right; lia).
    rewrite (@ids_rise_outside i (N.succ (oid i)) (w_next_id w) l2 H2)
      by (left; lia).
    reflexivity. }
  split; [rewrite getSaleById_missing by exact Hnone; reflexivity|].
  split.
  - rewrite deleteSale_run. cbn [w_sales].
    destruct (delete_first_spec i (l1 ++ l2))
      as [[E' _] | (k1 & y & k2 & Ek & Hy & _)].
    + rewrite E'. reflexivity.
    + rewrite Ek, none_has_id_app in Hnone. simpl in Hnone. rewrite Hy in Hnone.
      rewrite andb_false_r in Hnone. discriminate.
  - split.
    + rewrite E, !length_app. simpl. lia.
    + apply (@ids_rise_join 0%N (N.succ (oid i))); [|exact H2].
      clear - H1. revert H1. generalize 0%N.
      induction l1 as [|y l1 IH]; intros lo H1; simpl in *.
      * apply N.leb_le in H1. apply N.leb_le. lia.
      * destruct (Sale._id y) as [j|]; [|discriminate].
        apply andb_prop in H1. destruct H1 as [Hj H1]. rewrite Hj. simpl. auto.
Qed.

Lemma deleteSale_then_not_found_witness :
  store_ok world1 = true
  /\ (exists r, fst (SaleService.deleteSale first_id world1) = Ok r)
  /\ fst (SaleService.getSaleById first_id
            (snd (SaleService.deleteSale first_id world1))) = Throw "Sale not found".
Proof.
  assert (Hok : store_ok world1 = true) by (vm_compute; reflexivity).
  assert (Hacc : exists r, fst (SaleService.deleteSale first_id world1) = Ok r)
    by (eexists; vm_compute; reflexivity).
  split; [exact Hok|]. split; [exact Hacc|].
  destruct (SaleService.deleteSale first_id world1) as [[r|m] w'] eqn:E.
  - destruct (@deleteSale_then_not_found _ _ _ _ Hok E) as [H _]. exact H.
  - destruct Hacc as [r Hr]. discriminate Hr.
Defined.


(** [updateSale], run. *)
Lemma updateSale_run (i : Identifier) (d : Sale.data) (w : World) :
  SaleService.updateSale i d w =
  let (s, c1) := Sale.create d (w_clock w) in
  if Sale.isValid (Sale.validate s) then
    let (l, n) := SaleService.update_first i
                    (Sale.toDocument (Sale.calculateTotals s)) (w_sales w) in
    let w1 := {| w_clock := c1; w_next_id := w_next_id w;
                 w_sales := l; w_customers := w_customers w |} in
    if n =? 0 then (Throw "Sale not found", w1)
    else
      match SaleService.getSaleById i w1 with
      | (Ok u, w2) =>
          (Ok {| success := true; data := data u;
                 message := Some "Sale updated successfully"; pagination := None |},
           w2)
      | (Throw e, w2) => (Throw e, w2)
      end
  else
    (Throw (String.append "Validation failed: "
              (join ", " (Sale.errors (Sale.validate s)))),
     {| w_clock := c1; w_next_id := w_next_id w;
        w_sales := w_sales w; w_customers := w_customers w |}).
Proof.
  unfold SaleService.updateSale, SaleService.updateOne, clocked, throw.
  cbv beta iota zeta delta [bind ret Monad_Service].
  destruct (Sale.create d (w_clock w)) as [s c1].
  destruct (Sale.isValid (Sale.validate s)); cbn [negb]; [|reflexivity].
  cbn [w_sales w_clock w_next_id w_customers].
  destruct (SaleService.update_first i _ (w_sales w)) as [l n].
  destruct (n =? 0); reflexivity.
Qed.

(** [getSaleById] on a store where the first sale with the identifier
    is known. *)
Lemma getSaleById_first (i : ObjectId) (w : World) (l1 l2 : list Sale.doc)
  (x : Sale.doc) :
  w_sales w = (l1 ++ x :: l2)%list ->
  none_has_id i l1 = true ->
  SaleService.has_id i x = true ->
  SaleService.getSaleById i w =
  (Ok {| success := true; data := fst (Sale.fromDocument x (w_clock w));
         message := None; pagination := None |},
   {| w_clock := snd (Sale.fromDocument x (w_clock w)); w_next_id := w_next_id w;
      w_sales := w_sales w; w_customers := w_customers w |}).
Proof.
  intros E N Hx.
  unfold SaleService.getSaleById, SaleService.getCollection, clocked, throw.
  cbv beta iota zeta delta [bind ret Monad_Service]. unfold Mongo.findOne.
  rewrite E, (@find_first _ (SaleService.has_id i) l1 l2 x N Hx).
  destruct (Sale.fromDocument x (w_clock w)) as [s c]. cbn [fst snd].
  rewrite ?E. reflexivity.
Qed.

(** X14: [updateSale] throws the validation error for a body that
    fails [validate()] as [Sale.create] built it, and ["Sale not
    found"] for a valid body when no sale has the identifier; either way
    the store is as it was.  Otherwise the first sale with the
    identifier is replaced, in its place and under its identifier, by
    the document of the body alone with its totals calculated: nothing
    of the former document is kept. *)
Theorem updateSale_outcome (i : ObjectId) (d : Sale.data) (w : World) :
  let s := fst (Sale.create d (w_clock w)) in
  let v := Sale.validate s in
  match SaleService.updateSale i d w with
  | (Ok r, w') =>
      Sale.isValid v = true
      /\ message r = Some "Sale updated successfully"
      /\ Sale.id (data r) = Some i
      /\ w_customers w' = w_customers w
      /\ exists l1 x l2,
           w_sales w = (l1 ++ x :: l2)%list
           /\ SaleService.has_id i x = true
           /\ none_has_id i l1 = true
           /\ w_sales w' =
              (l1 ++ Sale.with_id i (Sale.toDocument (Sale.calculateTotals s)) :: l2)%list
  | (Throw m, w') =>
      w_sales w' = w_sales w
      /\ w_customers w' = w_customers w
      /\ ((Sale.isValid v = false
           /\ m = String.append "Validation failed: " (join ", " (Sale.errors v)))
          \/ (Sale.isValid v = true
              /\ m = "Sale not found"
              /\ none_has_id i (w_sales w) = true))
  end.
Proof.
  cbv zeta. rewrite updateSale_run.
  destruct (Sale.create d (w_clock w)) as [s c1]. cbn [fst].
  destruct (Sale.isValid (Sale.validate s)) eqn:V.
  - destruct (update_first_spec i (Sale.toDocument (Sale.calculateTotals s)) (w_sales w))
      as [[E N] | (l1 & x & l2 & E & Hx & N & U)].
    + rewrite E. cbn. repeat split. right. repeat split. exact N.
    + rewrite U. cbn [Z.eqb].
      rewrite (@getSaleById_first i
                 {| w_clock := c1; w_next_id := w_next_id w;
                    w_sales := l1 ++ Sale.with_id i
                                 (Sale.toDocument (Sale.calculateTotals s)) :: l2;
                    w_customers := w_customers w |}
                 l1 l2
                 (Sale.with_id i (Sale.toDocument (Sale.calculateTotals s)))
                 eq_refl N (has_id_with_id i _)).
      cbn [w_clock w_sales w_customers data message].
      pose proof (fromDocument_fields
                    (Sale.with_id i (Sale.toDocument (Sale.calculateTotals s))) c1)
        as Hf.
      cbv zeta in Hf. destruct Hf as (Hid & _).
      split; [reflexivity|]. split; [reflexivity|]. split; [exact Hid|].
      split; [reflexivity|].
      exists l1, x, l2. repeat split; assumption.
  - repeat split. left. split; reflexivity.
Qed.

(** An update keeps what the body does not say at its default, not at
    its former value: the sale of the scenario, updated with a body
    that names no payment method, has none afterwards. *)
Example updateSale_forgets :
  map Sale.doc_paymentMethod (w_sales world1) = ["cash"]
  /\ map Sale.doc_paymentMethod
       (w_sales (snd (SaleService.updateSale first_id
                        {| Sale.d_id := None; Sale.d_mysqlId := None;
                           Sale.d_saleId := Some "SALE-2024-001";
                           Sale.d_customerId := None; Sale.d_customerContact := None;
                           Sale.d_saleItems := Some [two_at_25];
                           Sale.d_subTotal := None; Sale.d_taxAmount := None;
                           Sale.d_discountAmount := None; Sale.d_totalAmount := None;
                           Sale.d_paidAmount := Some 6000; Sale.d_changeAmount := None;
                           Sale.d_paymentMethod := None; Sale.d_saleDate := None;
                           Sale.d_timestamp := None |} world1))) = [""].
Proof. split; vm_compute; reflexivity. Qed.


Lemma In_limited {D} (n : Z) (l : list D) (d : D) :
  In d (Mongo.limited n l) -> In d l.
Proof.
  unfold Mongo.limited. destruct (n =? 0); [tauto|].
  generalize (Z.to_nat (Z.abs n)). intro k. revert l.
  induction k as [|k IH]; intros l H; simpl in H; [contradiction|].
  destruct l as [|x l]; simpl in *; [contradiction|].
  destruct H as [H | H]; [left; exact H | right; auto].
Qed.

Lemma In_skipped {D} (k : nat) (l : list D) (d : D) : In d (skipn k l) -> In d l.
Proof.
  revert l; induction k as [|k IH]; intros l H; simpl in H; [exact H|].
  destruct l as [|x l]; simpl in *; [contradiction | right; auto].
Qed.

(** What a cursor returns was in the collection and matches the
    filter. *)
Lemma toArray_matches {D} (c : Mongo.cursor D) (docs : list D) (d : D) :
  Mongo.toArray c = Ok docs -> In d docs ->
  In d (Mongo.c_docs c) /\ Mongo.c_filter c d = true.
Proof.
  unfold Mongo.toArray. destruct (Mongo.c_skip c <? 0); [discriminate|].
  intros E H. inversion E; subst docs.
  apply In_limited, In_skipped in H. apply In_sorted_docs in H.
  apply filter_In. exact H.
Qed.

Lemma Forall_map_clocked {A B} (f : A -> Clocked B) (P : B -> Prop) (l : list A) :
  (forall a, In a l -> forall c, P (fst (f a c))) ->
  forall c, Forall P (fst (map_clocked f l c)).
Proof.
  induction l as [|x l IH]; intros H c; simpl; [constructor|].
  pose proof (H x (or_introl eq_refl) c) as Hx.
  destruct (f x c) as [y c1]. 
  assert (Hl : Forall P (fst (map_clocked f l c1))).
  { apply IH. intros a Ha. apply H. right. exact Ha. }
  destruct (map_clocked f l c1) as [ys c2]. simpl in *.
  constructor; assumption.
Qed.

(** X15: for a customer other than 0, [getSalesByCustomerId] is
    [getAllSales] with that customer and no dates, response and store
    alike; and every sale it returns is a sale of that customer. *)
Theorem getSalesByCustomerId_filters (c : Z) (o : ListOptions) (w : World) :
  c <> 0 ->
  SaleService.getSalesByCustomerId c o w = SaleService.getAllSales (with_customer c o) w
  /\ match SaleService.getSalesByCustomerId c o w with
     | (Ok r, _) => Forall (fun s => Sale.customerId s = Some c) (data r)
     | (Throw _, _) => True
     end.
Proof.
  intro Hc.
  assert (Ht : truthy (Some c) = true).
  { unfold truthy, falsy, Falsy_number. destruct (Z.eqb_spec c 0);
      [contradiction | reflexivity]. }
  split.
  - unfold SaleService.getSalesByCustomerId, SaleService.getAllSales,
      SaleService.list_filter, with_customer.
    cbn [o_page o_limit o_sortBy o_sortOrder o_startDate o_endDate o_customerId].
    rewrite Ht. reflexivity.
  - unfold SaleService.getSalesByCustomerId, SaleService.getCollection, returned,
      clocked.
    cbv beta iota zeta delta [bind ret Monad_Service].
    match goal with |- context [Mongo.toArray ?cur] =>
      pose proof (@toArray_matches _ cur) as Hm;
      destruct (Mongo.toArray cur) as [docs|m] end; [|exact I].
    cbn [w_clock].
    pose proof (@Forall_map_clocked _ _ Sale.fromDocument
                  (fun s => Sale.customerId s = Some c) docs) as HF.
    match goal with |- context [map_clocked Sale.fromDocument docs ?c0] =>
      specialize (fun H => HF H c0);
      destruct (map_clocked Sale.fromDocument docs c0) as [l' c'] end.
    cbn [data fst] in *. apply HF.
    intros d Hd c0. destruct (Hm docs d eq_refl Hd) as [_ Hf].
    cbn [Mongo.c_filter Mongo.limit Mongo.skip Mongo.sort Mongo.find] in Hf.
    unfold Mongo.sale_matches in Hf. cbn [Mongo.f_saleDate Mongo.f_customerId] in Hf.
    pose proof (fromDocument_fields d c0) as Hfd. cbv zeta in Hfd.
    destruct Hfd as (_ & _ & Hcust & _). rewrite Hcust.
    destruct (Sale.doc_customerId d) as [c'0|]; [|discriminate].
    simpl in Hf. apply Z.eqb_eq in Hf. subst c'0.
    unfold js_or_null. unfold truthy in Ht. 
    destruct (falsy c); [discriminate | reflexivity].
Qed.

Lemma getSalesByCustomerId_filters_witness :
  8 <> 0
  /\ match SaleService.getSalesByCustomerId 8 (page_of 1 10) world_customers with
     | (Ok r, _) => Forall (fun s => Sale.customerId s = Some 8) (data r)
     | (Throw _, _) => True
     end.
Proof.
  split; [lia|].
  destruct (@getSalesByCustomerId_filters 8 (page_of 1 10) world_customers
              ltac:(lia)) as [_ H].
  exact H.
Defined.

(** With customer 0 the two part ways: [getAllSales] takes 0 for no
    customer at all and returns the three sales, [getSalesByCustomerId]
    looks for customer 0 and returns none. *)
Example customer_zero :
  option_map totalCount
    (match fst (SaleService.getAllSales (with_customer 0 (page_of 1 10)) world_customers)
     with Ok r => pagination r | Throw _ => None end) = Some 3
  /\ option_map totalCount
       (match fst (SaleService.getSalesByCustomerId 0 (page_of 1 10) world_customers)
        with Ok r => pagination r | Throw _ => None end) = Some 0.
Proof. split; vm_compute; reflexivity. Qed.


Lemma create_mysqlId (d : Sale.data) (c : Clock) :
  Sale.mysqlId (fst (Sale.create d c)) = js_or_null (Sale.d_mysqlId d).
Proof.
  unfold Sale.create, Sale.new, Date_now, new_Date; cbv zeta.
  destruct (Sale.d_saleDate d) as [sd|]; simpl;
    unfold falsy, Falsy_number;
    match goal with |- context [readings c ?k =? 0] =>
      destruct (readings c k =? 0) end;
    reflexivity.
Qed.

Lemma has_mysqlId_null (x : option Z) (d : Sale.doc) :
  Sale.doc_mysqlId d = js_or_null x -> SaleService.has_mysqlId 0 d = false.
Proof.
  unfold SaleService.has_mysqlId. intros ->.
  destruct x as [v|]; simpl; [|reflexivity].
  unfold falsy, Falsy_number. destruct (v =? 0) eqn:E; [reflexivity | exact E].
Qed.

(** X16: a sale created with a legacy identifier other than 0 that no
    stored sale has is the sale [getSaleByMysqlId] then finds for that
    identifier (the clock never reading 0). *)
Theorem createSale_then_getSaleByMysqlId
  (m : Z) (d : Sale.data) (w w' : World) (r : Response Sale.t) :
  m <> 0 ->
  Sale.d_mysqlId d = Some m ->
  forallb (fun x => negb (SaleService.has_mysqlId m x)) (w_sales w) = true ->
  clock_runs (w_clock w) ->
  SaleService.createSale d w = (Ok r, w') ->
  Sale.mysqlId (data r) = Some m
  /\ SaleService.getSaleByMysqlId m w' =
     (Ok {| success := true; data := data r; message := None; pagination := None |},
      w').
Proof.
  intros Hm Hd Hnone Hclock Hrun. rewrite createSale_run in Hrun.
  pose proof (create_timestamp d Hclock) as Hts.
  pose proof (create_mysqlId d (w_clock w)) as Hmy.
  destruct (Sale.create d (w_clock w)) as [s c1]. cbn [fst] in Hts, Hmy.
  destruct (Sale.isValid (Sale.validate s)); [|discriminate].
  cbv zeta in Hrun.
  set (doc := Sale.with_id {| oid := w_next_id w |}
                (Sale.toDocument (Sale.calculateTotals s))) in *.
  assert (Hdoc : Sale.doc_timestamp doc <> 0) by exact Hts.
  assert (Hdm : Sale.doc_mysqlId doc = Some m).
  { change (Sale.doc_mysqlId doc) with (Sale.mysqlId s). rewrite Hmy, Hd.
    unfold js_or_null, falsy, Falsy_number.
    destruct (Z.eqb_spec m 0); [contradiction | reflexivity]. }
  pose proof (fromDocument_fields doc c1) as Hf. cbv zeta in Hf.
  destruct Hf as (_ & Hfm & _).
  pose proof (fromDocument_still doc c1 c1 Hdoc) as Hstill1.
  destruct (Sale.fromDocument doc c1) as [s' c2] eqn:Hfrom.
  cbn [fst] in Hfm, Hstill1. inversion Hstill1; subst c2.
  inversion Hrun; subst r w'. cbn [data]. split.
  - rewrite Hfm, Hdm. unfold js_or_null, falsy, Falsy_number.
    destruct (Z.eqb_spec m 0); [contradiction | reflexivity].
  - unfold SaleService.getSaleByMysqlId, SaleService.getCollection, clocked, throw.
    cbv beta iota zeta delta [bind ret Monad_Service]. cbn [w_sales w_clock].
    unfold Mongo.findOne.
    rewrite (@find_first _ (SaleService.has_mysqlId m) (w_sales w) [] doc Hnone).
    + cbv beta iota. cbn [w_clock w_next_id w_sales w_customers].
      rewrite Hfrom. reflexivity.
    + unfold SaleService.has_mysqlId. rewrite Hdm. apply Z.eqb_refl.
Qed.

Lemma createSale_then_getSaleByMysqlId_witness :
  456 <> 0
  /\ Sale.d_mysqlId (with_mysqlId (Some 456) paid_60) = Some 456
  /\ forallb (fun x => negb (SaleService.has_mysqlId 456 x)) (w_sales world1) = true
  /\ clock_runs (w_clock world1)
  /\ exists r,
       fst (SaleService.createSale (with_mysqlId (Some 456) paid_60) world1) = Ok r
       /\ fst (SaleService.getSaleByMysqlId 456
                 (snd (SaleService.createSale (with_mysqlId (Some 456) paid_60) world1)))
          = Ok {| success := true; data := data r; message := None;
                  pagination := None |}.
Proof.
  assert (Hc : clock_runs (w_clock world1)).
  { intro k. change (readings (w_clock world1) k) with (1700000000000 + Z.of_nat k).
    lia. }
  assert (Hnone : forallb (fun x => negb (SaleService.has_mysqlId 456 x))
                    (w_sales world1) = true) by (vm_compute; reflexivity).
  assert (Hacc : exists r,
             fst (SaleService.createSale (with_mysqlId (Some 456) paid_60) world1)
             = Ok r) by (eexists; vm_compute; reflexivity).
  split; [lia|]. split; [reflexivity|]. split; [exact Hnone|]. split; [exact Hc|].
  destruct (SaleService.createSale (with_mysqlId (Some 456) paid_60) world1)
    as [[r|m] w'] eqn:E.
  - destruct (@createSale_then_getSaleByMysqlId 456
                (with_mysqlId (Some 456) paid_60) world1 w' r
                ltac:(lia) eq_refl Hnone Hc E) as [_ H].
    exists r. split; [reflexivity|]. cbn [snd]. rewrite H. reflexivity.
  - destruct Hacc as [r Hr]. discriminate Hr.
Defined.

(** X17: [createSale] never stores the legacy identifier 0: a body
    with [mysqlId: 0] is stored with none.  So, in a store where no sale
    has the legacy identifier 0, none has it after a [createSale],
    whatever the body, and [getSaleByMysqlId(0)] throws ["Sale not
    found"]. *)
Theorem getSaleByMysqlId_zero (d : Sale.data) (w : World) :
  forallb (fun x => negb (SaleService.has_mysqlId 0 x)) (w_sales w) = true ->
  let w' := snd (SaleService.createSale d w) in
  forallb (fun x => negb (SaleService.has_mysqlId 0 x)) (w_sales w') = true
  /\ fst (SaleService.getSaleByMysqlId 0 w') = Throw "Sale not found".
Proof.
  intro Hnone. cbv zeta.
  assert (H : forallb (fun x => negb (SaleService.has_mysqlId 0 x))
                (w_sales (snd (SaleService.createSale d w))) = true).
  { rewrite createSale_run.
    pose proof (create_mysqlId d (w_clock w)) as Hmy.
    destruct (Sale.create d (w_clock w)) as [s c1]. cbn [fst] in Hmy.
    destruct (Sale.isValid (Sale.validate s)); [|exact Hnone].
    cbv zeta. destruct (Sale.fromDocument _ c1) as [s' c2].
    cbn [snd w_sales]. rewrite forallb_app, Hnone. cbn [forallb andb].
    rewrite (@has_mysqlId_null (Sale.d_mysqlId d)); [reflexivity|].
    exact Hmy. }
  split; [exact H|].
  unfold SaleService.getSaleByMysqlId, SaleService.getCollection, throw.
  cbv beta iota zeta delta [bind ret Monad_Service]. unfold Mongo.findOne.
  rewrite (@find_nothing _ _ _ H). reflexivity.
Qed.

Lemma getSaleByMysqlId_zero_witness :
  forallb (fun x => negb (SaleService.has_mysqlId 0 x)) (w_sales world0) = true
  /\ fst (SaleService.getSaleByMysqlId 0
            (snd (SaleService.createSale (with_mysqlId (Some 0) paid_60) world0)))
     = Throw "Sale not found".
Proof.
  split; [reflexivity|].
  destruct (@getSaleByMysqlId_zero (with_mysqlId (Some 0) paid_60) world0 eq_refl)
    as [_ H].
  exact H.
Defined.


(** A string is the identifier of no stored sale. *)
Lemma none_has_id_string (id : string) (l : list Sale.doc) :
  none_has_id (OfString id) l = true.
Proof. induction l as [|d l IH]; simpl; [reflexivity | exact IH]. Qed.

Lemma update_first_none (i : Identifier) (d : Sale.doc) (l : list Sale.doc) :
  none_has_id i l = true -> SaleService.update_first i d l = (l, 0).
Proof.
  induction l as [|y l IH]; simpl; intro H; [reflexivity|].
  apply andb_prop in H. destruct H as [Hy H].
  apply negb_true_iff in Hy. rewrite Hy, (IH H). reflexivity.
Qed.

Lemma delete_first_none (i : Identifier) (l : list Sale.doc) :
  none_has_id i l = true -> SaleService.delete_first i l = (l, 0).
Proof.
  induction l as [|y l IH]; simpl; intro H; [reflexivity|].
  apply andb_prop in H. destruct H as [Hy H].
  apply negb_true_iff in Hy. rewrite Hy, (IH H). reflexivity.
Qed.

(** X18: what the sale routes answer.  Creating answers 201, or 400
    when the body fails [validate()].  The three routes that take an
    identifier hand the string of the URL to the service as it is, and
    the service asks the store for the document whose [_id] is that
    string; the store keeps an [ObjectId] there, so none is found:
    reading and deleting answer 404 with ["Sale not found"], and
    updating answers 400 when the body fails [validate()] and 404
    otherwise, whatever the string and whatever the store holds, and
    the collection stays as it was.  The sale of the scenario is in its
    store all the while: the service finds it under the identifier the
    store gave it. *)
Theorem sale_routes_status (id : string) (body : Sale.data) (w : World) :
  let v := Sale.validate (fst (Sale.create body (w_clock w))) in
  SaleController.status (fst (SaleController.createSale body w)) =
    (if Sale.isValid v then 201 else 400)
  /\ (fst (SaleController.getSaleById id w) = not_found
      /\ w_sales (snd (SaleController.getSaleById id w)) = w_sales w)
  /\ (fst (SaleController.deleteSale id w) = not_found
      /\ w_sales (snd (SaleController.deleteSale id w)) = w_sales w)
  /\ (fst (SaleController.updateSale id body w) =
        (if Sale.isValid v then not_found
         else {| SaleController.status := 400;
                 SaleController.json :=
                   SaleController.Failure
                     ("Validation failed: " ++ join ", " (Sale.errors v)) |})
      /\ w_sales (snd (SaleController.updateSale id body w)) = w_sales w)
  /\ (exists r, fst (SaleService.getSaleById first_id world1) = Ok r)
  /\ fst (SaleController.getSaleById id world1) = not_found.
Proof.
  cbv zeta.
  assert (Hget : forall w0,
             SaleController.getSaleById id w0 = (not_found, w0)).
  { intro w0. unfold SaleController.getSaleById.
    rewrite (@getSaleById_missing (OfString id) w0 (none_has_id_string id _)).
    reflexivity. }
  split; [|split; [|split; [|split; [|split]]]].
  - unfold SaleController.createSale.
    pose proof (createSale_outcome body w) as H. cbv zeta in H.
    destruct (SaleService.createSale body w) as [[r|m] w'].
    + destruct H as [-> _]. reflexivity.
    + destruct H as (-> & _). reflexivity.
  - rewrite Hget. split; reflexivity.
  - unfold SaleController.deleteSale. rewrite deleteSale_run.
    rewrite (delete_first_none _ _ (none_has_id_string id (w_sales w))).
    split; reflexivity.
  - unfold SaleController.updateSale. rewrite updateSale_run.
    destruct (Sale.create body (w_clock w)) as [s c1]. cbn [fst].
    destruct (Sale.isValid (Sale.validate s)); [|split; reflexivity].
    rewrite (update_first_none _ _ _ (none_has_id_string id (w_sales w))).
    split; reflexivity.
  - eexists. vm_compute. reflexivity.
  - rewrite Hget. reflexivity.
Qed.

End StoreProps.

(** ** Customers and suppliers *)

Section CustomerProps.

#[local] Arguments CustomerService.has_id : simpl never.

Lemma customer_validate_errors (c : Customer.t) :
  Sale.errors (Customer.validate c) =
    ((if blank (Customer.contact c) then ["Contact is required"] else [])
     ++ (if negb (String.eqb (Customer.email c) "")
            && negb (Customer.isValidEmail (Customer.email c))
         then ["Invalid email format"] else []))%list.
Proof.
  unfold Customer.validate, Sale.push_if, blank, falsy, Falsy_string.
  cbn [Sale.errors].
  destruct (String.eqb (Customer.contact c) ""
            || String.eqb (trim (Customer.contact c)) "");
    destruct (negb (String.eqb (Customer.email c) "")
              && negb (Customer.isValidEmail (Customer.email c)));
    reflexivity.
Qed.

Lemma customer_validate_isValid (c : Customer.t) :
  Sale.isValid (Customer.validate c) =
  negb (blank (Customer.contact c))
  && (String.eqb (Customer.email c) "" || Customer.isValidEmail (Customer.email c)).
Proof.
  change (Sale.isValid (Customer.validate c))
    with (List.length (Sale.errors (Customer.validate c)) =? 0)%nat.
  rewrite customer_validate_errors.
  destruct (blank (Customer.contact c));
    destruct (String.eqb (Customer.email c) "");
    destruct (Customer.isValidEmail (Customer.email c)); reflexivity.
Qed.

Lemma customer_fromDocument_id (d : Customer.doc) (c : Clock) :
  Customer.id (fst (Customer.fromDocument d c)) = Customer._id d.
Proof.
  unfold Customer.fromDocument, Customer.new.
  cbv beta iota zeta delta [bind ret Monad_Clocked].
  destruct (js_or_do _ new_Date c) as [cd c1].
  destruct (js_or_do _ Date_now c1) as [ts c2].
  cbn [fst Customer.id Customer.d_id]. destruct (Customer._id d); reflexivity.
Qed.

(** X19: [createCustomer] stores a customer exactly when its contact
    is not blank and its email is empty or well formed, and then stores
    it as validated, after the customers already there and under the
    next identifier; otherwise it throws the messages of the broken
    rules and the store is as it was.  Sales are never touched. *)
Theorem createCustomer_stores (d : Customer.data) (w : World) :
  let c := fst (Customer.create d (w_clock w)) in
  match CustomerService.createCustomer d w with
  | (Ok r, w') =>
      blank (Customer.contact c) = false
      /\ (String.eqb (Customer.email c) ""
          || Customer.isValidEmail (Customer.email c)) = true
      /\ w_customers w' =
           (w_customers w
            ++ [CustomerService.with_id {| oid := w_next_id w |}
                  (Customer.toDocument c)])%list
      /\ Customer.id (data r) = Some {| oid := w_next_id w |}
      /\ w_sales w' = w_sales w
  | (Throw m, w') =>
      (blank (Customer.contact c)
       || negb (String.eqb (Customer.email c) "")
          && negb (Customer.isValidEmail (Customer.email c))) = true
      /\ m = String.append "Validation failed: "
               (join ", " (Sale.errors (Customer.validate c)))
      /\ w_customers w' = w_customers w
      /\ w_sales w' = w_sales w
  end.
Proof.
  cbv zeta.
  unfold CustomerService.createCustomer, CustomerService.insertOne, clocked, throw.
  cbv beta iota zeta delta [bind ret Monad_Service].
  destruct (Customer.create d (w_clock w)) as [c c1]. cbn [fst].
  pose proof (customer_validate_isValid c) as V.
  destruct (Sale.isValid (Customer.validate c)); cbn [negb].
  - cbn [w_clock w_next_id w_sales w_customers].
    pose proof (customer_fromDocument_id
                  (CustomerService.with_id {| oid := w_next_id w |}
                     (Customer.toDocument c)) c1) as Hid.
    destruct (Customer.fromDocument _ c1) as [c' c2]. cbn [fst] in Hid.
    symmetry in V. apply andb_prop in V. destruct V as [Vc Ve].
    apply negb_true_iff in Vc.
    cbn [data w_customers w_sales]. repeat split; assumption.
  - cbn [w_customers w_sales]. split; [|repeat split].
    destruct (blank (Customer.contact c)); [reflexivity|].
    destruct (String.eqb (Customer.email c) "");
      destruct (Customer.isValidEmail (Customer.email c)); try discriminate;
      reflexivity.
Qed.

(** X20: [Supplier.validate()] reports each broken rule, and accepts a
    supplier exactly when name and contact are not blank, the email is
    empty or well formed, and the phone is empty or well formed. *)
Theorem supplier_validate (s : Supplier.t) :
  let v := Supplier.validate s in
  Sale.errors v =
    ((if blank (Supplier.name s) then ["Supplier name is required"] else [])
     ++ (if blank (Supplier.contact s)
         then ["Contact information is required"] else [])
     ++ (if negb (String.eqb (Supplier.email s) "")
            && negb (Supplier.isValidEmail (Supplier.email s))
         then ["Invalid email format"] else [])
     ++ (if negb (String.eqb (Supplier.phone s) "")
            && negb (Supplier.isValidPhone (Supplier.phone s))
         then ["Invalid phone number format"] else []))%list
  /\ Sale.isValid v =
       negb (blank (Supplier.name s))
       && negb (blank (Supplier.contact s))
       && (String.eqb (Supplier.email s) ""
           || Supplier.isValidEmail (Supplier.email s))
       && (String.eqb (Supplier.phone s) ""
           || Supplier.isValidPhone (Supplier.phone s)).
Proof.
  cbv zeta. unfold Supplier.validate, Sale.push_if, blank, falsy, Falsy_string.
  cbn [Sale.errors Sale.isValid].
  destruct (String.eqb (Supplier.name s) "" || String.eqb (trim (Supplier.name s)) "");
    destruct (String.eqb (Supplier.contact s) ""
              || String.eqb (trim (Supplier.contact s)) "");
    destruct (String.eqb (Supplier.email s) "");
    destruct (Supplier.isValidEmail (Supplier.email s));
    destruct (String.eqb (Supplier.phone s) "");
    destruct (Supplier.isValidPhone (Supplier.phone s));
    split; reflexivity.
Qed.

Lemma customer_has_id_eq (i : ObjectId) (d : Customer.doc) :
  CustomerService.has_id i d = true -> Customer._id d = Some i.
Proof.
  unfold CustomerService.has_id. destruct (Customer._id d) as [[j]|]; [|discriminate].
  destruct i as [i]. simpl. intro H. apply N.eqb_eq in H. subst. reflexivity.
Qed.

Lemma customer_update_first_spec (i : ObjectId) (d : Customer.doc)
  (l : list Customer.doc) :
  (CustomerService.update_first i d l = (l, 0) /\ no_customer_has_id i l = true)
  \/ (exists l1 x l2,
        l = (l1 ++ x :: l2)%list
        /\ CustomerService.has_id i x = true
        /\ no_customer_has_id i l1 = true
        /\ CustomerService.update_first i d l =
           ((l1 ++ CustomerService.with_id i d :: l2)%list, 1)).
Proof.
  induction l as [|y l IH]; simpl.
  - left. split; reflexivity.
  - destruct (CustomerService.has_id i y) eqn:Hy.
    + right. exists [], y, l. unfold CustomerService.set_fields.
      rewrite (customer_has_id_eq _ _ Hy). repeat split. exact Hy.
    + destruct IH as [[E N] | (l1 & x & l2 & E & Hx & N & D)].
      * left. rewrite E. simpl. split; [reflexivity | exact N].
      * right. exists (y :: l1), x, l2. rewrite D, E. simpl. rewrite Hy.
        repeat split; assumption.
Qed.

Lemma customer_has_id_with_id (i : ObjectId) (d : Customer.doc) :
  CustomerService.has_id i (CustomerService.with_id i d) = true.
Proof. unfold CustomerService.has_id. simpl. apply N.eqb_refl. Qed.

(** X24: [updateCustomer] validates the body before it looks for the
    customer: a body with a blank contact or a malformed email gets the
    validation error whether or not the identifier is known; a valid
    body for an unknown identifier gets ["Customer not found"]; either
    way the store is as it was.  Otherwise the first customer with the
    identifier is replaced, in place, by the document of the body alone,
    and the response carries the identifier. *)
Theorem updateCustomer_outcome (i : ObjectId) (d : Customer.data) (w : World) :
  let c := fst (Customer.create d (w_clock w)) in
  let v := Customer.validate c in
  match CustomerService.updateCustomer i d w with
  | (Ok r, w') =>
      Sale.isValid v = true
      /\ message r = Some "Customer updated successfully"
      /\ Customer.id (data r) = Some i
      /\ w_sales w' = w_sales w
      /\ exists l1 x l2,
           w_customers w = (l1 ++ x :: l2)%list
           /\ CustomerService.has_id i x = true
           /\ no_customer_has_id i l1 = true
           /\ w_customers w' =
              (l1 ++ CustomerService.with_id i (Customer.toDocument c) :: l2)%list
  | (Throw m, w') =>
      w_customers w' = w_customers w
      /\ w_sales w' = w_sales w
      /\ ((Sale.isValid v = false
           /\ m = String.append "Validation failed: " (join ", " (Sale.errors v)))
          \/ (Sale.isValid v = true
              /\ m = "Customer not found"
              /\ no_customer_has_id i (w_customers w) = true))
  end.
Proof.
  cbv zeta.
  unfold CustomerService.updateCustomer, CustomerService.updateOne,
    CustomerService.getCustomerById, CustomerService.getCollection, clocked, throw.
  cbv beta iota zeta delta [bind ret Monad_Service].
  destruct (Customer.create d (w_clock w)) as [c c1]. cbn [fst].
  destruct (Sale.isValid (Customer.validate c)) eqn:V; cbn [negb].
  - cbn [w_sales w_clock w_next_id w_customers].
    destruct (customer_update_first_spec i (Customer.toDocument c) (w_customers w))
      as [[E N] | (l1 & x & l2 & E & Hx & N & U)].
    + rewrite E. cbn. repeat split. right. repeat split. exact N.
    + rewrite U. cbn [Z.eqb w_sales w_clock w_next_id w_customers].
      unfold Mongo.findOne.
      rewrite (@find_first _ (CustomerService.has_id i) l1 l2 _ N
                 (customer_has_id_with_id i _)).
      cbv beta iota. cbn [w_clock w_next_id w_sales w_customers].
      pose proof (customer_fromDocument_id
                    (CustomerService.with_id i (Customer.toDocument c)) c1) as Hid.
      destruct (Customer.fromDocument _ c1) as [c' c2]. cbn [fst] in Hid.
      cbn [message data w_sales w_customers].
      split; [reflexivity|]. split; [reflexivity|]. split; [exact Hid|].
      split; [reflexivity|].
      exists l1, x, l2. repeat split; assumption.
  - repeat split. left. split; reflexivity.
Qed.

End CustomerProps.

(** ** More on sales *)

Section MoreSaleProps.

Lemma sum_app (l1 l2 : list Z) : sum (l1 ++ l2) = sum l1 + sum l2.
Proof. unfold sum. induction l1 as [|x l1 IH]; simpl; lia. Qed.

(** X21: [addItem] appends one line, whose [subTotal] is quantity
    times unit price whatever [subTotal] the data carried, and leaves
    the sale with its totals derived: [subTotal] is the sum over the
    former lines plus that product, whatever [subTotal] the sale held
    before; [totalAmount] and [changeAmount] follow from it. *)
Theorem addItem_adds_line (itemData : SaleItem.fields) (s : Sale.t) :
  let s' := Sale.addItem itemData s in
  Sale.saleItems s' = (Sale.saleItems s ++ [added_line itemData])%list
  /\ Sale.subTotal s' =
       sum (map line_amount (Sale.saleItems s))
       + SaleItem.quantity itemData * SaleItem.unitPrice itemData
  /\ Sale.totalAmount s' =
       Sale.subTotal s' + Sale.taxAmount s - Sale.discountAmount s
  /\ Sale.changeAmount s' = Sale.paidAmount s - Sale.totalAmount s'.
Proof.
  cbv zeta. split; [reflexivity|]. split; [|split; reflexivity].
  unfold Sale.addItem. rewrite subTotal_calculateTotals.
  cbn [Sale.saleItems Sale.set_saleItems]. rewrite map_app, sum_app.
  f_equal. cbn [map sum fold_right]. unfold line_amount.
  cbn [SaleItem.get SaleItem.subTotal SaleItem.quantity SaleItem.unitPrice].
  destruct (SaleItem.quantity itemData * SaleItem.unitPrice itemData); lia.
Qed.

Lemma inverted_matches_nothing
  (startDate endDate : Date) (customerId : option Z) (l : list Sale.doc) :
  epoch_ms endDate < epoch_ms startDate ->
  List.filter
    (Mongo.sale_matches (SaleService.list_filter (Some startDate) (Some endDate)
                           customerId)) l = [].
Proof.
  intro H. induction l as [|d l IH]; [reflexivity|].
  cbn [List.filter]. rewrite IH.
  assert (E : Mongo.sale_matches
                (SaleService.list_filter (Some startDate) (Some endDate) customerId) d
              = false).
  { unfold SaleService.list_filter, Mongo.sale_matches, Mongo.date_matches.
    cbn [truthy falsy Falsy_Date negb orb].
    destruct (truthy customerId);
      cbn [Mongo.f_saleDate Mongo.f_customerId Mongo.gte Mongo.lte];
      destruct (Z.leb_spec (epoch_ms startDate) (epoch_ms (Sale.doc_saleDate d)));
      destruct (Z.leb_spec (epoch_ms (Sale.doc_saleDate d)) (epoch_ms endDate));
      try reflexivity; lia. }
  rewrite E. reflexivity.
Qed.

(** X22: a date range whose end lies before its start is no error: the
    analytics are the four zeros, and a list query with [page >= 1] and
    [limit >= 1] returns no sale, counts none and reports no page. *)
Theorem inverted_date_range
  (startDate endDate : Date) (o : ListOptions) (w : World) :
  epoch_ms endDate < epoch_ms startDate ->
  1 <= default_to 1 (o_page o) ->
  1 <= default_to 10 (o_limit o) ->
  SaleService.getSalesAnalytics (Some startDate) (Some endDate) w =
    (Ok {| success := true; data := no_statistics; message := None;
           pagination := None |}, w)
  /\ exists r w',
       SaleService.getAllSales (between startDate endDate o) w = (Ok r, w')
       /\ data r = []
       /\ pagination r =
            Some {| page := default_to 1 (o_page o);
                    limit := default_to 10 (o_limit o);
                    totalCount := 0; totalPages := Finite 0 |}.
Proof.
  intros H Hp Hl. split.
  - rewrite getSalesAnalytics_runs, analytics_filter_list_filter.
    unfold Mongo.aggregate.
    rewrite (@inverted_matches_nothing startDate endDate None (w_sales w) H).
    reflexivity.
  - destruct (@getAllSales_page (between startDate endDate o) w Hp Hl)
      as (r & w' & Hrun & _ & _ & Hd & Hpg).
    exists r, w'. split; [exact Hrun|].
    cbn [between o_page o_limit o_sortBy o_sortOrder o_startDate o_endDate
         o_customerId] in Hd, Hpg.
    rewrite (@inverted_matches_nothing startDate endDate (o_customerId o)
               (w_sales w) H) in Hd, Hpg.
    split.
    + rewrite Hd. unfold page_slice, Mongo.sorted_docs, Mongo.sort_by.
      destruct (default_to Mongo.Descending (o_sortOrder o));
        cbn [fold_right]; rewrite skipn_nil, firstn_nil; reflexivity.
    + rewrite Hpg. cbn [List.length Z.of_nat]. unfold Math_ceil_div.
      destruct (Z.eqb_spec (default_to 10 (o_limit o)) 0); [lia|].
      rewrite Z.div_0_l by assumption. reflexivity.
Qed.

Lemma inverted_date_range_witness :
  epoch_ms {| epoch_ms := 1 |} < epoch_ms year_2100
  /\ 1 <= default_to 1 (o_page (page_of 1 10))
  /\ 1 <= default_to 10 (o_limit (page_of 1 10))
  /\ fst (SaleService.getSalesAnalytics (Some year_2100) (Some {| epoch_ms := 1 |})
            (world_after 3)) =
     Ok {| success := true; data := no_statistics; message := None;
           pagination := None |}.
Proof.
  assert (H1 : epoch_ms {| epoch_ms := 1 |} < epoch_ms year_2100)
    by (vm_compute; reflexivity).
  assert (H2 : 1 <= default_to 1 (o_page (page_of 1 10))) by (simpl; lia).
  assert (H3 : 1 <= default_to 10 (o_limit (page_of 1 10))) by (simpl; lia).
  split; [exact H1|]. split; [exact H2|]. split; [exact H3|].
  destruct (@inverted_date_range year_2100 {| epoch_ms := 1 |} (page_of 1 10)
              (world_after 3) H1 H2 H3) as [H _].
  rewrite H. reflexivity.
Defined.

End MoreSaleProps.

(** ** The order of a list query *)

Section OrderProps.

Lemma insert_by_sorted {D} (le : D -> D -> bool) (x : D) (l : list D) :
  (forall a b, le a b = false -> le b a = true) ->
  (forall a b c, le a b = true -> le b c = true -> le a c = true) ->
  StronglySorted (fun a b => le a b = true) l ->
  StronglySorted (fun a b => le a b = true) (Mongo.insert_by le x l).
Proof.
  intros Htotal Htrans. induction l as [|y l IH]; intro Hs; simpl.
  - constructor; constructor.
  - inversion Hs as [|y' l' Hl Hy]; subst.
    destruct (le x y) eqn:E.
    + constructor; [exact Hs|]. constructor; [exact E|].
      rewrite Forall_forall in *. intros z Hz. apply (Htrans x y z E). auto.
    + constructor; [apply IH; exact Hl|].
      rewrite Forall_forall in *. intros z Hz.
      apply In_insert_by in Hz. destruct Hz as [-> | Hz]; auto.
Qed.

Lemma sort_by_sorted {D} (le : D -> D -> bool) (l : list D) :
  (forall a b, le a b = false -> le b a = true) ->
  (forall a b c, le a b = true -> le b c = true -> le a c = true) ->
  StronglySorted (fun a b => le a b = true) (Mongo.sort_by le l).
Proof.
  intros Htotal Htrans. unfold Mongo.sort_by.
  induction l as [|x l IH]; simpl; [constructor|].
  apply insert_by_sorted; assumption.
Qed.

Lemma skipn_sorted {D} (R : D -> D -> Prop) (k : nat) (l : list D) :
  StronglySorted R l -> StronglySorted R (skipn k l).
Proof.
  revert l; induction k as [|k IH]; intros l H; simpl; [exact H|].
  destruct l as [|x l]; [constructor|]. inversion H; subst. auto.
Qed.

Lemma firstn_sorted {D} (R : D -> D -> Prop) (k : nat) (l : list D) :
  StronglySorted R l -> StronglySorted R (firstn k l).
Proof.
  revert l; induction k as [|k IH]; intros l H; simpl; [constructor|].
  destruct l as [|x l]; [constructor|]. inversion H as [|x' l' Hl Hx]; subst.
  constructor; [auto|].
  rewrite Forall_forall in *. intros z Hz. apply Hx.
  clear - Hz. revert l Hz. induction k as [|k IHk]; intros l Hz; simpl in Hz;
    [contradiction|].
  destruct l as [|y l]; simpl in *; [contradiction|].
  destruct Hz as [-> | Hz]; [left; reflexivity | right; auto].
Qed.

Lemma map_sorted {D} (h : D -> Z) (R : Z -> Z -> Prop) (l : list D) :
  StronglySorted (fun a b => R (h a) (h b)) l -> StronglySorted R (map h l).
Proof.
  induction 1 as [|x l Hl IH Hx]; simpl; constructor; [exact IH|].
  rewrite Forall_forall in *. intros z Hz. apply in_map_iff in Hz.
  destruct Hz as (y & <- & Hy). auto.
Qed.

Lemma map_map_clocked {A B} (f : A -> Clocked B) (g : B -> Z) (h : A -> Z)
  (l : list A) :
  (forall a, In a l -> forall c, g (fst (f a c)) = h a) ->
  forall c, map g (fst (map_clocked f l c)) = map h l.
Proof.
  induction l as [|x l IH]; intros H c; simpl; [reflexivity|].
  pose proof (H x (or_introl eq_refl) c) as Hx.
  destruct (f x c) as [y c1].
  assert (Hl : map g (fst (map_clocked f l c1)) = map h l).
  { apply IH. intros a Ha. apply H. right. exact Ha. }
  destruct (map_clocked f l c1) as [ys c2]. simpl in *. congruence.
Qed.

Lemma fromDocument_timestamp (d : Sale.doc) (c : Clock) :
  Sale.doc_timestamp d <> 0 ->
  Sale.timestamp (fst (Sale.fromDocument d c)) = Sale.doc_timestamp d.
Proof.
  intro H. rewrite (fromDocument_still d c c H). cbn [fst].
  unfold Sale.fromDocument, Sale.new.
  cbv beta iota delta [bind ret Monad_Clocked].
  cbn [Sale.d_saleDate Sale.d_timestamp]. rewrite js_or_do_date.
  rewrite js_or_do_truthy; [reflexivity|].
  unfold falsy, Falsy_number. destruct (Z.eqb_spec (Sale.doc_timestamp d) 0);
    [contradiction | reflexivity].
Qed.

Lemma In_firstn_incl {D} (k : nat) (l : list D) (d : D) :
  In d (firstn k l) -> In d l.
Proof.
  revert l; induction k as [|k IH]; intros l H; simpl in H; [contradiction|].
  destruct l as [|x l]; simpl in *; [contradiction|].
  destruct H as [H | H]; [left; exact H | right; auto].
Qed.

Lemma sorted_weaken {D} (R R' : D -> D -> Prop) (l : list D) :
  (forall a b, R a b -> R' a b) -> StronglySorted R l -> StronglySorted R' l.
Proof.
  intros HR. induction 1 as [|x l Hl IH Hx]; constructor; [exact IH|].
  rewrite Forall_forall in *. auto.
Qed.

Lemma sorted_by_timestamp (dir : Mongo.SortDirection) (l : list Sale.doc) :
  StronglySorted
    (fun a b => in_order dir (Sale.doc_timestamp a) (Sale.doc_timestamp b))
    (Mongo.sorted_docs (Some (Mongo.sale_field "timestamp", dir)) l).
Proof.
  destruct dir; cbn [Mongo.sorted_docs in_order].
  - apply (@sorted_weaken _
             (fun a b => Mongo.key_leb (Mongo.sale_field "timestamp" a)
                           (Mongo.sale_field "timestamp" b) = true)).
    + intros a b H. cbn in H. apply Z.leb_le in H. exact H.
    + apply sort_by_sorted.
      * intros a b H. cbn in *. apply Z.leb_gt in H. apply Z.leb_le. lia.
      * intros a b c H1 H2. cbn in *. apply Z.leb_le in H1, H2. apply Z.leb_le. lia.
  - apply (@sorted_weaken _
             (fun a b => Mongo.key_leb (Mongo.sale_field "timestamp" b)
                           (Mongo.sale_field "timestamp" a) = true)).
    + intros a b H. cbn in H. apply Z.leb_le in H. exact H.
    + apply (@sort_by_sorted _
               (fun x y => Mongo.key_leb (Mongo.sale_field "timestamp" y)
                             (Mongo.sale_field "timestamp" x))).
      * intros a b H. cbn in *. apply Z.leb_gt in H. apply Z.leb_le. lia.
      * intros a b c H1 H2. cbn in *. apply Z.leb_le in H1, H2. apply Z.leb_le. lia.
Qed.

(** X23: a list query sorted by timestamp, as it is when no [sortBy]
    is given, returns the sales of its page in the order asked for,
    which is newest first when no [sortOrder] is given (for [page >= 1],
    [limit >= 1] and stored timestamps other than 0). *)
Theorem getAllSales_by_timestamp (o : ListOptions) (w : World) :
  default_to "timestamp" (o_sortBy o) = "timestamp" ->
  1 <= default_to 1 (o_page o) ->
  1 <= default_to 10 (o_limit o) ->
  forallb (fun d => negb (Sale.doc_timestamp d =? 0)) (w_sales w) = true ->
  exists r w',
    SaleService.getAllSales o w = (Ok r, w')
    /\ StronglySorted (in_order (default_to Mongo.Descending (o_sortOrder o)))
         (map Sale.timestamp (data r)).
Proof.
  intros Hby Hp Hl Hts.
  destruct (@getAllSales_page o w Hp Hl) as (r & w' & Hrun & _ & _ & Hd & _).
  exists r, w'. split; [exact Hrun|].
  rewrite Hby in Hd. rewrite Hd.
  rewrite (@map_map_clocked _ _ Sale.fromDocument Sale.timestamp Sale.doc_timestamp).
  - apply map_sorted. unfold page_slice.
    apply firstn_sorted, skipn_sorted, sorted_by_timestamp.
  - intros d Hin c. apply fromDocument_timestamp.
    unfold page_slice in Hin.
    apply In_firstn_incl in Hin.
    apply In_skipped in Hin. apply In_sorted_docs in Hin.
    apply filter_In in Hin. destruct Hin as [Hin _].
    rewrite forallb_forall in Hts. specialize (Hts d Hin).
    apply negb_true_iff in Hts. apply Z.eqb_neq. exact Hts.
Qed.

Lemma getAllSales_by_timestamp_witness :
  default_to "timestamp" (o_sortBy (page_of 1 10)) = "timestamp"
  /\ 1 <= default_to 1 (o_page (page_of 1 10))
  /\ 1 <= default_to 10 (o_limit (page_of 1 10))
  /\ forallb (fun d => negb (Sale.doc_timestamp d =? 0)) (w_sales (world_after 3))
     = true
  /\ exists r w',
       SaleService.getAllSales (page_of 1 10) (world_after 3) = (Ok r, w')
       /\ StronglySorted (fun a b => b <= a) (map Sale.timestamp (data r)).
Proof.
  assert (H1 : default_to "timestamp" (o_sortBy (page_of 1 10)) = "timestamp")
    by reflexivity.
  assert (H2 : 1 <= default_to 1 (o_page (page_of 1 10))) by (simpl; lia).
  assert (H3 : 1 <= default_to 10 (o_limit (page_of 1 10))) by (simpl; lia).
  assert (H4 : forallb (fun d => negb (Sale.doc_timestamp d =? 0))
                 (w_sales (world_after 3)) = true) by (vm_compute; reflexivity).
  split; [exact H1|]. split; [exact H2|]. split; [exact H3|]. split; [exact H4|].
  exact (@getAllSales_by_timestamp (page_of 1 10) (world_after 3) H1 H2 H3 H4).
Defined.

(** Three sales created one after the other come back newest first. *)
Example getAllSales_newest_first :
  match fst (SaleService.getAllSales (page_of 1 10) (world_after 3)) with
  | Ok r => map Sale.id (data r)
  | Throw _ => []
  end = [Some {| oid := 3 |}; Some {| oid := 2 |}; Some {| oid := 1 |}].
Proof. vm_compute. reflexivity. Qed.


End OrderProps.
